(** * MedExplain: the query flow, saved answers and ingestion triggers

    A shallow embedding of the pages that talk to the database
    ([Chat.handleSubmit], [Chat.handleSave], [Cases.handleDelete],
    [Admin.triggerWebhook]) together with the part of the SQL schema
    (tables, nullability, row-level policies) those handlers rely on.

    The handlers are written in a small state-and-exception monad over
    the database, the React state of the page and a log of the storage
    calls that were issued. *)

From Stdlib Require Import ZArith Ascii String List Bool Lia.
From stdpp Require Import base option list strings pretty gmap fin_maps.

Local Open Scope string_scope.
Local Open Scope Z_scope.

(** ** Text helpers *)

Module Text.

(** Lower-casing of one character. PostgreSQL folds case with the
    database locale; the model folds the ASCII letters and leaves every
    other byte alone. *)
Definition lower_ascii (c : ascii) : ascii :=
  let n := nat_of_ascii c in
  if ((65 <=? n)%nat && (n <=? 90)%nat)%bool then ascii_of_nat (n + 32) else c.

Fixpoint map_string (f : ascii -> ascii) (s : string) : string :=
  match s with
  | EmptyString => EmptyString
  | String c s' => String (f c) (map_string f s')
  end.

Definition lower (s : string) : string := map_string lower_ascii s.

(** The REST layer in front of the database rewrites [*] to [%] in the
    operand of [like] and [ilike] filters before the SQL operator sees
    it. *)
Definition star_to_percent (c : ascii) : ascii :=
  if Ascii.eqb c "*" then "%"%char else c.

(** SQL [LIKE] with the default escape character: [%] matches any run
    of characters, [_] any one character, a backslash makes the next
    pattern character literal. A pattern that ends in a lone backslash
    is rejected by PostgreSQL; the patterns built by the pages always
    end in [%], so that case returns [false] here. *)
Fixpoint like (p s : string) {struct p} : bool :=
  match p with
  | EmptyString =>
      match s with EmptyString => true | String _ _ => false end
  | String c p' =>
      if Ascii.eqb c "%" then
        (fix skip (s : string) : bool :=
           like p' s ||
           match s with
           | EmptyString => false
           | String _ s' => skip s'
           end) s
      else if Ascii.eqb c "_" then
        match s with
        | EmptyString => false
        | String _ s' => like p' s'
        end
      else if Ascii.eqb c "\" then
        match p' with
        | EmptyString => false
        | String e p'' =>
            match s with
            | EmptyString => false
            | String x s' => Ascii.eqb e x && like p'' s'
            end
        end
      else
        match s with
        | EmptyString => false
        | String x s' => Ascii.eqb c x && like p' s'
        end
  end.

(** [column ILIKE pattern] as issued through the REST layer. *)
Definition ilike (pattern value : string) : bool :=
  like (lower (map_string star_to_percent pattern)) (lower value).



(** The reading of the search the prose gives: [needle] occurs in
    [hay] as a contiguous run of characters. *)
Fixpoint occurs_in (needle hay : string) : bool :=
  String.prefix needle hay ||
  match hay with
  | EmptyString => false
  | String _ hay' => occurs_in needle hay'
  end.


(** JavaScript's [a || b] on nullable strings: [null], [undefined] and
    the empty string are falsy. *)
Definition truthy (a : option string) : bool :=
  match a with
  | Some s => negb (String.eqb s "")
  | None => false
  end.

Definition js_or (a b : option string) : option string :=
  if truthy a then a else b.

(** [a || 'literal'] where the right operand is a string literal. *)
Definition js_or_lit (a : option string) (b : string) : string :=
  match a with
  | Some s => if String.eqb s "" then b else s
  | None => b
  end.

(** Interpolation of a nullable string in a template literal. *)
Definition tpl (a : option string) : string :=
  match a with
  | Some s => s
  | None => "null"
  end.

Definition lf : string := String (ascii_of_nat 10) EmptyString.



(** A name between double quotes, as the database writes it in its
    messages. *)
Definition quoted (s : string) : string :=
  String (ascii_of_nat 34) s +:+ String (ascii_of_nat 34) EmptyString.

End Text.

(** ** Rows of the schema

    One record per table, with the columns the pages read or write;
    the timestamps ([created_at], [updated_at]) and the columns no page
    looks at are left out. A column without [NOT NULL] is an [option].
    Identifiers are the textual form of the [uuid] columns. *)

Definition uuid := string.

Inductive UserType := Patient | Clinician.

Definition user_type_text (t : UserType) : string :=
  match t with Patient => "Patient" | Clinician => "Clinician" end.

Module Drug.
Record t := mk { id : uuid; name : string }.
End Drug.

Module Gene.
Record t := mk { id : uuid; symbol : string }.
End Gene.

Module Phenotype.
Record t := mk { phenotype : string; description : option string }.
End Phenotype.

Module Guideline.
Record t := mk {
  drug_id : option uuid;
  gene_id : option uuid;
  source_id : option uuid;
  recommendation : option string;
  evidence_level : option string;
  patient_summary : option string;
  clinician_summary : option string }.
End Guideline.

Module Interaction.
Record t := mk {
  id : uuid;
  drug_id : option uuid;
  gene_id : option uuid;
  phenotype_id : option uuid;
  guideline_id : option uuid;
  action : option string;
  summary : option string;
  evidence : option string }.
End Interaction.

Module Citation.
Record t := mk {
  guideline_id : option uuid;
  title : option string;
  authors : option string;
  journal : option string;
  year : option Z }.
End Citation.

Module SavedAnswer.
Record t := mk {
  id : uuid;
  user_id : uuid;
  drug_name : string;
  gene_name : string;
  user_type : string;
  answer : string }.
End SavedAnswer.

Module UsageMonthly.
Record t := mk { query_count : option Z }.
End UsageMonthly.

Module IngestionJob.
Record t := mk {
  job_type : string;
  status : option string;
  started_at : option string }.
End IngestionJob.

(** The database. Tables that are only scanned keep the order in which
    the storage returns their rows; tables that are joined through their
    primary key are maps from the key; [usage_monthly] is a map from
    [(user_id, month)], which is the [UNIQUE(user_id, month)] constraint,
    to the row. [app_admins] lists the [user_id]s. *)
Record Db := mkDb {
  app_admins : list uuid;
  drugs : list Drug.t;
  genes : list Gene.t;
  phenotypes : gmap uuid Phenotype.t;
  guidelines : gmap uuid Guideline.t;
  interactions : list Interaction.t;
  citations : list Citation.t;
  saved_answers : list SavedAnswer.t;
  usage_monthly : gmap (uuid * string) UsageMonthly.t;
  ingestion_jobs : list IngestionJob.t }.

Definition with_usage_monthly
    (f : gmap (uuid * string) UsageMonthly.t -> gmap (uuid * string) UsageMonthly.t)
    (d : Db) : Db :=
  mkDb (app_admins d) (drugs d) (genes d) (phenotypes d) (guidelines d)
       (interactions d) (citations d) (saved_answers d)
       (f (usage_monthly d)) (ingestion_jobs d).

Definition with_saved_answers (f : list SavedAnswer.t -> list SavedAnswer.t) (d : Db) : Db :=
  mkDb (app_admins d) (drugs d) (genes d) (phenotypes d) (guidelines d)
       (interactions d) (citations d) (f (saved_answers d))
       (usage_monthly d) (ingestion_jobs d).

Definition with_ingestion_jobs (f : list IngestionJob.t -> list IngestionJob.t) (d : Db) : Db :=
  mkDb (app_admins d) (drugs d) (genes d) (phenotypes d) (guidelines d)
       (interactions d) (citations d) (saved_answers d)
       (usage_monthly d) (f (ingestion_jobs d)).

(** ** Storage calls, their failures and the environment *)

Inductive Verb := Select | Insert | Update | Delete.

Inductive Table :=
  | t_drugs | t_genes | t_interactions | t_citations
  | t_saved_answers | t_usage_monthly | t_ingestion_jobs.

Definition Call : Type := Verb * Table.

(** What the client library hands back from a query: it never throws,
    a failure is the [error] field and [data] is then [null]. *)
Module Resp.
Record t (A : Type) := mk { data : option A; error : option string }.
Arguments mk {A} _ _.
Arguments data {A} _.
Arguments error {A} _.
End Resp.

(** What a handler can throw into its [catch]. Each carries the
    [message] the handler shows. *)
Inductive Exn :=
  | PostgrestError (message : string)
  | TypeError (message : string)
  | Error (message : string).

Definition message (x : Exn) : string :=
  match x with
  | PostgrestError m | TypeError m | Error m => m
  end.

(** Reading a property of [null]. The wording is the engine's (this is
    V8's); nothing below depends on it. *)
Definition null_property_read (prop : string) : Exn :=
  TypeError ("Cannot read properties of null (reading '" +:+ prop +:+ "')").

Inductive FetchOutcome :=
  | NetworkError (message : string)
  | Response (status : Z).

(** [response.ok] *)
Definition ok (status : Z) : bool := (200 <=? status) && (status <=? 299).

Record WebhookBody := mkBody { body_job_type : string; body_triggered_at : string }.

(** Everything a handler reads from outside: the signed-in user
    ([user!.id], which is also what [auth.uid()] evaluates to in the
    policies), the clock as an ISO-8601 string, which storage calls
    fail and with what message, the identifier the database draws for
    an inserted row, and how the webhook endpoint answers. *)
Record Env := mkEnv {
  auth_uid : uuid;
  now : string;
  faults : Verb -> Table -> option string;
  gen_random_uuid : uuid;
  fetch : string -> WebhookBody -> FetchOutcome }.

(** ** The handler monad: state, a log of storage calls, exceptions *)

Record World (Ui : Type) := mkWorld { db : Db; ui : Ui; log : list Call }.
Arguments mkWorld {Ui} _ _ _.
Arguments db {Ui} _.
Arguments ui {Ui} _.
Arguments log {Ui} _.

Definition M (Ui A : Type) : Type := World Ui -> (Exn + A) * World Ui.

Definition ret {Ui A} (a : A) : M Ui A := fun w => (inr a, w).

Definition bind {Ui A B} (m : M Ui A) (k : A -> M Ui B) : M Ui B :=
  fun w =>
    match m w with
    | (inr a, w') => k a w'
    | (inl x, w') => (inl x, w')
    end.

Definition throw {Ui A} (x : Exn) : M Ui A := fun w => (inl x, w).

Definition try_catch {Ui A} (m : M Ui A) (h : Exn -> M Ui A) : M Ui A :=
  fun w =>
    match m w with
    | (inr a, w') => (inr a, w')
    | (inl x, w') => h x w'
    end.

Definition get_ui {Ui} : M Ui Ui := fun w => (inr (ui w), w).

Definition modify_ui {Ui} (f : Ui -> Ui) : M Ui unit :=
  fun w => (inr tt, mkWorld (db w) (f (ui w)) (log w)).

#[global] Instance M_ret Ui : MRet (M Ui) := fun A => @ret Ui A.
#[global] Instance M_bind Ui : MBind (M Ui) := fun A B k m => bind m k.

(** The storage's side of one round trip: if the environment makes the
    call fail, the database is untouched and the response carries the
    error; otherwise [run] computes the response and the new database. *)
Definition respond {A} (e : Env) (v : Verb) (t : Table)
    (run : Db -> Resp.t A * Db) (d : Db) : Resp.t A * Db :=
  match faults e v t with
  | Some msg => (Resp.mk None (Some msg), d)
  | None => run d
  end.

(** One awaited query: the call is logged and the response returned;
    the client library never throws. *)
Definition storage {Ui A} (e : Env) (v : Verb) (t : Table)
    (run : Db -> Resp.t A * Db) : M Ui (Resp.t A) :=
  fun w =>
    let r := respond e v t run (db w) in
    (inr (fst r), mkWorld (snd r) (ui w) (log w ++ [(v, t)])%list).

(** ** Policies that look the caller up in [app_admins]

    The write policies of [sources] and the policies of [ingestion_jobs]
    and [audit_log] test
    [EXISTS (SELECT 1 FROM app_admins WHERE user_id = auth.uid())]. A
    sub-select in a policy is itself subject to the [SELECT] policy of
    the relation it reads, and the database expands these policies
    before it runs the statement. The [SELECT] policy of [app_admins]
    sub-selects [app_admins]: the expansion comes back to a relation
    whose policy it is expanding, and the statement ends with error
    42P17, whoever the caller is and whatever the tables hold. *)

Inductive Relation :=
  | r_app_admins | r_sources | r_drugs | r_genes | r_variants | r_phenotypes
  | r_guidelines | r_interactions | r_citations | r_saved_answers
  | r_usage_monthly | r_ingestion_jobs | r_audit_log.

Definition relation_name (r : Relation) : string :=
  match r with
  | r_app_admins => "app_admins"
  | r_sources => "sources"
  | r_drugs => "drugs"
  | r_genes => "genes"
  | r_variants => "variants"
  | r_phenotypes => "phenotypes"
  | r_guidelines => "guidelines"
  | r_interactions => "interactions"
  | r_citations => "citations"
  | r_saved_answers => "saved_answers"
  | r_usage_monthly => "usage_monthly"
  | r_ingestion_jobs => "ingestion_jobs"
  | r_audit_log => "audit_log"
  end.

Definition same_relation (a b : Relation) : bool :=
  String.eqb (relation_name a) (relation_name b).

(** The relations the policies of the schema sub-select, per statement
    kind and relation. Every other policy is [USING (true)] or compares
    [auth.uid()] with a column of the row. *)
Definition policy_reads (v : Verb) (r : Relation) : list Relation :=
  match r, v with
  | r_app_admins, Select => [r_app_admins]
  | r_sources, Insert | r_sources, Update | r_sources, Delete => [r_app_admins]
  | r_ingestion_jobs, Select | r_ingestion_jobs, Insert => [r_app_admins]
  | r_audit_log, Select => [r_app_admins]
  | _, _ => []
  end.

(** The expansion of the policies of a statement [v] on [r]: [active]
    lists the relations whose policies are being expanded, and a
    sub-select brings in the [SELECT] policy of the relation it reads.
    The result is the relation the expansion comes back to, if there is
    one. A chain of distinct relations is no longer than the schema,
    which bounds [depth]. *)
Fixpoint policy_cycle (depth : nat) (active : list Relation) (v : Verb) (r : Relation)
    : option Relation :=
  match depth with
  | O => None
  | S depth' =>
      if existsb (same_relation r) active then Some r
      else
        fold_right
          (fun r' later =>
             match policy_cycle depth' (r :: active) Select r' with
             | Some x => Some x
             | None => later
             end)
          None (policy_reads v r)
  end.

(** The message of error 42P17. *)
Definition infinite_recursion (r : Relation) : string :=
  "infinite recursion detected in policy for relation "
  +:+ Text.quoted (relation_name r).

(** The error a statement ends with before it touches a row, when its
    policies cannot be expanded. The schema has 13 relations. *)
Definition policy_failure (v : Verb) (r : Relation) : option string :=
  match policy_cycle 14 [] v r with
  | Some x => Some (infinite_recursion x)
  | None => None
  end.

(** The value of [EXISTS (SELECT 1 FROM app_admins WHERE user_id =
    auth.uid())], for a statement whose policies could be expanded. *)
Definition is_admin (e : Env) (d : Db) : bool :=
  bool_decide (auth_uid e ∈ app_admins d).

(** ** The queries the pages issue

    Each is the storage's answer to one query-builder chain, with the
    row-level policy of the table applied ([auth.uid()] is [auth_uid]). *)

Module InteractionJoined.
(** A row of [interactions] with the embedded [guideline] and
    [phenotype] objects; an embedded object is [null] when the foreign
    key is [NULL]. The guideline is paired with its [id]. *)
Record t := mk {
  row : Interaction.t;
  guideline : option (uuid * Guideline.t);
  phenotype : option Phenotype.t }.
End InteractionJoined.

Definition join_interaction (d : Db) (i : Interaction.t) : InteractionJoined.t :=
  InteractionJoined.mk i
    (gid ← Interaction.guideline_id i; g ← guidelines d !! gid; Some (gid, g))
    (pid ← Interaction.phenotype_id i; phenotypes d !! pid).

Definition rls_violation (table : string) : string :=
  "new row violates row-level security policy for table " +:+ table.

Definition unique_violation (constraint : string) : string :=
  "duplicate key value violates unique constraint " +:+ constraint.

Section Queries.
Context {Ui : Type} (e : Env).

(** [from('usage_monthly').select('query_count').eq('user_id', u).eq('month', m).maybeSingle()] *)
Definition select_usage_monthly (user_id : uuid) (month : string)
  : M Ui (Resp.t UsageMonthly.t) :=
  storage e Select t_usage_monthly (fun d =>
    (Resp.mk (if decide (auth_uid e = user_id)
             then usage_monthly d !! (user_id, month) else None) None, d)).

(** [from('drugs').select('id, name').ilike('name', pattern).limit(1).maybeSingle()] *)
Definition select_drug (pattern : string) : M Ui (Resp.t Drug.t) :=
  storage e Select t_drugs (fun d =>
    (Resp.mk (List.find (fun r => Text.ilike pattern (Drug.name r)) (drugs d)) None, d)).

(** [from('genes').select('id, symbol').ilike('symbol', pattern).limit(1).maybeSingle()] *)
Definition select_gene (pattern : string) : M Ui (Resp.t Gene.t) :=
  storage e Select t_genes (fun d =>
    (Resp.mk (List.find (fun r => Text.ilike pattern (Gene.symbol r)) (genes d)) None, d)).

(** [from('interactions').select('*, guideline:guidelines(...), phenotype:phenotypes(...)')
     .eq('drug_id', x).eq('gene_id', y)] *)
Definition select_interactions (drug_id gene_id : uuid)
  : M Ui (Resp.t (list InteractionJoined.t)) :=
  storage e Select t_interactions (fun d =>
    (Resp.mk
       (Some (join_interaction d <$>
                filter (fun i => Interaction.drug_id i = Some drug_id
                                 ∧ Interaction.gene_id i = Some gene_id)
                       (interactions d)))
       None, d)).

(** [from('citations').select('title, authors, journal, year, url').eq('guideline_id', g)] *)
Definition select_citations (guideline_id : uuid) : M Ui (Resp.t (list Citation.t)) :=
  storage e Select t_citations (fun d =>
    (Resp.mk (Some (filter (fun c => Citation.guideline_id c = Some guideline_id)
                          (citations d)))
            None, d)).

(** [from('usage_monthly').update({query_count, updated_at}).eq('user_id', u).eq('month', m)]:
    rewrites the row when the policy lets the caller see it, and
    touches nothing (without an error) when there is no such row. *)
Definition update_usage_monthly (query_count : Z) (user_id : uuid) (month : string)
  : M Ui (Resp.t unit) :=
  storage e Update t_usage_monthly (fun d =>
    (Resp.mk None None,
     if decide (auth_uid e = user_id) then
       with_usage_monthly (fun m =>
         match m !! (user_id, month) with
         | Some _ => <[(user_id, month) := UsageMonthly.mk (Some query_count)]> m
         | None => m
         end) d
     else d)).

(** [from('usage_monthly').insert({user_id, month, query_count})] *)
Definition insert_usage_monthly (user_id : uuid) (month : string) (query_count : Z)
  : M Ui (Resp.t unit) :=
  storage e Insert t_usage_monthly (fun d =>
    if decide (auth_uid e = user_id) then
      match usage_monthly d !! (user_id, month) with
      | Some _ => (Resp.mk None (Some (unique_violation "usage_monthly_user_id_month_key")), d)
      | None =>
          (Resp.mk None None,
           with_usage_monthly
             (fun m => <[(user_id, month) := UsageMonthly.mk (Some query_count)]> m) d)
      end
    else (Resp.mk None (Some (rls_violation "usage_monthly")), d)).

(** [from('saved_answers').insert({user_id, drug_name, gene_name, user_type, answer})];
    the [id] is drawn by the database. *)
Definition insert_saved_answer (user_id : uuid)
    (drug_name gene_name user_type answer : string) : M Ui (Resp.t unit) :=
  storage e Insert t_saved_answers (fun d =>
    if decide (auth_uid e = user_id) then
      if bool_decide (gen_random_uuid e ∈ SavedAnswer.id <$> saved_answers d) then
        (Resp.mk None (Some (unique_violation "saved_answers_pkey")), d)
      else
        (Resp.mk None None,
         with_saved_answers (fun l =>
           l ++ [SavedAnswer.mk (gen_random_uuid e) user_id
                   drug_name gene_name user_type answer])%list d)
    else (Resp.mk None (Some (rls_violation "saved_answers")), d)).

(** [from('saved_answers').delete().eq('id', id)]: the policy
    [USING (auth.uid() = user_id)] restricts the statement to the
    caller's own rows. *)
Definition delete_saved_answer (id : uuid) : M Ui (Resp.t unit) :=
  storage e Delete t_saved_answers (fun d =>
    (Resp.mk None None,
     with_saved_answers
       (filter (fun r => ¬ (SavedAnswer.id r = id
                            ∧ SavedAnswer.user_id r = auth_uid e))) d)).

(** [from('ingestion_jobs').insert([{job_type, status, started_at}])].
    The [WITH CHECK] of the table sub-selects [app_admins]; the insert
    is answered with the failure of that policy's expansion, and the
    row test below it is reached only if there is none. *)
Definition insert_ingestion_job (job_type status started_at : string)
  : M Ui (Resp.t unit) :=
  storage e Insert t_ingestion_jobs (fun d =>
    match policy_failure Insert r_ingestion_jobs with
    | Some msg => (Resp.mk None (Some msg), d)
    | None =>
        if is_admin e d then
          (Resp.mk None None,
           with_ingestion_jobs (fun l =>
             l ++ [IngestionJob.mk job_type (Some status) (Some started_at)])%list d)
        else (Resp.mk None (Some (rls_violation "ingestion_jobs")), d)
    end).

End Queries.

(** What the [SELECT] policy of [saved_answers] lets a user see. *)
Definition visible_saved_answers (uid : uuid) (d : Db) : list SavedAnswer.t :=
  filter (fun r => SavedAnswer.user_id r = uid) (saved_answers d).

(** The rows of [d] that belong to somebody else than [uid]. *)
Definition foreign_rows (uid : uuid) (d : Db) : list SavedAnswer.t :=
  filter (fun r => SavedAnswer.user_id r ≠ uid) (saved_answers d).

(** ** The query page *)

Module QueryResult.
Record t := mk {
  drug : string;
  gene : string;
  answer : string;
  citations : list string }.
End QueryResult.

Module Chat.

(** The [useState] cells of the component. *)
Record State := mkState {
  drugInput : string;
  geneInput : string;
  userType : UserType;
  loading : bool;
  result : option QueryResult.t;
  error : string;
  limitReached : bool;
  saveSuccess : bool }.

Definition setLoading (b : bool) : M State unit :=
  modify_ui (fun u => mkState (drugInput u) (geneInput u) (userType u) b
                        (result u) (error u) (limitReached u) (saveSuccess u)).
Definition setResult (r : option QueryResult.t) : M State unit :=
  modify_ui (fun u => mkState (drugInput u) (geneInput u) (userType u) (loading u)
                        r (error u) (limitReached u) (saveSuccess u)).
Definition setError (s : string) : M State unit :=
  modify_ui (fun u => mkState (drugInput u) (geneInput u) (userType u) (loading u)
                        (result u) s (limitReached u) (saveSuccess u)).
Definition setLimitReached (b : bool) : M State unit :=
  modify_ui (fun u => mkState (drugInput u) (geneInput u) (userType u) (loading u)
                        (result u) (error u) b (saveSuccess u)).
Definition setSaveSuccess (b : bool) : M State unit :=
  modify_ui (fun u => mkState (drugInput u) (geneInput u) (userType u) (loading u)
                        (result u) (error u) (limitReached u) b).

(** A nullable integer read as a number: [null] is [0] in [>=] and [+]. *)
Definition js_num (n : option Z) : Z := default 0 n.

(** [usageData && usageData.query_count >= 50] *)
Definition quota_reached (usageData : option UsageMonthly.t) : bool :=
  match usageData with
  | Some u => 50 <=? js_num (UsageMonthly.query_count u)
  | None => false
  end.

(** [`${c.title} - ${c.authors} (${c.journal}, ${c.year})`] *)
Definition render_citation (c : Citation.t) : string :=
  Text.tpl (Citation.title c) +:+ " - " +:+ Text.tpl (Citation.authors c)
  +:+ " (" +:+ Text.tpl (Citation.journal c) +:+ ", "
  +:+ Text.tpl (pretty <$> Citation.year c) +:+ ")".

(** The text for a patient:
    [guideline.patient_summary || interaction.summary || 'No information available.'] *)
Definition patient_answer (g : Guideline.t) (i : InteractionJoined.t) : string :=
  Text.js_or_lit
    (Text.js_or (Guideline.patient_summary g)
                (Interaction.summary (InteractionJoined.row i)))
    "No information available.".

(** The text for a clinician, one template literal. *)
Definition clinician_answer (g : Guideline.t) (i : InteractionJoined.t) : string :=
  Text.tpl (Text.js_or (Guideline.clinician_summary g)
                       (Interaction.summary (InteractionJoined.row i)))
  +:+ Text.lf +:+ Text.lf +:+ "Action: "
  +:+ Text.tpl (Interaction.action (InteractionJoined.row i))
  +:+ Text.lf +:+ Text.lf +:+ "Evidence: "
  +:+ Text.tpl (Interaction.evidence (InteractionJoined.row i))
  +:+ Text.lf +:+ Text.lf +:+ "Phenotype: "
  +:+ Text.js_or_lit (Phenotype.phenotype <$> InteractionJoined.phenotype i) "N/A"
  +:+ Text.lf +:+ Text.lf +:+ "Evidence Level: "
  +:+ Text.js_or_lit (Guideline.evidence_level g) "N/A".

Definition answer_text (t : UserType) (g : Guideline.t) (i : InteractionJoined.t)
  : string :=
  match t with
  | Patient => patient_answer g i
  | Clinician => clinician_answer g i
  end.

Definition not_in_database : string := "Not in database yet.".

(** [new Date().toISOString().slice(0, 7)] *)
Definition currentMonth (e : Env) : string :=
  String.substring 0%nat 7%nat (now e).

Section Handlers.
Context (e : Env).

(** The part of [handleSubmit] that runs once the quota check has
    passed, from the drug lookup to the usage upsert. *)
Definition resolve_and_answer (st : State) (currentMonth : string)
    (usageData : option UsageMonthly.t) : M State unit :=
  drugResp ← select_drug e ("%" +:+ drugInput st +:+ "%");
  geneResp ← select_gene e ("%" +:+ geneInput st +:+ "%");
  match Resp.data drugResp, Resp.data geneResp with
  | Some drugData, Some geneData =>
      interactions ← select_interactions e (Drug.id drugData) (Gene.id geneData);
      match Resp.data interactions with
      | Some (interaction :: _) =>
          match InteractionJoined.guideline interaction with
          | None => throw (null_property_read "id")
          | Some (guideline_id, guideline) =>
              citationsData ← select_citations e guideline_id;
              let citations :=
                match Resp.data citationsData with
                | Some cs => render_citation <$> cs
                | None => []
                end in
              let answerText := answer_text (userType st) guideline interaction in
              setResult (Some (QueryResult.mk (Drug.name drugData)
                                 (Gene.symbol geneData) answerText citations));;
              match usageData with
              | Some u =>
                  update_usage_monthly e
                    (js_num (UsageMonthly.query_count u) + 1)
                    (auth_uid e) currentMonth;;
                  mret tt
              | None =>
                  insert_usage_monthly e (auth_uid e) currentMonth 1;;
                  mret tt
              end
          end
      | _ =>
          setError not_in_database;;
          setLoading false
      end
  | _, _ =>
      setError not_in_database;;
      setLoading false
  end.

(** [handleSubmit]. [st] is the state the handler's closure
    captured; the [finally] block is the last [setLoading]. *)
Definition handleSubmit : M State unit :=
  st ← get_ui;
  setError "";;
  setResult None;;
  setLimitReached false;;
  setSaveSuccess false;;
  setLoading true;;
  try_catch
    (let currentMonth := currentMonth e in
     usage ← select_usage_monthly e (auth_uid e) currentMonth;
     match Resp.error usage with
     | Some usageError => throw (PostgrestError usageError)
     | None =>
         if quota_reached (Resp.data usage) then
           setLimitReached true;;
           setLoading false
         else resolve_and_answer st currentMonth (Resp.data usage)
     end)
    (fun err => setError (Text.js_or_lit (Some (message err)) "An error occurred"));;
  setLoading false.

(** [handleSave]. The three-second timer that clears [saveSuccess]
    is a later event and is not part of the handler's run. *)
Definition handleSave : M State unit :=
  st ← get_ui;
  match result st with
  | None => mret tt
  | Some r =>
      try_catch
        (insert_saved_answer e (auth_uid e) (QueryResult.drug r)
           (QueryResult.gene r) (user_type_text (userType st))
           (QueryResult.answer r);;
         setSaveSuccess true)
        (fun err => setError (Text.js_or_lit (Some (message err)) "Failed to save"))
  end.

End Handlers.

End Chat.

(** ** The saved-answers page *)

Module Cases.

Record State := mkState {
  savedAnswers : list SavedAnswer.t;
  loading : bool }.

Definition setSavedAnswers (l : list SavedAnswer.t) : M State unit :=
  modify_ui (fun u => mkState l (loading u)).

Section Handlers.
Context (e : Env).

(** [handleDelete]. The [catch] only writes to the console. *)
Definition handleDelete (id : uuid) : M State unit :=
  st ← get_ui;
  try_catch
    (r ← delete_saved_answer e id;
     match Resp.error r with
     | Some err => throw (PostgrestError err)
     | None =>
         setSavedAnswers
           (filter (fun sa => SavedAnswer.id sa ≠ id) (savedAnswers st))
     end)
    (fun _ => mret tt).

End Handlers.

End Cases.

(** ** The admin page *)

Module Admin.

Inductive ToastType := success | error.

Record Toast := mkToast { toast_message : string; toast_type : ToastType }.

Record State := mkState {
  webhookLoading : option string;
  toast : option Toast }.

Definition setWebhookLoading (j : option string) : M State unit :=
  modify_ui (fun u => mkState j (toast u)).

(** [showToast]; the timer that hides the toast is a later event. *)
Definition showToast (m : string) (t : ToastType) : M State unit :=
  modify_ui (fun u => mkState (webhookLoading u) (Some (mkToast m t))).

Section Handlers.
Context (e : Env).

(** [triggerWebhook]. A rejected [fetch] throws; a response that is
    not [ok] throws ['Webhook failed']; the answer of the insert is
    not looked at. The clock is read once for both timestamps. The
    refresh [fetchJobs()] that follows is not awaited and only
    reads; it is not part of the handler's run. *)
Definition triggerWebhook (jobType webhookUrl : string) : M State unit :=
  setWebhookLoading (Some jobType);;
  try_catch
    (match fetch e webhookUrl (mkBody jobType (now e)) with
     | NetworkError m => throw (TypeError m)
     | Response status =>
         if negb (ok status) then throw (Error "Webhook failed")
         else
           insert_ingestion_job e jobType "pending" (now e);;
           showToast (jobType +:+ " triggered successfully") success
     end)
    (fun err =>
       showToast (Text.js_or_lit (Some (message err)) "Failed to trigger webhook")
                 error);;
  setWebhookLoading None.

End Handlers.

(** The endpoint answered the [POST] with a status in 200..299. *)
Definition acknowledged (e : Env) (jobType webhookUrl : string) : bool :=
  match fetch e webhookUrl (mkBody jobType (now e)) with
  | NetworkError _ => false
  | Response status => ok status
  end.

End Admin.

(** ** Edits of the reference data

    No page edits guidelines or interactions; the ingestion process does,
    with privileged access. The statements below follow the schema:
    deleting a guideline removes its citations ([ON DELETE CASCADE]) and
    clears [interactions.guideline_id] ([ON DELETE SET NULL]). *)

Module Reference.

Inductive Edit :=
  | UpdateGuideline (id : uuid) (g : Guideline.t)
  | DeleteGuideline (id : uuid)
  | UpdateInteraction (id : uuid) (i : Interaction.t)
  | DeleteInteraction (id : uuid).

Definition clear_guideline (gid : uuid) (i : Interaction.t) : Interaction.t :=
  if decide (Interaction.guideline_id i = Some gid) then
    Interaction.mk (Interaction.id i) (Interaction.drug_id i) (Interaction.gene_id i)
      (Interaction.phenotype_id i) None (Interaction.action i)
      (Interaction.summary i) (Interaction.evidence i)
  else i.

Definition apply (ed : Edit) (d : Db) : Db :=
  match ed with
  | UpdateGuideline id g =>
      mkDb (app_admins d) (drugs d) (genes d) (phenotypes d)
        (match guidelines d !! id with
         | Some _ => <[id := g]> (guidelines d)
         | None => guidelines d
         end)
        (interactions d) (citations d) (saved_answers d)
        (usage_monthly d) (ingestion_jobs d)
  | DeleteGuideline id =>
      mkDb (app_admins d) (drugs d) (genes d) (phenotypes d)
        (delete id (guidelines d))
        (clear_guideline id <$> interactions d)
        (filter (fun c => Citation.guideline_id c ≠ Some id) (citations d))
        (saved_answers d) (usage_monthly d) (ingestion_jobs d)
  | UpdateInteraction id i =>
      mkDb (app_admins d) (drugs d) (genes d) (phenotypes d) (guidelines d)
        ((fun r => if decide (Interaction.id r = id) then i else r) <$> interactions d)
        (citations d) (saved_answers d) (usage_monthly d) (ingestion_jobs d)
  | DeleteInteraction id =>
      mkDb (app_admins d) (drugs d) (genes d) (phenotypes d) (guidelines d)
        (filter (fun r => Interaction.id r ≠ id) (interactions d))
        (citations d) (saved_answers d) (usage_monthly d) (ingestion_jobs d)
  end.

Definition apply_all (eds : list Edit) (d : Db) : Db :=
  fold_left (fun d ed => apply ed d) eds d.

End Reference.

(** ** A small database to run the handlers on *)

Module Sample.

Definition alice : uuid := "u-alice".
Definition bob : uuid := "u-bob".

Definition warfarin := Drug.mk "d-1" "Warfarin".
Definition cyp2c9 := Gene.mk "g-1" "CYP2C9".

Definition guideline1 :=
  Guideline.mk (Some "d-1") (Some "g-1") None None (Some "High")
    (Some "Reduce dose") (Some "Lower the starting dose.").

Definition interaction1 :=
  Interaction.mk "i-1" (Some "d-1") (Some "g-1") (Some "p-1") (Some "gl-1")
    (Some "Adjust") (Some "Slower clearance") (Some "CPIC").

Definition citation1 :=
  Citation.mk (Some "gl-1") (Some "Dosing") (Some "Johnson") (Some "CPT") (Some 2017).

Definition db0 : Db :=
  mkDb [bob] [warfarin] [cyp2c9]
    {["p-1" := Phenotype.mk "Poor Metabolizer" None]}
    {["gl-1" := guideline1]}
    [interaction1] [citation1] [] ∅ [].

Definition no_faults : Verb -> Table -> option string := fun _ _ => None.

Definition all_ok : string -> WebhookBody -> FetchOutcome := fun _ _ => Response 200.

Definition env (uid : uuid) : Env :=
  mkEnv uid "2026-11-02T10:00:00.000Z" no_faults "sa-1" all_ok.

Definition env_failing (uid : uuid) (faults : Verb -> Table -> option string) : Env :=
  mkEnv uid "2026-11-02T10:00:00.000Z" faults "sa-1" all_ok.

(** The same database with a usage row for [uid] in November 2026. *)
Definition db_used (uid : uuid) (n : option Z) : Db :=
  with_usage_monthly (fun m => <[(uid, "2026-11") := UsageMonthly.mk n]> m) db0.

(** A storage whose [drugs] reads fail and whose other calls work. *)
Definition drug_fetch_down : Verb -> Table -> option string :=
  fun v t =>
    match v, t with
    | Select, t_drugs => Some "connection refused"
    | _, _ => None
    end.

(** The same database where the interaction has no action recorded. *)
Definition interaction_no_action :=
  Interaction.mk "i-1" (Some "d-1") (Some "g-1") (Some "p-1") (Some "gl-1")
    None (Some "Slower clearance") (Some "CPIC").

Definition db_no_action : Db :=
  mkDb [bob] [warfarin] [cyp2c9]
    {["p-1" := Phenotype.mk "Poor Metabolizer" None]}
    {["gl-1" := guideline1]}
    [interaction_no_action] [citation1] [] ∅ [].

(** The same database where the interaction has no guideline
    ([guideline_id] is [NULL]). *)
Definition interaction_no_guideline :=
  Interaction.mk "i-1" (Some "d-1") (Some "g-1") (Some "p-1") None
    (Some "Adjust") (Some "Slower clearance") (Some "CPIC").

Definition db_no_guideline : Db :=
  mkDb [bob] [warfarin] [cyp2c9]
    {["p-1" := Phenotype.mk "Poor Metabolizer" None]}
    {["gl-1" := guideline1]}
    [interaction_no_guideline] [citation1] [] ∅ [].

(** Saved answers of two users. *)
Definition saved_alice :=
  SavedAnswer.mk "sa-a" alice "Warfarin" "CYP2C9" "Patient" "Reduce dose".
Definition saved_bob :=
  SavedAnswer.mk "sa-b" bob "Codeine" "CYP2D6" "Clinician" "Avoid".

Definition db_saved : Db :=
  with_saved_answers (fun _ => [saved_alice; saved_bob]) db0.

Definition cases0 : World Cases.State :=
  mkWorld db_saved (Cases.mkState [saved_alice] false) [].

(** An endpoint that answers 500, and an environment that uses it. *)
Definition all_fail : string -> WebhookBody -> FetchOutcome := fun _ _ => Response 500.

Definition env_webhook (uid : uuid) (f : string -> WebhookBody -> FetchOutcome) : Env :=
  mkEnv uid "2026-11-02T10:00:00.000Z" no_faults "sa-1" f.

Definition admin0 : World Admin.State :=
  mkWorld db0 (Admin.mkState None None) [].

(** The guideline after its patient summary was rewritten. *)
Definition guideline1_edited :=
  Guideline.mk (Some "d-1") (Some "g-1") None None (Some "High")
    (Some "Avoid the drug") (Some "Lower the starting dose.").

Definition chat0 (drug gene : string) (t : UserType) : Chat.State :=
  Chat.mkState drug gene t false None "" false false.

Definition world0 (drug gene : string) (t : UserType) : World Chat.State :=
  mkWorld db0 (chat0 drug gene t) [].

End Sample.

(** ** Reading a run of the query flow

    The names used to state what [handleSubmit] does: what each lookup
    of the flow returns when issued in a given world, and the state the
    page is left in. *)

Module Resolution.
Import Chat.

(** The [data] of the response to a query issued in [w]. *)
Definition answer_of_query {Ui A} (m : M Ui (Resp.t A)) (w : World Ui) : option A :=
  match fst (m w) with
  | inr r => Resp.data r
  | inl _ => None
  end.

Definition usage_lookup (e : Env) (w : World State) : option UsageMonthly.t :=
  answer_of_query (select_usage_monthly e (auth_uid e) (currentMonth e)) w.

Definition drug_lookup (e : Env) (w : World State) : option Drug.t :=
  answer_of_query (select_drug e ("%" +:+ drugInput (ui w) +:+ "%")) w.

Definition gene_lookup (e : Env) (w : World State) : option Gene.t :=
  answer_of_query (select_gene e ("%" +:+ geneInput (ui w) +:+ "%")) w.

(** [interactions[0]] for the resolved pair, when there is one. *)
Definition interaction_lookup (e : Env) (w : World State) : option InteractionJoined.t :=
  d ← drug_lookup e w;
  g ← gene_lookup e w;
  l ← answer_of_query (select_interactions e (Drug.id d) (Gene.id g)) w;
  head l.

Definition citation_lookup (e : Env) (guideline_id : uuid) (w : World State) : list string :=
  match answer_of_query (select_citations e guideline_id) w with
  | Some cs => render_citation <$> cs
  | None => []
  end.

(** The usage fetch came back and the quota check let the query through. *)
Definition gate_passed (e : Env) (w : World State) : Prop :=
  faults e Select t_usage_monthly = None
  ∧ quota_reached (usage_lookup e w) = false.

(** The page once [handleSubmit] has returned: the inputs as they were,
    nothing loading, no save banner. *)
Definition finished (st : State) (r : option QueryResult.t) (err : string)
    (limit : bool) : State :=
  mkState (drugInput st) (geneInput st) (userType st) false r err limit false.

(** [err.message || 'An error occurred'] *)
Definition shown_error (x : Exn) : string :=
  Text.js_or_lit (Some (message x)) "An error occurred".

(** The catch handler and the [finally] block, applied to the outcome
    of the [try] body. *)
Definition settle (r : (Exn + unit) * World State) : (Exn + unit) * World State :=
  match r with
  | (inr _, w) =>
      (inr tt,
       mkWorld (db w)
         (mkState (drugInput (ui w)) (geneInput (ui w)) (userType (ui w)) false
            (result (ui w)) (error (ui w)) (limitReached (ui w)) (saveSuccess (ui w)))
         (log w))
  | (inl x, w) =>
      (inr tt,
       mkWorld (db w)
         (mkState (drugInput (ui w)) (geneInput (ui w)) (userType (ui w)) false
            (result (ui w)) (shown_error x) (limitReached (ui w)) (saveSuccess (ui w)))
         (log w))
  end.

(** The storage calls of the flow, by name. *)
Definition fetch_usage : Call := (Select, t_usage_monthly).
Definition find_drug : Call := (Select, t_drugs).
Definition find_gene : Call := (Select, t_genes).
Definition fetch_interactions : Call := (Select, t_interactions).
Definition fetch_citations : Call := (Select, t_citations).
Definition bump_usage : Call := (Update, t_usage_monthly).
Definition create_usage : Call := (Insert, t_usage_monthly).

(** The world right after the usage fetch: the page cleared and
    loading, one call logged. *)
Definition started (w : World State) : World State :=
  mkWorld (db w)
    (mkState (drugInput (ui w)) (geneInput (ui w)) (userType (ui w))
       true None "" false false)
    (log w ++ [fetch_usage]).

(** The result card the flow sets for a resolved drug, gene,
    interaction and guideline. *)
Definition rendered (e : Env) (w : World State) (d : Drug.t) (g : Gene.t)
    (gid : uuid) (gl : Guideline.t) (i : InteractionJoined.t) : QueryResult.t :=
  QueryResult.mk (Drug.name d) (Gene.symbol g)
    (answer_text (userType (ui w)) gl i) (citation_lookup e gid w).

(** The key of the caller's usage row for the current month. *)
Definition usage_key (e : Env) : uuid * string := (auth_uid e, currentMonth e).

(** ["N/A"] for a missing or empty text. *)
Definition or_na (a : option string) : string := Text.js_or_lit a "N/A".

(** The clinician text as the prose words it: five labelled sections,
    every one of them falling back to ["N/A"] on its own. *)
Definition clinician_answer_all_na (g : Guideline.t) (i : InteractionJoined.t) : string :=
  or_na (Text.js_or (Guideline.clinician_summary g)
                    (Interaction.summary (InteractionJoined.row i)))
  +:+ Text.lf +:+ Text.lf +:+ "Action: "
  +:+ or_na (Interaction.action (InteractionJoined.row i))
  +:+ Text.lf +:+ Text.lf +:+ "Evidence: "
  +:+ or_na (Interaction.evidence (InteractionJoined.row i))
  +:+ Text.lf +:+ Text.lf +:+ "Phenotype: "
  +:+ or_na (Phenotype.phenotype <$> InteractionJoined.phenotype i)
  +:+ Text.lf +:+ Text.lf +:+ "Evidence Level: "
  +:+ or_na (Guideline.evidence_level g).

(** A nullable text that is there and not empty. *)
Definition present (a : option string) (s : string) : Prop :=
  a = Some s ∧ s ≠ "".

Definition absent (a : option string) : Prop :=
  a = None ∨ a = Some "".

End Resolution.

(** ** More names for runs of the query page *)

Module Flow.
Import Chat Resolution.

(** The inputs of the form, as the [onChange] handlers set them. *)
Definition setDrugInput (s : string) : M State unit :=
  modify_ui (fun u => mkState s (geneInput u) (userType u) (loading u)
                        (result u) (error u) (limitReached u) (saveSuccess u)).
Definition setGeneInput (s : string) : M State unit :=
  modify_ui (fun u => mkState (drugInput u) s (userType u) (loading u)
                        (result u) (error u) (limitReached u) (saveSuccess u)).
Definition setUserType (t : UserType) : M State unit :=
  modify_ui (fun u => mkState (drugInput u) (geneInput u) t (loading u)
                        (result u) (error u) (limitReached u) (saveSuccess u)).

(** The database after the usage write of [handleSubmit], issued in [d]
    for the fetched row [u]. *)
Definition usage_write (e : Env) (u : option UsageMonthly.t) (d : Db) : Db :=
  match u with
  | Some r =>
      db (snd (update_usage_monthly (Ui := unit) e
                 (js_num (UsageMonthly.query_count r) + 1)
                 (auth_uid e) (currentMonth e) (mkWorld d tt [])))
  | None =>
      db (snd (insert_usage_monthly (Ui := unit) e (auth_uid e) (currentMonth e) 1
                 (mkWorld d tt [])))
  end.

(** The call that write is. *)
Definition usage_write_call (u : option UsageMonthly.t) : Call :=
  match u with
  | Some _ => bump_usage
  | None => create_usage
  end.

(** No counter above the quota. *)
Definition within_quota (d : Db) : Prop :=
  forall k u n,
    usage_monthly d !! k = Some u -> UsageMonthly.query_count u = Some n -> n <= 50.

(** [n] submits in a row, the form left as it is. *)
Fixpoint submit_n (e : Env) (w : World State) (n : nat) : World State :=
  match n with
  | O => w
  | S n' => snd (handleSubmit e (submit_n e w n'))
  end.

(** One visit of the page: somebody signed in, at some time, with some
    storage behaviour, fills the form and submits. *)
Record Visit := mkVisit {
  visit_env : Env;
  visit_drug : string;
  visit_gene : string;
  visit_mode : UserType }.

Definition visit (v : Visit) : M State unit :=
  setDrugInput (visit_drug v);;
  setGeneInput (visit_gene v);;
  setUserType (visit_mode v);;
  handleSubmit (visit_env v).

Fixpoint visits (w : World State) (vs : list Visit) : World State :=
  match vs with
  | [] => w
  | v :: vs' => visits (snd (visit v w)) vs'
  end.

(** Two worlds that differ at most in what the page shows besides the
    form, and in the call log. *)
Definition same_question (w w' : World State) : Prop :=
  db w = db w'
  ∧ drugInput (ui w) = drugInput (ui w')
  ∧ geneInput (ui w) = geneInput (ui w')
  ∧ userType (ui w) = userType (ui w').

(** The calls of a list that read. *)
Definition reads_only (l : list Call) : Prop := Forall (fun c => fst c = Select) l.

(** The five ways a run can end. *)
Inductive Ending (e : Env) (w : World State) : Prop :=
  | FetchFailed m :
      faults e Select t_usage_monthly = Some m ->
      handleSubmit e w =
      (inr tt, mkWorld (db w) (finished (ui w) None (shown_error (PostgrestError m)) false)
                 (log w ++ [fetch_usage])) ->
      Ending e w
  | Denied :
      faults e Select t_usage_monthly = None ->
      quota_reached (usage_lookup e w) = true ->
      handleSubmit e w =
      (inr tt, mkWorld (db w) (finished (ui w) None "" true) (log w ++ [fetch_usage])) ->
      Ending e w
  | NotFound rest :
      gate_passed e w ->
      reads_only rest ->
      handleSubmit e w =
      (inr tt, mkWorld (db w) (finished (ui w) None not_in_database false)
                 (log w ++ fetch_usage :: find_drug :: find_gene :: rest)) ->
      Ending e w
  | Crashed i :
      gate_passed e w ->
      interaction_lookup e w = Some i ->
      InteractionJoined.guideline i = None ->
      handleSubmit e w =
      (inr tt, mkWorld (db w)
                 (finished (ui w) None (shown_error (null_property_read "id")) false)
                 (log w ++ [fetch_usage; find_drug; find_gene; fetch_interactions])) ->
      Ending e w
  | Answered d g i gid gl :
      gate_passed e w ->
      drug_lookup e w = Some d -> gene_lookup e w = Some g ->
      interaction_lookup e w = Some i ->
      InteractionJoined.guideline i = Some (gid, gl) ->
      handleSubmit e w =
      (inr tt,
       mkWorld (usage_write e (usage_lookup e w) (db w))
         (finished (ui w) (Some (rendered e w d g gid gl i)) "" false)
         (log w ++ [fetch_usage; find_drug; find_gene; fetch_interactions;
                    fetch_citations; usage_write_call (usage_lookup e w)])) ->
      Ending e w.

End Flow.

(** ** More sample worlds *)

Module Fixture.

(** A storage whose [citations] reads fail. *)
Definition citations_down : Verb -> Table -> option string :=
  fun v t =>
    match v, t with
    | Select, t_citations => Some "timeout"
    | _, _ => None
    end.

(** A storage that refuses every write to [usage_monthly]. *)
Definition usage_writes_down : Verb -> Table -> option string :=
  fun v t =>
    match v, t with
    | Insert, t_usage_monthly | Update, t_usage_monthly => Some "timeout"
    | _, _ => None
    end.

(** A storage that refuses every write to [saved_answers]. *)
Definition saves_down : Verb -> Table -> option string :=
  fun v t =>
    match v, t with
    | Insert, t_saved_answers | Delete, t_saved_answers => Some "timeout"
    | _, _ => None
    end.

(** The query page with an answer on display. *)
Definition chat_answered : Chat.State :=
  Chat.mkState "warf" "cyp" Clinician false
    (Some (QueryResult.mk "Warfarin" "CYP2C9" "Reduce dose" [])) "" false false.


Definition bob_asks : Flow.Visit :=
  Flow.mkVisit (Sample.env Sample.bob) "warf" "cyp" Clinician.

Definition alice_asks : Flow.Visit :=
  Flow.mkVisit (Sample.env Sample.alice) "Warfarin" "CYP2C9" Patient.

End Fixture.

(** ** The saved-answers page: loading the list

    The rows of [saved_answers] and [ingestion_jobs] are kept oldest
    first (an insert appends, and [created_at] defaults to the time of
    the insert), so [order('created_at', { ascending: false })] is the
    reversed list. *)

Module CasesList.
Import Cases.

Definition setLoading (b : bool) : M State unit :=
  modify_ui (fun u => mkState (savedAnswers u) b).

(** [from('saved_answers').select('*').eq('user_id', u)
     .order('created_at', { ascending: false })], under the [SELECT]
    policy [auth.uid() = user_id]. *)
Definition select_saved_answers {Ui} (e : Env) (user_id : uuid)
    : M Ui (Resp.t (list SavedAnswer.t)) :=
  storage e Select t_saved_answers (fun d =>
    (Resp.mk
       (Some (reverse
                (filter (fun r => SavedAnswer.user_id r = user_id)
                   (visible_saved_answers (auth_uid e) d))))
       None, d)).

(** [fetchSavedAnswers]. The [catch] only writes to the console; the
    [finally] block is the last [setLoading]. *)
Definition fetchSavedAnswers (e : Env) : M State unit :=
  try_catch
    (r ← select_saved_answers e (auth_uid e);
     match Resp.error r with
     | Some err => throw (PostgrestError err)
     | None => setSavedAnswers (default [] (Resp.data r))
     end)
    (fun _ => mret tt);;
  setLoading false.

(** The list a fetch puts on the page of [uid]: own rows, newest first. *)
Definition listed (uid : uuid) (d : Db) : list SavedAnswer.t :=
  reverse (visible_saved_answers uid d).

End CasesList.

(** ** The admin page: sources, job and audit lists, counters

    [sources] and [audit_log] are read and written by this page only;
    they are kept beside the database of the other pages, in
    [created_at] order like the other scanned tables. *)

Module Source.
Record t := mk {
  id : uuid;
  name : string;
  url : option string;
  description : option string;
  is_active : option bool }.
End Source.

Module AuditLogEntry.
Record t := mk {
  id : uuid;
  user_id : option uuid;
  action : string;
  table_name : option string }.
End AuditLogEntry.

Module Backend.

Record t := mk {
  base : Db;
  sources : list Source.t;
  audit_log : list AuditLogEntry.t }.

(** The tables this page queries on top of [Table]. *)
Inductive Extra := t_sources | t_audit_log | t_guidelines.

Definition Target : Type := Table + Extra.

End Backend.

Module Dashboard.

Inductive Tab := tab_sources | tab_jobs | tab_audit.

Record Stats := mkStats {
  totalDrugs : Z;
  totalGenes : Z;
  totalGuidelines : Z }.

(** [formData]. [is_active] is a boolean in the form, but
    [handleEditSource] copies the column, which may be [NULL]. *)
Record FormData := mkFormData {
  name : string;
  url : string;
  description : string;
  is_active : option bool }.

(** The [useState] cells of the component, [webhookLoading] apart
    (that one is in [Admin.State]). *)
Record State := mkState {
  activeTab : Tab;
  sources : list Source.t;
  jobs : list IngestionJob.t;
  auditLog : list AuditLogEntry.t;
  stats : Stats;
  loading : bool;
  showAddModal : bool;
  editingSource : option Source.t;
  formData : FormData;
  toast : option Admin.Toast }.

(** What a handler reads from outside: the session, which calls on
    the extra tables fail, and the user's answer to [confirm]. *)
Record Setting := mkSetting {
  env : Env;
  extra_faults : Verb -> Backend.Extra -> option string;
  confirm : string -> bool }.

Definition fault (s : Setting) (v : Verb) (t : Backend.Target) : option string :=
  match t with
  | inl t => faults (env s) v t
  | inr x => extra_faults s v x
  end.

Record Scene := mkScene {
  store : Backend.t;
  page : State;
  calls : list (Verb * Backend.Target) }.

(** The handler monad over a [Scene]. *)
Definition C (A : Type) : Type := Scene -> (Exn + A) * Scene.

Definition unit_C {A} (a : A) : C A := fun w => (inr a, w).

Definition bind_C {A B} (m : C A) (k : A -> C B) : C B :=
  fun w =>
    match m w with
    | (inr a, w') => k a w'
    | (inl x, w') => (inl x, w')
    end.

#[export] Instance C_ret : MRet C := fun A => @unit_C A.
#[export] Instance C_bind : MBind C := fun A B k m => bind_C m k.

Definition raise {A} (x : Exn) : C A := fun w => (inl x, w).

Definition attempt {A} (m : C A) (h : Exn -> C A) : C A :=
  fun w =>
    match m w with
    | (inr a, w') => (inr a, w')
    | (inl x, w') => h x w'
    end.

(** A call of an [async] function that nobody awaits: it runs, and a
    rejection reaches no handler. In the handlers below nothing that
    touches the same cells follows such a call, so its effects are
    placed where the call is. *)
Definition detached (m : C unit) : C unit := attempt m (fun _ => mret tt).

Definition get_page : C State := fun w => (inr (page w), w).

Definition set_page (f : State -> State) : C unit :=
  fun w => (inr tt, mkScene (store w) (f (page w)) (calls w)).

Definition setSources (l : list Source.t) : C unit :=
  set_page (fun u => mkState (activeTab u) l (jobs u) (auditLog u) (stats u) (loading u)
                       (showAddModal u) (editingSource u) (formData u) (toast u)).
Definition setJobs (l : list IngestionJob.t) : C unit :=
  set_page (fun u => mkState (activeTab u) (sources u) l (auditLog u) (stats u) (loading u)
                       (showAddModal u) (editingSource u) (formData u) (toast u)).
Definition setAuditLog (l : list AuditLogEntry.t) : C unit :=
  set_page (fun u => mkState (activeTab u) (sources u) (jobs u) l (stats u) (loading u)
                       (showAddModal u) (editingSource u) (formData u) (toast u)).
Definition setStats (x : Stats) : C unit :=
  set_page (fun u => mkState (activeTab u) (sources u) (jobs u) (auditLog u) x (loading u)
                       (showAddModal u) (editingSource u) (formData u) (toast u)).
Definition setLoading (b : bool) : C unit :=
  set_page (fun u => mkState (activeTab u) (sources u) (jobs u) (auditLog u) (stats u) b
                       (showAddModal u) (editingSource u) (formData u) (toast u)).
Definition setShowAddModal (b : bool) : C unit :=
  set_page (fun u => mkState (activeTab u) (sources u) (jobs u) (auditLog u) (stats u)
                       (loading u) b (editingSource u) (formData u) (toast u)).
Definition setEditingSource (x : option Source.t) : C unit :=
  set_page (fun u => mkState (activeTab u) (sources u) (jobs u) (auditLog u) (stats u)
                       (loading u) (showAddModal u) x (formData u) (toast u)).
Definition setFormData (x : FormData) : C unit :=
  set_page (fun u => mkState (activeTab u) (sources u) (jobs u) (auditLog u) (stats u)
                       (loading u) (showAddModal u) (editingSource u) x (toast u)).

(** [showToast]; the timer that hides the toast is a later event. *)
Definition showToast (m : string) (t : Admin.ToastType) : C unit :=
  set_page (fun u => mkState (activeTab u) (sources u) (jobs u) (auditLog u) (stats u)
                       (loading u) (showAddModal u) (editingSource u) (formData u)
                       (Some (Admin.mkToast m t))).

(** [{ name: '', url: '', description: '', is_active: true }] *)
Definition blank_form : FormData := mkFormData "" "" "" (Some true).

(** The row an [update(formData)] or [insert([formData])] writes. *)
Definition row_of (id : uuid) (f : FormData) : Source.t :=
  Source.mk id (name f) (Some (url f)) (Some (description f)) (is_active f).

(** The tables after [UPDATE sources SET ... WHERE id = id]. *)
Definition rewritten (id : uuid) (f : FormData) (b : Backend.t) : Backend.t :=
  Backend.mk (Backend.base b)
    ((fun r => if decide (Source.id r = id) then row_of id f else r)
       <$> Backend.sources b)
    (Backend.audit_log b).

(** The tables after an [INSERT INTO sources] that drew [id]. *)
Definition appended (id : uuid) (f : FormData) (b : Backend.t) : Backend.t :=
  Backend.mk (Backend.base b) (Backend.sources b ++ [row_of id f])%list
    (Backend.audit_log b).

(** [guidelines.source_id ... ON DELETE SET NULL] *)
Definition clear_source (id : uuid) (g : Guideline.t) : Guideline.t :=
  if decide (Guideline.source_id g = Some id) then
    Guideline.mk (Guideline.drug_id g) (Guideline.gene_id g) None
      (Guideline.recommendation g) (Guideline.evidence_level g)
      (Guideline.patient_summary g) (Guideline.clinician_summary g)
  else g.

Definition without_source (id : uuid) (d : Db) : Db :=
  mkDb (app_admins d) (drugs d) (genes d) (phenotypes d)
    (clear_source id <$> guidelines d)
    (interactions d) (citations d) (saved_answers d)
    (usage_monthly d) (ingestion_jobs d).

(** The tables after [DELETE FROM sources WHERE id = id] removed a row. *)
Definition removed (id : uuid) (b : Backend.t) : Backend.t :=
  Backend.mk (without_source id (Backend.base b))
    (filter (fun r => Source.id r ≠ id) (Backend.sources b))
    (Backend.audit_log b).

Section Handlers.
Context (s : Setting).

(** One awaited query: logged, answered by the fault or by [run]. *)
Definition ask {A} (v : Verb) (t : Backend.Target)
    (run : Backend.t -> Resp.t A * Backend.t) : C (Resp.t A) :=
  fun w =>
    let r := match fault s v t with
             | Some msg => (Resp.mk None (Some msg), store w)
             | None => run (store w)
             end in
    (inr (fst r), mkScene (snd r) (page w) (calls w ++ [(v, t)])%list).

(** The [EXISTS (SELECT 1 FROM app_admins ...)] of the policies. *)
Definition admin (b : Backend.t) : bool := is_admin (env s) (Backend.base b).

(** A statement [v] on [r] under its policies: when these cannot be
    expanded the statement is answered with that error and touches no
    row; [run] is what the statement does otherwise. *)
Definition under_policy {A} (v : Verb) (r : Relation)
    (run : Backend.t -> Resp.t A * Backend.t) (b : Backend.t) : Resp.t A * Backend.t :=
  match policy_failure v r with
  | Some msg => (Resp.mk None (Some msg), b)
  | None => run b
  end.

(** [from('sources').select('*').order('created_at', { ascending: false })];
    the policy is [USING (true)]. *)
Definition select_sources : C (Resp.t (list Source.t)) :=
  ask Select (inr Backend.t_sources)
    (under_policy Select r_sources (fun b =>
       (Resp.mk (Some (reverse (Backend.sources b))) None, b))).

(** [from('ingestion_jobs').select('*').order(...).limit(50)]; the
    policy sub-selects [app_admins]. *)
Definition select_jobs : C (Resp.t (list IngestionJob.t)) :=
  ask Select (inl t_ingestion_jobs)
    (under_policy Select r_ingestion_jobs (fun b =>
       (Resp.mk
          (Some (take 50
                   (reverse (if admin b then ingestion_jobs (Backend.base b) else []))))
          None, b))).

(** [from('audit_log').select('*').order(...).limit(100)]; the policy
    sub-selects [app_admins]. *)
Definition select_audit_log : C (Resp.t (list AuditLogEntry.t)) :=
  ask Select (inr Backend.t_audit_log)
    (under_policy Select r_audit_log (fun b =>
       (Resp.mk
          (Some (take 100 (reverse (if admin b then Backend.audit_log b else []))))
          None, b))).

(** [select('id', { count: 'exact', head: true })]: the answer has a
    [count], which is [null] when the call fails. *)
Definition count_rows (t : Backend.Target) (size : Backend.t -> nat) : C (option Z) :=
  fun w =>
    (inr match fault s Select t with
         | Some _ => None
         | None => Some (Z.of_nat (size (store w)))
         end,
     mkScene (store w) (page w) (calls w ++ [(Select, t)])%list).

(** [from('sources').update(formData).eq('id', id)]; the policy
    sub-selects [app_admins]. Its [USING] clause, were it evaluated,
    would hide every row from a caller who is no administrator. *)
Definition update_source (id : uuid) (f : FormData) : C (Resp.t unit) :=
  ask Update (inr Backend.t_sources)
    (under_policy Update r_sources (fun b =>
       (Resp.mk None None, if admin b then rewritten id f b else b))).

(** [from('sources').insert([formData])]; the policy sub-selects
    [app_admins]. *)
Definition insert_source (f : FormData) : C (Resp.t unit) :=
  ask Insert (inr Backend.t_sources)
    (under_policy Insert r_sources (fun b =>
       if admin b then
         if bool_decide (gen_random_uuid (env s) ∈ Source.id <$> Backend.sources b) then
           (Resp.mk None (Some (unique_violation "sources_pkey")), b)
         else
           (Resp.mk None None, appended (gen_random_uuid (env s)) f b)
       else (Resp.mk None (Some (rls_violation "sources")), b))).

(** [from('sources').delete().eq('id', id)]; the policy sub-selects
    [app_admins]. *)
Definition delete_source (id : uuid) : C (Resp.t unit) :=
  ask Delete (inr Backend.t_sources)
    (under_policy Delete r_sources (fun b =>
       (Resp.mk None None,
        if admin b then
          if bool_decide (id ∈ Source.id <$> Backend.sources b) then removed id b else b
        else b))).

Definition fetchSources : C unit :=
  r ← select_sources;
  match Resp.error r with
  | Some err => raise (PostgrestError err)
  | None => setSources (default [] (Resp.data r))
  end.

Definition fetchJobs : C unit :=
  r ← select_jobs;
  match Resp.error r with
  | Some err => raise (PostgrestError err)
  | None => setJobs (default [] (Resp.data r))
  end.

Definition fetchAuditLog : C unit :=
  r ← select_audit_log;
  match Resp.error r with
  | Some err => raise (PostgrestError err)
  | None => setAuditLog (default [] (Resp.data r))
  end.

(** [count || 0] *)
Definition or_zero (n : option Z) : Z := default 0%Z n.

(** [fetchStats]: the three counts are requested together; their
    errors are not looked at. *)
Definition fetchStats : C unit :=
  d ← count_rows (inl t_drugs) (fun b => length (drugs (Backend.base b)));
  g ← count_rows (inl t_genes) (fun b => length (genes (Backend.base b)));
  gl ← count_rows (inr Backend.t_guidelines)
         (fun b => size (guidelines (Backend.base b)));
  setStats (mkStats (or_zero d) (or_zero g) (or_zero gl)).

(** [fetchData]. The [catch] only writes to the console. *)
Definition fetchData : C unit :=
  st ← get_page;
  setLoading true;;
  attempt
    (match activeTab st with
     | tab_sources => fetchSources
     | tab_jobs => fetchJobs
     | tab_audit => fetchAuditLog
     end;;
     fetchStats)
    (fun _ => mret tt);;
  setLoading false.

(** [handleSubmitSource] *)
Definition handleSubmitSource : C unit :=
  st ← get_page;
  attempt
    (match editingSource st with
     | Some src =>
         r ← update_source (Source.id src) (formData st);
         match Resp.error r with
         | Some err => raise (PostgrestError err)
         | None => showToast "Source updated successfully" Admin.success
         end
     | None =>
         r ← insert_source (formData st);
         match Resp.error r with
         | Some err => raise (PostgrestError err)
         | None => showToast "Source added successfully" Admin.success
         end
     end;;
     setShowAddModal false;;
     setEditingSource None;;
     setFormData blank_form;;
     detached fetchSources)
    (fun err =>
       showToast (Text.js_or_lit (Some (message err)) "Failed to save source")
         Admin.error).

(** [handleDeleteSource] *)
Definition handleDeleteSource (id : uuid) : C unit :=
  if negb (confirm s "Are you sure you want to delete this source?") then mret tt
  else
    attempt
      (r ← delete_source id;
       match Resp.error r with
       | Some err => raise (PostgrestError err)
       | None =>
           showToast "Source deleted successfully" Admin.success;;
           detached fetchSources
       end)
      (fun err =>
         showToast (Text.js_or_lit (Some (message err)) "Failed to delete source")
           Admin.error).

End Handlers.

(** [handleEditSource] *)
Definition handleEditSource (source : Source.t) : C unit :=
  setEditingSource (Some source);;
  setFormData
    (mkFormData (Source.name source)
       (Text.js_or_lit (Source.url source) "")
       (Text.js_or_lit (Source.description source) "")
       (Source.is_active source));;
  setShowAddModal true.

(** The [onClick] of the "Add Source" button. *)
Definition openAddModal : C unit :=
  setShowAddModal true;;
  setEditingSource None;;
  setFormData blank_form.

(** The [onClick] of the "Cancel" button of the dialog. *)
Definition cancelModal : C unit :=
  setShowAddModal false;;
  setEditingSource None.

(** [formatDateTime] up to the locale's rendering of a date. *)
Definition formatDateTime (render : string -> string) (dateString : option string)
    : string :=
  match dateString with
  | None => "N/A"
  | Some d => if String.eqb d "" then "N/A" else render d
  end.

End Dashboard.

(** ** Reading a run of the admin page *)

Module Desk.
Import Dashboard.

(** The table behind a tab. *)
Definition tab_table (t : Tab) : Backend.Target :=
  match t with
  | tab_sources => inr Backend.t_sources
  | tab_jobs => inl t_ingestion_jobs
  | tab_audit => inr Backend.t_audit_log
  end.

Definition tab_relation (t : Tab) : Relation :=
  match t with
  | tab_sources => r_sources
  | tab_jobs => r_ingestion_jobs
  | tab_audit => r_audit_log
  end.

(** The error a statement [v] on the table [t], which is the relation
    [r], is answered with before it touches a row: the call fails, or
    the policies of the statement cannot be expanded. *)
Definition call_error (s : Setting) (v : Verb) (t : Backend.Target) (r : Relation)
    : option string :=
  match fault s v t with
  | Some m => Some m
  | None => policy_failure v r
  end.

(** The error the read of a tab's list is answered with, if any. *)
Definition tab_error (s : Setting) (t : Tab) : option string :=
  call_error s Select (tab_table t) (tab_relation t).

(** The page with another toast, list of sources or loading flag. *)
Definition with_toast (u : State) (m : string) (t : Admin.ToastType) : State :=
  mkState (activeTab u) (sources u) (jobs u) (auditLog u) (stats u) (loading u)
    (showAddModal u) (editingSource u) (formData u) (Some (Admin.mkToast m t)).

Definition with_sources (u : State) (l : list Source.t) : State :=
  mkState (activeTab u) l (jobs u) (auditLog u) (stats u) (loading u)
    (showAddModal u) (editingSource u) (formData u) (toast u).

Definition with_jobs (u : State) (l : list IngestionJob.t) : State :=
  mkState (activeTab u) (sources u) l (auditLog u) (stats u) (loading u)
    (showAddModal u) (editingSource u) (formData u) (toast u).

Definition with_auditLog (u : State) (l : list AuditLogEntry.t) : State :=
  mkState (activeTab u) (sources u) (jobs u) l (stats u) (loading u)
    (showAddModal u) (editingSource u) (formData u) (toast u).

Definition with_stats (u : State) (x : Stats) : State :=
  mkState (activeTab u) (sources u) (jobs u) (auditLog u) x (loading u)
    (showAddModal u) (editingSource u) (formData u) (toast u).

Definition with_loading (u : State) (b : bool) : State :=
  mkState (activeTab u) (sources u) (jobs u) (auditLog u) (stats u) b
    (showAddModal u) (editingSource u) (formData u) (toast u).

(** The page after a write went through: success toast, dialog
    closed and emptied. *)
Definition closed (u : State) (m : string) : State :=
  mkState (activeTab u) (sources u) (jobs u) (auditLog u) (stats u) (loading u)
    false None blank_form (Some (Admin.mkToast m Admin.success)).

(** The list of sources after the refresh that follows a write. *)
Definition refreshed (s : Setting) (b : Backend.t) (u : State) : State :=
  match tab_error s tab_sources with
  | Some _ => u
  | None => with_sources u (reverse (Backend.sources b))
  end.

(** The counters [fetchStats] sets. *)
Definition counted (s : Setting) (b : Backend.t) : Stats :=
  mkStats
    match fault s Select (inl t_drugs) with
    | Some _ => 0%Z
    | None => Z.of_nat (length (drugs (Backend.base b)))
    end
    match fault s Select (inl t_genes) with
    | Some _ => 0%Z
    | None => Z.of_nat (length (genes (Backend.base b)))
    end
    match fault s Select (inr Backend.t_guidelines) with
    | Some _ => 0%Z
    | None => Z.of_nat (size (guidelines (Backend.base b)))
    end.

(** The page once the list of its active tab has been read. *)
Definition tab_loaded (s : Setting) (b : Backend.t) (u : State) : State :=
  match activeTab u with
  | tab_sources => with_sources u (reverse (Backend.sources b))
  | tab_jobs =>
      with_jobs u
        (take 50 (reverse (if admin s b then ingestion_jobs (Backend.base b) else [])))
  | tab_audit =>
      with_auditLog u
        (take 100 (reverse (if admin s b then Backend.audit_log b else [])))
  end.

(** The three count requests. *)
Definition count_calls : list (Verb * Backend.Target) :=
  [(Select, inl t_drugs); (Select, inl t_genes); (Select, inr Backend.t_guidelines)].

(** The write [handleSubmitSource] issues. *)
Definition submit_call (u : State) : Verb * Backend.Target :=
  match editingSource u with
  | Some _ => (Update, inr Backend.t_sources)
  | None => (Insert, inr Backend.t_sources)
  end.

(** Why the storage turns down the insert of a source, if it does. *)
Definition insert_refusal (s : Setting) (b : Backend.t) : option string :=
  match call_error s Insert (inr Backend.t_sources) r_sources with
  | Some m => Some m
  | None =>
      if admin s b then
        if bool_decide (gen_random_uuid (env s) ∈ Source.id <$> Backend.sources b)
        then Some (unique_violation "sources_pkey")
        else None
      else Some (rls_violation "sources")
  end.

(** The error [handleSubmitSource] gets back from its write, if any. *)
Definition refusal (s : Setting) (w : Scene) : option string :=
  match editingSource (page w) with
  | Some _ => call_error s Update (inr Backend.t_sources) r_sources
  | None => insert_refusal s (store w)
  end.

End Desk.

Module Office.

Definition cpic : Source.t :=
  Source.mk "s-1" "CPIC" (Some "https://cpicpgx.org") (Some "Guidelines") (Some true).
Definition fda : Source.t := Source.mk "s-2" "FDA" None None None.

(** [Sample.db0], where [bob] is listed in [app_admins], with one job. *)
Definition base0 : Db :=
  with_ingestion_jobs
    (fun _ => [IngestionJob.mk "FDA Ingestion" (Some "done") None]) Sample.db0.

Definition backend0 : Backend.t := Backend.mk base0 [cpic; fda] [].

Definition no_extra_faults : Verb -> Backend.Extra -> option string := fun _ _ => None.

Definition setting (uid : uuid) (answer : bool) : Dashboard.Setting :=
  Dashboard.mkSetting
    (mkEnv uid "2026-11-02T10:00:00.000Z" Sample.no_faults "s-3" Sample.all_ok)
    no_extra_faults (fun _ => answer).

Definition page0 : Dashboard.State :=
  Dashboard.mkState Dashboard.tab_sources [] [] [] (Dashboard.mkStats 0 0 0) true
    false None Dashboard.blank_form None.

Definition scene0 : Dashboard.Scene := Dashboard.mkScene backend0 page0 [].

(** The same page on the jobs tab. *)
Definition page_jobs : Dashboard.State :=
  Dashboard.mkState Dashboard.tab_jobs [] [] [] (Dashboard.mkStats 0 0 0) true
    false None Dashboard.blank_form None.

(** The dialog filled in for a new source. *)
Definition page_adding : Dashboard.State :=
  Dashboard.mkState Dashboard.tab_sources [fda; cpic] [] [] (Dashboard.mkStats 1 1 2)
    false true None
    (Dashboard.mkFormData "PharmGKB" "https://pharmgkb.org" "" (Some true)) None.

Definition scene_adding : Dashboard.Scene := Dashboard.mkScene backend0 page_adding [].

End Office.

(** ** The evidence page

    The page keeps no storage state of its own: [fetchGuidelines]
    reads, [filterGuidelines] and the cards work on the cells. The
    handlers are written as functions of the cells. *)

Module GuidelineWithDetails.

(** A row of [guidelines] as [fetchGuidelines] selects it. An
    embedded [drug], [gene] or [source] object is [null] when the
    foreign key is [NULL]; it is kept as the one column it carries.
    The embedded [citations] are read by the expanded body of a card
    only and are left out. *)
Record t := mk {
  id : uuid;
  recommendation : option string;
  evidence_level : option string;
  patient_summary : option string;
  clinician_summary : option string;
  drug : option string;
  gene : option string;
  source : option string }.

(** [drug:drugs(name), gene:genes(symbol), source:sources(name)] *)
Definition of_row (b : Backend.t) (gid : uuid) (g : Guideline.t) : t :=
  mk gid (Guideline.recommendation g) (Guideline.evidence_level g)
    (Guideline.patient_summary g) (Guideline.clinician_summary g)
    (did ← Guideline.drug_id g;
     Drug.name <$> List.find (fun r => bool_decide (Drug.id r = did))
                     (drugs (Backend.base b)))
    (gn ← Guideline.gene_id g;
     Gene.symbol <$> List.find (fun r => bool_decide (Gene.id r = gn))
                       (genes (Backend.base b)))
    (sid ← Guideline.source_id g;
     Source.name <$> List.find (fun r => bool_decide (Source.id r = sid))
                       (Backend.sources b)).

(** What the read depends on besides the tables: whether it fails,
    and the order of the guidelines by [created_at], oldest first,
    which the map of guidelines does not record. *)
Record Setting := mkSetting {
  select_fault : option string;
  by_created_at : list uuid }.

(** [from('guidelines').select(...).order('created_at', { ascending: false })] *)
Definition select (s : Setting) (b : Backend.t) : Resp.t (list t) :=
  match select_fault s with
  | Some m => Resp.mk None (Some m)
  | None =>
      Resp.mk
        (Some (omap (fun gid => of_row b gid <$> guidelines (Backend.base b) !! gid)
                 (reverse (by_created_at s))))
        None
  end.

End GuidelineWithDetails.

Module Evidence.

(** The [useState] cells, without the two option lists that
    [fetchFilters] fills. *)
Record State := mkState {
  guidelines : list GuidelineWithDetails.t;
  filteredGuidelines : list GuidelineWithDetails.t;
  loading : bool;
  searchTerm : string;
  drugFilter : string;
  geneFilter : string;
  evidenceFilter : string;
  expandedId : option uuid }.

(** [fetchGuidelines]. The [catch] only writes to the console. *)
Definition fetchGuidelines (s : GuidelineWithDetails.Setting) (b : Backend.t)
    (st : State) : State :=
  let r := GuidelineWithDetails.select s b in
  match Resp.error r with
  | Some _ =>
      mkState (guidelines st) (filteredGuidelines st) false (searchTerm st)
        (drugFilter st) (geneFilter st) (evidenceFilter st) (expandedId st)
  | None =>
      mkState (default [] (Resp.data r)) (default [] (Resp.data r)) false
        (searchTerm st) (drugFilter st) (geneFilter st) (evidenceFilter st)
        (expandedId st)
  end.

(** [g.drug.name] and [g.gene.symbol] *)
Definition drug_name (g : GuidelineWithDetails.t) : Exn + string :=
  match GuidelineWithDetails.drug g with
  | Some n => inr n
  | None => inl (null_property_read "name")
  end.

Definition gene_symbol (g : GuidelineWithDetails.t) : Exn + string :=
  match GuidelineWithDetails.gene g with
  | Some n => inr n
  | None => inl (null_property_read "symbol")
  end.

(** [Array.prototype.filter] with a callback that may throw. *)
Fixpoint filter_js {A} (p : A -> Exn + bool) (l : list A) : Exn + list A :=
  match l with
  | [] => inr []
  | x :: l' =>
      match p x with
      | inl err => inl err
      | inr keep =>
          match filter_js p l' with
          | inl err => inl err
          | inr r => inr (if keep then x :: r else r)
          end
      end
  end.

(** [hay.includes(needle)] *)
Definition includes (hay needle : string) : bool := Text.occurs_in needle hay.

(** The callback of the search: [||] evaluates its operands from the
    left and stops at the first that is true. [toLowerCase] is the
    engine's [String.prototype.toLowerCase]; how it folds a letter is
    left to it. *)
Definition search_hit (toLowerCase : string -> string) (term : string)
    (g : GuidelineWithDetails.t) : Exn + bool :=
  match drug_name g with
  | inl err => inl err
  | inr n =>
      if includes (toLowerCase n) term then inr true
      else
        match gene_symbol g with
        | inl err => inl err
        | inr sy =>
            if includes (toLowerCase sy) term then inr true
            else
              inr match GuidelineWithDetails.recommendation g with
                  | Some r => includes (toLowerCase r) term
                  | None => false
                  end
        end
  end.

Definition drug_is (name : string) (g : GuidelineWithDetails.t) : Exn + bool :=
  match drug_name g with
  | inl err => inl err
  | inr n => inr (String.eqb n name)
  end.

Definition gene_is (symbol : string) (g : GuidelineWithDetails.t) : Exn + bool :=
  match gene_symbol g with
  | inl err => inl err
  | inr n => inr (String.eqb n symbol)
  end.

Definition level_is (level : string) (g : GuidelineWithDetails.t) : Exn + bool :=
  inr match GuidelineWithDetails.evidence_level g with
      | Some l => String.eqb l level
      | None => false
      end.

(** One [if (cell) filtered = filtered.filter(...)] step. *)
Definition narrow (cell : string) (p : GuidelineWithDetails.t -> Exn + bool)
    (filtered : Exn + list GuidelineWithDetails.t) : Exn + list GuidelineWithDetails.t :=
  match filtered with
  | inl err => inl err
  | inr l => if String.eqb cell "" then inr l else filter_js p l
  end.

(** [filterGuidelines] *)
Definition filterGuidelines (toLowerCase : string -> string) (st : State)
    : Exn + State :=
  match
    narrow (evidenceFilter st) (level_is (evidenceFilter st))
      (narrow (geneFilter st) (gene_is (geneFilter st))
         (narrow (drugFilter st) (drug_is (drugFilter st))
            (narrow (searchTerm st)
               (search_hit toLowerCase (toLowerCase (searchTerm st)))
               (inr (guidelines st)))))
  with
  | inl err => inl err
  | inr filtered =>
      inr (mkState (guidelines st) filtered (loading st) (searchTerm st)
             (drugFilter st) (geneFilter st) (evidenceFilter st) (expandedId st))
  end.

(** [toggleExpand] *)
Definition toggleExpand (id : uuid) (st : State) : State :=
  mkState (guidelines st) (filteredGuidelines st) (loading st) (searchTerm st)
    (drugFilter st) (geneFilter st) (evidenceFilter st)
    (if decide (expandedId st = Some id) then None else Some id).

(** The head of a card, in the order the JSX reads the row. *)
Record Header := mkHeader {
  title : string;
  badge : option string;
  source_line : string;
  summary : option string }.

Definition shown (a : option string) : option string :=
  if Text.truthy a then a else None.

Definition card_header (g : GuidelineWithDetails.t) : Exn + Header :=
  match drug_name g with
  | inl err => inl err
  | inr n =>
      match gene_symbol g with
      | inl err => inl err
      | inr sy =>
          match GuidelineWithDetails.source g with
          | None => inl (null_property_read "name")
          | Some src =>
              inr (mkHeader (n +:+ " & " +:+ sy)
                     (shown (GuidelineWithDetails.evidence_level g))
                     ("Source: " +:+ src)
                     (shown (GuidelineWithDetails.recommendation g)))
          end
      end
  end.

(** The search term occurs in the drug name, the gene symbol or the
    recommendation of the row. *)
Definition found (toLowerCase : string -> string) (term : string)
    (g : GuidelineWithDetails.t) : bool :=
  match GuidelineWithDetails.drug g with
  | Some n => includes (toLowerCase n) term
  | None => false
  end
  || match GuidelineWithDetails.gene g with
     | Some n => includes (toLowerCase n) term
     | None => false
     end
  || match GuidelineWithDetails.recommendation g with
     | Some r => includes (toLowerCase r) term
     | None => false
     end.

(** [filteredGuidelines.map(...)]: the cards are drawn in order, and
    the first head that throws ends the rendering. *)
Fixpoint cards (l : list GuidelineWithDetails.t) : Exn + list Header :=
  match l with
  | [] => inr []
  | g :: l' =>
      match card_header g with
      | inl err => inl err
      | inr h =>
          match cards l' with
          | inl err => inl err
          | inr hs => inr (h :: hs)
          end
      end
  end.

(** A guideline passes the filters that are set. *)
Definition meets (toLowerCase : string -> string) (st : State)
    (g : GuidelineWithDetails.t) : bool :=
  (String.eqb (searchTerm st) ""
   || found toLowerCase (toLowerCase (searchTerm st)) g)
  && (String.eqb (drugFilter st) ""
      || bool_decide (GuidelineWithDetails.drug g = Some (drugFilter st)))
  && (String.eqb (geneFilter st) ""
      || bool_decide (GuidelineWithDetails.gene g = Some (geneFilter st)))
  && (String.eqb (evidenceFilter st) ""
      || bool_decide (GuidelineWithDetails.evidence_level g = Some (evidenceFilter st))).

(** The row has both embedded objects the filters read. *)
Definition complete (g : GuidelineWithDetails.t) : Prop :=
  is_Some (GuidelineWithDetails.drug g) ∧ is_Some (GuidelineWithDetails.gene g).

End Evidence.

Module Shelf.

Definition row1 : GuidelineWithDetails.t :=
  GuidelineWithDetails.mk "gl-1" (Some "Reduce the dose") (Some "High") None None
    (Some "Warfarin") (Some "CYP2C9") (Some "CPIC").
Definition row2 : GuidelineWithDetails.t :=
  GuidelineWithDetails.mk "gl-2" None (Some "Low") None None
    (Some "Codeine") (Some "CYP2D6") (Some "FDA").

Definition page (rows : list GuidelineWithDetails.t) (search drug : string)
    : Evidence.State :=
  Evidence.mkState rows rows false search drug "" "" None.

Definition reading : GuidelineWithDetails.Setting :=
  GuidelineWithDetails.mkSetting None ["gl-1"; "gl-2"].

(** [Sample.db0], whose guideline has no source, beside two sources. *)
Definition backend : Backend.t :=
  Backend.mk Sample.db0
    [Source.mk "s-1" "CPIC" None None (Some true); Source.mk "s-2" "FDA" None None None]
    [].

End Shelf.

(** * Properties *)

(** ** The pattern match behind the drug and gene search *)

Example like_warf : Text.ilike "%warf%" "Warfarin" = true.
Proof. reflexivity. Qed.
Example like_under : Text.ilike "%w_rf%" "Warfarin" = true.
Proof. reflexivity. Qed.
Example like_none : Text.ilike "%zzzznotadrug%" "Warfarin" = false.
Proof. reflexivity. Qed.

Module TextFacts.
Import Text.

Lemma append_cons c a b : String c a +:+ b = String c (a +:+ b).
Proof. reflexivity. Qed.













(** What [occurs_in] computes. *)
Lemma prefix_cons c q x s :
  String.prefix (String c q) (String x s)
  = if ascii_dec c x then String.prefix q s else false.
Proof. reflexivity. Qed.

Lemma prefix_app q s : String.prefix q s = true <-> exists post, s = q +:+ post.
Proof.
  revert s. induction q as [|c q IH]; intros s.
  - split; [intros _; now exists s | now destruct s].
  - destruct s as [|x s].
    { split; [discriminate | intros [post Hp]; discriminate]. }
    rewrite prefix_cons. destruct (ascii_dec c x) as [->|Hne].
    + rewrite IH. split; intros [post Hp]; exists post.
      * now rewrite append_cons, <- Hp.
      * rewrite append_cons in Hp. now inversion Hp.
    + split; [discriminate|]. intros [post Hp].
      rewrite append_cons in Hp. inversion Hp. congruence.
Qed.

Lemma occurs_in_eq q s :
  occurs_in q s =
  String.prefix q s || match s with
                       | EmptyString => false
                       | String _ s' => occurs_in q s'
                       end.
Proof. destruct s; reflexivity. Qed.

Lemma occurs_in_spec q s :
  occurs_in q s = true <-> exists pre post, s = pre +:+ q +:+ post.
Proof.
  induction s as [|x s IH]; rewrite occurs_in_eq, orb_true_iff, prefix_app.
  - split.
    + intros [[post Hp]|]; [|discriminate]. now exists "", post.
    + intros (pre & post & H). left. destruct pre; [now exists post|discriminate].
  - rewrite IH. split.
    + intros [[post Hp]|(pre & post & Hp)]; [now exists "", post|].
      exists (String x pre), post. now rewrite append_cons, <- Hp.
    + intros (pre & post & H). destruct pre as [|y pre].
      * left. now exists post.
      * right. rewrite append_cons in H. inversion H. now exists pre, post.
Qed.

End TextFacts.

(** ** The query flow, case by case *)

Module ChatFacts.
Import Chat Resolution.

Ltac unfold_monad :=
  cbv [mbind M_bind bind mret M_ret ret try_catch throw get_ui modify_ui storage
       setError setResult setLimitReached setSaveSuccess setLoading].

Ltac unfold_queries :=
  cbv [select_usage_monthly select_drug select_gene select_interactions select_citations
       update_usage_monthly insert_usage_monthly insert_saved_answer].

Ltac unfold_lookups :=
  cbv [usage_lookup drug_lookup gene_lookup interaction_lookup citation_lookup
       answer_of_query gate_passed].

Ltac step := cbn [fst snd ui db log Resp.data Resp.error].

(** The usage fetch failed: its error is thrown and shown. *)
Lemma handleSubmit_fetch_failed e w m :
  faults e Select t_usage_monthly = Some m ->
  handleSubmit e w =
  (inr tt, mkWorld (db w) (finished (ui w) None (shown_error (PostgrestError m)) false)
             (log w ++ [fetch_usage])).
Proof.
  intros Hf. unfold handleSubmit, select_usage_monthly. unfold_monad. step.
  unfold respond. rewrite Hf. reflexivity.
Qed.

(** Past the quota check the run is the rest of the [try] body, then the
    [catch] and the [finally]. *)
Lemma handleSubmit_pass e w :
  gate_passed e w ->
  handleSubmit e w =
  settle (resolve_and_answer e (ui w) (currentMonth e) (usage_lookup e w) (started w)).
Proof.
  intros [Hf Hq]. revert Hq. unfold_lookups.
  unfold handleSubmit, select_usage_monthly. unfold_monad. step.
  unfold respond. rewrite Hf. step. intros ->.
  unfold settle, started.
  destruct (resolve_and_answer _ _ _ _ _) as [[x|[]] w']; reflexivity.
Qed.

(** A read leaves the database alone, failed or not. *)
Lemma respond_read {A} e v t (f : Db -> Resp.t A) d :
  snd (respond e v t (fun d => (f d, d)) d) = d.
Proof. unfold respond. now destruct (faults e v t). Qed.

Ltac reads := rewrite ?respond_read.

Ltac run_resolve :=
  rewrite handleSubmit_pass by assumption;
  unfold resolve_and_answer, started, settle; unfold_queries; unfold_monad; step; reads.

(** No drug or no gene came back: the not-found message. *)
Lemma handleSubmit_not_found_pair e w :
  gate_passed e w ->
  drug_lookup e w = None ∨ gene_lookup e w = None ->
  handleSubmit e w =
  (inr tt, mkWorld (db w) (finished (ui w) None not_in_database false)
             (log w ++ [fetch_usage; find_drug; find_gene])).
Proof.
  intros Hg Hnone. run_resolve.
  revert Hnone. unfold_lookups. unfold_queries. unfold_monad. step.
  intros [H|H]; rewrite H; cbn.
  - rewrite <- !app_assoc. reflexivity.
  - destruct (Resp.data (fst (respond e Select t_drugs _ _))); cbn;
      rewrite <- !app_assoc; reflexivity.
Qed.

Ltac use_lookups Hd Hgn Hi :=
  revert Hi; unfold interaction_lookup; rewrite Hd, Hgn; cbn [mbind option_bind];
  revert Hd Hgn; unfold_lookups; unfold_queries; unfold_monad; step;
  intros -> ->; step.

(** No interaction for the resolved pair: the same message. *)
Lemma handleSubmit_not_found_interaction e w d g :
  gate_passed e w ->
  drug_lookup e w = Some d -> gene_lookup e w = Some g ->
  interaction_lookup e w = None ->
  handleSubmit e w =
  (inr tt, mkWorld (db w) (finished (ui w) None not_in_database false)
             (log w ++ [fetch_usage; find_drug; find_gene; fetch_interactions])).
Proof.
  intros Hg Hd Hgn Hi. run_resolve. use_lookups Hd Hgn Hi.
  destruct (Resp.data (fst (respond e Select t_interactions _ _))) as [[|i l]|];
    cbn; try discriminate; intros _; reads; rewrite <- !app_assoc; reflexivity.
Qed.

(** The selected interaction has no guideline: reading [guideline.id]
    throws, and the [catch] shows the message. *)
Lemma handleSubmit_null_guideline e w i :
  gate_passed e w ->
  interaction_lookup e w = Some i ->
  InteractionJoined.guideline i = None ->
  handleSubmit e w =
  (inr tt, mkWorld (db w)
             (finished (ui w) None (shown_error (null_property_read "id")) false)
             (log w ++ [fetch_usage; find_drug; find_gene; fetch_interactions])).
Proof.
  intros Hg Hi Hnull.
  destruct (drug_lookup e w) as [d|] eqn:Hd;
    [|unfold interaction_lookup in Hi; rewrite Hd in Hi; discriminate].
  destruct (gene_lookup e w) as [g|] eqn:Hgn;
    [|unfold interaction_lookup in Hi; rewrite Hd, Hgn in Hi; discriminate].
  run_resolve. use_lookups Hd Hgn Hi.
  destruct (Resp.data (fst (respond e Select t_interactions _ _))) as [[|i' l]|];
    cbn; try discriminate. intros [= ->]. rewrite Hnull. cbn. reads.
  rewrite <- !app_assoc. reflexivity.
Qed.

(** Everything resolved: the result card is set, whatever becomes of the
    usage write. *)
Lemma handleSubmit_answered_ui e w d g i gid gl :
  gate_passed e w ->
  drug_lookup e w = Some d -> gene_lookup e w = Some g ->
  interaction_lookup e w = Some i ->
  InteractionJoined.guideline i = Some (gid, gl) ->
  fst (handleSubmit e w) = inr tt
  ∧ ui (snd (handleSubmit e w))
    = finished (ui w) (Some (rendered e w d g gid gl i)) "" false.
Proof.
  intros Hg Hd Hgn Hi Hgl. run_resolve. use_lookups Hd Hgn Hi.
  destruct (Resp.data (fst (respond e Select t_interactions _ _))) as [[|i' l]|];
    cbn; try discriminate. intros [= ->]. rewrite Hgl. cbn. reads.
  unfold rendered, citation_lookup, answer_of_query. unfold_queries. unfold_monad. step.
  destruct (Resp.data (fst (respond e Select t_usage_monthly _ _)));
    cbn; split; reflexivity.
Qed.

(** Everything resolved and a usage row was fetched: it is rewritten. *)
Lemma handleSubmit_answered_update e w d g i gid gl u :
  gate_passed e w ->
  drug_lookup e w = Some d -> gene_lookup e w = Some g ->
  interaction_lookup e w = Some i ->
  InteractionJoined.guideline i = Some (gid, gl) ->
  usage_lookup e w = Some u ->
  faults e Update t_usage_monthly = None ->
  handleSubmit e w =
  (inr tt,
   mkWorld
     (with_usage_monthly
        (fun m => <[(auth_uid e, currentMonth e) :=
                     UsageMonthly.mk (Some (js_num (UsageMonthly.query_count u) + 1))]> m)
        (db w))
     (finished (ui w) (Some (rendered e w d g gid gl i)) "" false)
     (log w ++ [fetch_usage; find_drug; find_gene; fetch_interactions; fetch_citations;
                bump_usage])).
Proof.
  intros Hg Hd Hgn Hi Hgl Hu Hf. run_resolve. rewrite Hu. use_lookups Hd Hgn Hi.
  destruct (Resp.data (fst (respond e Select t_interactions _ _))) as [[|i' l]|];
    cbn; try discriminate. intros [= ->]. rewrite Hgl. cbn. reads.
  unfold rendered, citation_lookup, answer_of_query. unfold_queries. unfold_monad. step.
  destruct Hg as [Hfs _]. revert Hu. unfold_lookups. unfold_queries. unfold_monad. step.
  unfold respond at 1 2. rewrite Hfs, Hf. cbn.
  destruct (decide (auth_uid e = auth_uid e)); [|congruence].
  intros Hu. unfold with_usage_monthly at 1. rewrite Hu.
  rewrite <- !app_assoc. reflexivity.
Qed.

(** Everything resolved and no usage row was fetched: one is inserted. *)
Lemma handleSubmit_answered_insert e w d g i gid gl :
  gate_passed e w ->
  drug_lookup e w = Some d -> gene_lookup e w = Some g ->
  interaction_lookup e w = Some i ->
  InteractionJoined.guideline i = Some (gid, gl) ->
  usage_lookup e w = None ->
  faults e Insert t_usage_monthly = None ->
  handleSubmit e w =
  (inr tt,
   mkWorld
     (with_usage_monthly
        (fun m => <[(auth_uid e, currentMonth e) := UsageMonthly.mk (Some 1)]> m)
        (db w))
     (finished (ui w) (Some (rendered e w d g gid gl i)) "" false)
     (log w ++ [fetch_usage; find_drug; find_gene; fetch_interactions; fetch_citations;
                create_usage])).
Proof.
  intros Hg Hd Hgn Hi Hgl Hu Hf. run_resolve. rewrite Hu. use_lookups Hd Hgn Hi.
  destruct (Resp.data (fst (respond e Select t_interactions _ _))) as [[|i' l]|];
    cbn; try discriminate. intros [= ->]. rewrite Hgl. cbn. reads.
  unfold rendered, citation_lookup, answer_of_query. unfold_queries. unfold_monad. step.
  destruct Hg as [Hfs _]. revert Hu. unfold_lookups. unfold_queries. unfold_monad. step.
  unfold respond at 1 2. rewrite Hfs, Hf. cbn.
  destruct (decide (auth_uid e = auth_uid e)); [|congruence].
  intros Hu. rewrite Hu.
  rewrite <- !app_assoc. reflexivity.
Qed.


Lemma usage_lookup_ok e w :
  faults e Select t_usage_monthly = None ->
  usage_lookup e w = usage_monthly (db w) !! usage_key e.
Proof.
  intros Hf. unfold_lookups. unfold_queries. unfold_monad. step.
  unfold respond. rewrite Hf. cbn.
  destruct (decide (auth_uid e = auth_uid e)); [reflexivity | congruence].
Qed.

Lemma quota_reached_full u :
  quota_reached u = true <->
  exists r n, u = Some r ∧ UsageMonthly.query_count r = Some n ∧ 50 <= n.
Proof.
  unfold quota_reached, js_num. split.
  - destruct u as [[[n|]]|]; cbn; try discriminate.
    intros H%Z.leb_le. eauto.
  - intros (r & n & -> & Hn & Hle). rewrite Hn. cbn. now apply Z.leb_le.
Qed.

Lemma handleSubmit_quota e w :
  faults e Select t_usage_monthly = None ->
  quota_reached (usage_lookup e w) = true ->
  handleSubmit e w =
  (inr tt, mkWorld (db w) (finished (ui w) None "" true) (log w ++ [fetch_usage])).
Proof.
  intros Hf Hq. revert Hq. unfold_lookups.
  unfold handleSubmit, select_usage_monthly. unfold_monad. step.
  unfold respond. rewrite Hf. step. intros ->. reflexivity.
Qed.

(** C1. When the caller's usage row for the current month holds a
    count of 50 or more, [handleSubmit] raises the limit banner, shows
    no answer and no error, leaves the database as it was, and the only
    storage call it issued is the usage fetch: no drug, gene or
    interaction lookup and no write. *)
Theorem quota_exceeded_stops_the_flow e w u n :
  faults e Select t_usage_monthly = None ->
  usage_monthly (db w) !! usage_key e = Some u ->
  UsageMonthly.query_count u = Some n ->
  50 <= n ->
  handleSubmit e w =
  (inr tt, mkWorld (db w) (finished (ui w) None "" true) (log w ++ [fetch_usage])).
Proof.
  intros Hf Hu Hn Hle. apply handleSubmit_quota; [exact Hf|].
  rewrite usage_lookup_ok by exact Hf. apply quota_reached_full. eauto.
Qed.

Lemma quota_exceeded_stops_the_flow_witness :
  handleSubmit (Sample.env Sample.alice)
    (mkWorld (Sample.db_used Sample.alice (Some 50))
       (Sample.chat0 "Warfarin" "CYP2C9" Patient) [])
  = (inr tt,
     mkWorld (Sample.db_used Sample.alice (Some 50))
       (finished (Sample.chat0 "Warfarin" "CYP2C9" Patient) None "" true)
       [fetch_usage]).
Proof.
  apply (quota_exceeded_stops_the_flow (Sample.env Sample.alice)
           (mkWorld (Sample.db_used Sample.alice (Some 50))
              (Sample.chat0 "Warfarin" "CYP2C9" Patient) [])
           (UsageMonthly.mk (Some 50)) 50).
  - reflexivity.
  - vm_compute. reflexivity.
  - reflexivity.
  - lia.
Defined.

Lemma resolve_keeps_limit e st m u w :
  limitReached (ui (snd (resolve_and_answer e st m u w))) = limitReached (ui w).
Proof.
  unfold resolve_and_answer. unfold_queries. unfold_monad. step.
  repeat (case_match; cbn [fst snd ui db log limitReached]); reflexivity.
Qed.

Lemma settle_keeps_limit r :
  limitReached (ui (snd (settle r))) = limitReached (ui (snd r)).
Proof. destruct r as [[x|[]] w]; reflexivity. Qed.

Lemma resolve_log e st m u w :
  exists rest,
    log (snd (resolve_and_answer e st m u w))
    = (log w ++ [find_drug; find_gene] ++ rest)%list.
Proof.
  unfold resolve_and_answer. unfold_queries. unfold_monad. step.
  repeat (case_match; cbn [fst snd ui db log]);
    rewrite <- ?app_assoc; eexists; cbn [app]; reflexivity.
Qed.

Lemma settle_log r : log (snd (settle r)) = log (snd r).
Proof. destruct r as [[x|[]] w]; reflexivity. Qed.

(** C10. The limit banner is raised only when the caller's row for the
    current month exists and holds a count of 50 or more. With no row
    for the month, whatever the other months hold, the banner stays
    down, and once the usage fetch has answered the flow goes on to the
    drug and gene lookups. *)
Theorem quota_gate_needs_a_full_row e w :
  (limitReached (ui (snd (handleSubmit e w))) = true ->
   exists u n, usage_monthly (db w) !! usage_key e = Some u
               ∧ UsageMonthly.query_count u = Some n ∧ 50 <= n)
  ∧ (usage_monthly (db w) !! usage_key e = None ->
     limitReached (ui (snd (handleSubmit e w))) = false
     ∧ (faults e Select t_usage_monthly = None ->
        exists rest,
          log (snd (handleSubmit e w))
          = (log w ++ [fetch_usage; find_drug; find_gene] ++ rest)%list)).
Proof.
  assert (Hraise :
    limitReached (ui (snd (handleSubmit e w))) = true ->
    exists u n, usage_monthly (db w) !! usage_key e = Some u
                ∧ UsageMonthly.query_count u = Some n ∧ 50 <= n).
  { destruct (faults e Select t_usage_monthly) as [m|] eqn:Hf.
    - rewrite (handleSubmit_fetch_failed e w m Hf). discriminate.
    - destruct (quota_reached (usage_lookup e w)) eqn:Hq.
      + intros _. apply quota_reached_full in Hq as (u & n & Hu & Hn & Hle).
        rewrite usage_lookup_ok in Hu by exact Hf. eauto.
      + rewrite handleSubmit_pass by (split; assumption).
        rewrite settle_keeps_limit, resolve_keeps_limit. discriminate. }
  split; [exact Hraise|]. intros Hnone. split.
  - destruct (limitReached (ui (snd (handleSubmit e w)))); [|reflexivity].
    destruct (Hraise eq_refl) as (u & n & Hu & _). congruence.
  - intros Hf. rewrite handleSubmit_pass.
    + rewrite settle_log.
      destruct (resolve_log e (ui w) (currentMonth e) (usage_lookup e w) (started w))
        as [rest ->].
      exists rest. cbn [started log]. rewrite <- app_assoc. reflexivity.
    + split; [exact Hf|]. rewrite usage_lookup_ok, Hnone by exact Hf. reflexivity.
Qed.

(** Alice at 50 queries this month is stopped, and only because of
    that row; with Bob's row at 50 and none of her own she is not. *)
Lemma quota_gate_needs_a_full_row_witness :
  (exists u n,
     usage_monthly (Sample.db_used Sample.alice (Some 50))
       !! usage_key (Sample.env Sample.alice) = Some u
     ∧ UsageMonthly.query_count u = Some n ∧ 50 <= n)
  ∧ limitReached (ui (snd (handleSubmit (Sample.env Sample.alice)
      (mkWorld (Sample.db_used Sample.bob (Some 50))
         (Sample.chat0 "Warfarin" "CYP2C9" Patient) [])))) = false.
Proof.
  split.
  - apply (proj1 (quota_gate_needs_a_full_row (Sample.env Sample.alice)
       (mkWorld (Sample.db_used Sample.alice (Some 50))
          (Sample.chat0 "Warfarin" "CYP2C9" Patient) []))).
    vm_compute. reflexivity.
  - apply (proj2 (quota_gate_needs_a_full_row (Sample.env Sample.alice)
       (mkWorld (Sample.db_used Sample.bob (Some 50))
          (Sample.chat0 "Warfarin" "CYP2C9" Patient) []))).
    vm_compute. reflexivity.
Defined.

(** Every run that ends with a result card went through the gate and
    resolved a drug, a gene, an interaction and its guideline. *)
Lemma answered_inv e w r :
  result (ui (snd (handleSubmit e w))) = Some r ->
  gate_passed e w
  ∧ exists d g i gid gl,
      drug_lookup e w = Some d ∧ gene_lookup e w = Some g
      ∧ interaction_lookup e w = Some i
      ∧ InteractionJoined.guideline i = Some (gid, gl)
      ∧ r = rendered e w d g gid gl i.
Proof.
  destruct (faults e Select t_usage_monthly) as [m|] eqn:Hf.
  { rewrite (handleSubmit_fetch_failed e w m Hf). discriminate. }
  destruct (quota_reached (usage_lookup e w)) eqn:Hq.
  { rewrite (handleSubmit_quota e w Hf Hq). discriminate. }
  assert (Hg : gate_passed e w) by (split; assumption).
  destruct (drug_lookup e w) as [d|] eqn:Hd.
  2:{ rewrite (handleSubmit_not_found_pair e w Hg) by (left; exact Hd). discriminate. }
  destruct (gene_lookup e w) as [g|] eqn:Hgn.
  2:{ rewrite (handleSubmit_not_found_pair e w Hg) by (right; exact Hgn). discriminate. }
  destruct (interaction_lookup e w) as [i|] eqn:Hi.
  2:{ rewrite (handleSubmit_not_found_interaction e w d g Hg Hd Hgn Hi). discriminate. }
  destruct (InteractionJoined.guideline i) as [[gid gl]|] eqn:Hgl.
  2:{ rewrite (handleSubmit_null_guideline e w i Hg Hi Hgl). discriminate. }
  destruct (handleSubmit_answered_ui e w d g i gid gl Hg Hd Hgn Hi Hgl) as [_ ->].
  intros [= <-]. split; [exact Hg|]. exists d, g, i, gid, gl. repeat split; auto.
Qed.

(** C2. A query that passes the quota gate and resolves its drug, its
    gene and an interaction upserts the caller's usage row for the
    current month when the interaction comes with its guideline, the
    storage accepting the write: an answer is shown, an existing row
    gets its count plus one (a [NULL] count reads as 0), a missing row
    is inserted with count 1, and nothing else in the database
    changes. When the interaction has no guideline ([guideline_id] is
    [NULL]) the flow throws before it renders or writes anything: no
    answer is shown, the database is left as it was, and the page
    shows the engine's error message. *)
Theorem resolved_query_upserts_usage_with_a_guideline e w d g i :
  gate_passed e w ->
  drug_lookup e w = Some d ->
  gene_lookup e w = Some g ->
  interaction_lookup e w = Some i ->
  faults e Update t_usage_monthly = None ->
  faults e Insert t_usage_monthly = None ->
  match InteractionJoined.guideline i with
  | Some _ =>
      is_Some (result (ui (snd (handleSubmit e w))))
      ∧ (forall u, usage_monthly (db w) !! usage_key e = Some u ->
           db (snd (handleSubmit e w))
           = with_usage_monthly
               (fun m => <[usage_key e :=
                            UsageMonthly.mk
                              (Some (js_num (UsageMonthly.query_count u) + 1))]> m)
               (db w))
      ∧ (usage_monthly (db w) !! usage_key e = None ->
         db (snd (handleSubmit e w))
         = with_usage_monthly
             (fun m => <[usage_key e := UsageMonthly.mk (Some 1)]> m) (db w))
  | None =>
      result (ui (snd (handleSubmit e w))) = None
      ∧ db (snd (handleSubmit e w)) = db w
      ∧ error (ui (snd (handleSubmit e w))) = shown_error (null_property_read "id")
  end.
Proof.
  intros Hg Hd Hgn Hi Hfu Hfi.
  destruct (InteractionJoined.guideline i) as [[gid gl]|] eqn:Hgl.
  - pose proof (usage_lookup_ok e w (proj1 Hg)) as Hlook.
    split; [|split].
    + destruct (handleSubmit_answered_ui e w d g i gid gl Hg Hd Hgn Hi Hgl) as [_ ->].
      now eexists.
    + intros u Hu. rewrite <- Hlook in Hu.
      rewrite (handleSubmit_answered_update e w d g i gid gl u Hg Hd Hgn Hi Hgl Hu Hfu).
      reflexivity.
    + intros Hu. rewrite <- Hlook in Hu.
      rewrite (handleSubmit_answered_insert e w d g i gid gl Hg Hd Hgn Hi Hgl Hu Hfi).
      reflexivity.
  - rewrite (handleSubmit_null_guideline e w i Hg Hi Hgl). repeat split.
Qed.

(** The end-to-end scenario (no query yet this month, Warfarin and
    CYP2C9 asked as a patient), the same with seven queries behind,
    and the same question when the interaction has no guideline. *)
Lemma resolved_query_upserts_usage_with_a_guideline_witness :
  usage_monthly
    (db (snd (handleSubmit (Sample.env Sample.alice)
                (Sample.world0 "Warfarin" "CYP2C9" Patient))))
  = {[ (Sample.alice, "2026-11") := UsageMonthly.mk (Some 1) ]}
  ∧ usage_monthly
      (db (snd (handleSubmit (Sample.env Sample.alice)
                  (mkWorld (Sample.db_used Sample.alice (Some 7))
                     (Sample.chat0 "Warfarin" "CYP2C9" Patient) []))))
    = {[ (Sample.alice, "2026-11") := UsageMonthly.mk (Some 8) ]}
  ∧ (result
       (ui (snd (handleSubmit (Sample.env Sample.alice)
                   (mkWorld Sample.db_no_guideline
                      (Sample.chat0 "Warfarin" "CYP2C9" Patient) []))))
     = None
     ∧ usage_monthly
         (db (snd (handleSubmit (Sample.env Sample.alice)
                     (mkWorld Sample.db_no_guideline
                        (Sample.chat0 "Warfarin" "CYP2C9" Patient) []))))
       = ∅).
Proof.
  split; [|split].
  - rewrite (proj2 (proj2 (resolved_query_upserts_usage_with_a_guideline
                             (Sample.env Sample.alice)
                             (Sample.world0 "Warfarin" "CYP2C9" Patient)
                             Sample.warfarin Sample.cyp2c9
                             (join_interaction Sample.db0 Sample.interaction1)
                             (conj eq_refl eq_refl)
                             ltac:(vm_compute; reflexivity)
                             ltac:(vm_compute; reflexivity)
                             ltac:(vm_compute; reflexivity)
                             eq_refl eq_refl)) eq_refl).
    reflexivity.
  - rewrite (proj1 (proj2 (resolved_query_upserts_usage_with_a_guideline
                             (Sample.env Sample.alice)
                             (mkWorld (Sample.db_used Sample.alice (Some 7))
                                (Sample.chat0 "Warfarin" "CYP2C9" Patient) [])
                             Sample.warfarin Sample.cyp2c9
                             (join_interaction Sample.db0 Sample.interaction1)
                             (conj eq_refl eq_refl)
                             ltac:(vm_compute; reflexivity)
                             ltac:(vm_compute; reflexivity)
                             ltac:(vm_compute; reflexivity)
                             eq_refl eq_refl))
               (UsageMonthly.mk (Some 7)) eq_refl).
    vm_compute. reflexivity.
  - pose proof (resolved_query_upserts_usage_with_a_guideline
                  (Sample.env Sample.alice)
                  (mkWorld Sample.db_no_guideline
                     (Sample.chat0 "Warfarin" "CYP2C9" Patient) [])
                  Sample.warfarin Sample.cyp2c9
                  (join_interaction Sample.db_no_guideline Sample.interaction_no_guideline)
                  (conj eq_refl eq_refl)
                  ltac:(vm_compute; reflexivity)
                  ltac:(vm_compute; reflexivity)
                  ltac:(vm_compute; reflexivity)
                  eq_refl eq_refl) as (Hres & Hdb & _).
    split; [exact Hres|]. rewrite Hdb. reflexivity.
Defined.

Lemma present_truthy a s : present a s -> Text.truthy a = true.
Proof.
  intros [-> Hs]. cbn. apply negb_true_iff. now apply String.eqb_neq.
Qed.

Lemma absent_falsy a : absent a -> Text.truthy a = false.
Proof. intros [->| ->]; reflexivity. Qed.

Lemma js_or_lit_present a s l : present a s -> Text.js_or_lit a l = s.
Proof.
  intros [-> Hs]. cbn. apply String.eqb_neq in Hs. now rewrite Hs.
Qed.

Lemma js_or_lit_absent a l : absent a -> Text.js_or_lit a l = l.
Proof. intros [->| ->]; reflexivity. Qed.

Lemma js_or_present a b s : present a s -> Text.js_or a b = a.
Proof. intros H. unfold Text.js_or. now rewrite (present_truthy a s H). Qed.

Lemma js_or_absent a b : absent a -> Text.js_or a b = b.
Proof. intros H. unfold Text.js_or. now rewrite (absent_falsy a H). Qed.

Lemma interaction_lookup_parts e w i :
  interaction_lookup e w = Some i ->
  exists d g, drug_lookup e w = Some d ∧ gene_lookup e w = Some g.
Proof.
  unfold interaction_lookup. intros H.
  destruct (drug_lookup e w) as [d|]; [|discriminate].
  destruct (gene_lookup e w) as [g|]; [|discriminate]. eauto.
Qed.

Lemma handleSubmit_answer_text e w i gid gl :
  gate_passed e w ->
  interaction_lookup e w = Some i ->
  InteractionJoined.guideline i = Some (gid, gl) ->
  exists r, result (ui (snd (handleSubmit e w))) = Some r
            ∧ QueryResult.answer r = answer_text (userType (ui w)) gl i.
Proof.
  intros Hg Hi Hgl. destruct (interaction_lookup_parts e w i Hi) as (d & g & Hd & Hgn).
  destruct (handleSubmit_answered_ui e w d g i gid gl Hg Hd Hgn Hi Hgl) as [_ Hui].
  exists (rendered e w d g gid gl i). rewrite Hui. split; reflexivity.
Qed.

(** The patient text when the selected interaction comes with its
    guideline: the guideline's patient summary when that is there, else
    the interaction's summary when that is there, else the fixed
    sentence. A text counts as there when it is neither [NULL] nor
    empty. *)
Lemma patient_answer_falls_back e w i gid gl :
  gate_passed e w ->
  userType (ui w) = Patient ->
  interaction_lookup e w = Some i ->
  InteractionJoined.guideline i = Some (gid, gl) ->
  exists r,
    result (ui (snd (handleSubmit e w))) = Some r
    ∧ (forall s, present (Guideline.patient_summary gl) s -> QueryResult.answer r = s)
    ∧ (absent (Guideline.patient_summary gl) ->
       forall s, present (Interaction.summary (InteractionJoined.row i)) s ->
                 QueryResult.answer r = s)
    ∧ (absent (Guideline.patient_summary gl) ->
       absent (Interaction.summary (InteractionJoined.row i)) ->
       QueryResult.answer r = "No information available.").
Proof.
  intros Hg Hmode Hi Hgl.
  destruct (handleSubmit_answer_text e w i gid gl Hg Hi Hgl) as (r & Hr & Ha).
  exists r. split; [exact Hr|]. rewrite Ha, Hmode. cbn [answer_text]. unfold patient_answer.
  repeat split.
  - intros s Hs. rewrite (js_or_present _ _ s Hs). now apply js_or_lit_present.
  - intros Hp s Hs. rewrite (js_or_absent _ _ Hp). now apply js_or_lit_present.
  - intros Hp Hs. rewrite (js_or_absent _ _ Hp). now apply js_or_lit_absent.
Qed.

Example patient_answer_reduce_dose :
  exists r,
    result (ui (snd (handleSubmit (Sample.env Sample.alice)
                       (Sample.world0 "Warfarin" "CYP2C9" Patient)))) = Some r
    ∧ QueryResult.answer r = "Reduce dose".
Proof.
  destruct (patient_answer_falls_back (Sample.env Sample.alice)
              (Sample.world0 "Warfarin" "CYP2C9" Patient)
              (join_interaction Sample.db0 Sample.interaction1)
              "gl-1" Sample.guideline1)
    as (r & Hr & H1 & _).
  - split; reflexivity.
  - reflexivity.
  - vm_compute. reflexivity.
  - vm_compute. reflexivity.
  - exists r. split; [exact Hr|]. apply H1. split; [reflexivity | discriminate].
Qed.

(** C5. An interaction whose [guideline_id] is [NULL] is selected like
    any other, and the flow then stops at the read of [guideline.id]:
    no text is rendered, neither the interaction's summary nor the
    fixed sentence; the page shows the engine's error message, and
    nothing is written. *)
Theorem missing_guideline_gives_no_answer e w i :
  gate_passed e w ->
  interaction_lookup e w = Some i ->
  InteractionJoined.guideline i = None ->
  handleSubmit e w =
  (inr tt, mkWorld (db w)
             (finished (ui w) None (shown_error (null_property_read "id")) false)
             (log w ++ [fetch_usage; find_drug; find_gene; fetch_interactions])).
Proof. apply handleSubmit_null_guideline. Qed.

(** Warfarin and CYP2C9 asked as a patient, the interaction carrying a
    summary and no guideline. *)
Lemma missing_guideline_gives_no_answer_witness :
  Interaction.summary Sample.interaction_no_guideline = Some "Slower clearance"
  ∧ handleSubmit (Sample.env Sample.alice)
      (mkWorld Sample.db_no_guideline (Sample.chat0 "Warfarin" "CYP2C9" Patient) [])
    = (inr tt,
       mkWorld Sample.db_no_guideline
         (finished (Sample.chat0 "Warfarin" "CYP2C9" Patient) None
            "Cannot read properties of null (reading 'id')" false)
         [fetch_usage; find_drug; find_gene; fetch_interactions]).
Proof.
  split; [reflexivity|].
  apply (missing_guideline_gives_no_answer (Sample.env Sample.alice)
           (mkWorld Sample.db_no_guideline (Sample.chat0 "Warfarin" "CYP2C9" Patient) [])
           (join_interaction Sample.db_no_guideline Sample.interaction_no_guideline)).
  - split; reflexivity.
  - vm_compute. reflexivity.
  - reflexivity.
Defined.

(** C3. In clinician mode the answer shown for the selected
    interaction and its guideline is five labelled sections in a fixed
    order: the guideline's clinician summary (the interaction's
    summary when that is missing), the action, the evidence, the
    phenotype and the evidence level. The phenotype and the evidence
    level each fall back to ["N/A"] on their own. The summary, the
    action and the evidence have no fallback: a text is shown as it
    is, and a [NULL] is shown as the word ["null"]. *)
Theorem clinician_answer_sections e w i gid gl :
  gate_passed e w ->
  userType (ui w) = Clinician ->
  interaction_lookup e w = Some i ->
  InteractionJoined.guideline i = Some (gid, gl) ->
  exists r,
    result (ui (snd (handleSubmit e w))) = Some r
    ∧ QueryResult.answer r
      = match Text.js_or (Guideline.clinician_summary gl)
                (Interaction.summary (InteractionJoined.row i)) with
        | Some main => main
        | None => "null"
        end
        +:+ Text.lf +:+ Text.lf +:+ "Action: "
        +:+ match Interaction.action (InteractionJoined.row i) with
            | Some act => act
            | None => "null"
            end
        +:+ Text.lf +:+ Text.lf +:+ "Evidence: "
        +:+ match Interaction.evidence (InteractionJoined.row i) with
            | Some ev => ev
            | None => "null"
            end
        +:+ Text.lf +:+ Text.lf +:+ "Phenotype: "
        +:+ or_na (Phenotype.phenotype <$> InteractionJoined.phenotype i)
        +:+ Text.lf +:+ Text.lf +:+ "Evidence Level: "
        +:+ or_na (Guideline.evidence_level gl).
Proof.
  intros Hg Hmode Hi Hgl.
  destruct (handleSubmit_answer_text e w i gid gl Hg Hi Hgl) as (r & Hr & Ha).
  exists r. split; [exact Hr|]. rewrite Ha, Hmode. reflexivity.
Qed.

(** With every field filled in, and with no action recorded: the
    section then reads ["Action: null"], which is not the text with
    ["N/A"] the prose describes. *)
Lemma clinician_answer_sections_witness :
  (exists r,
     result (ui (snd (handleSubmit (Sample.env Sample.alice)
                        (Sample.world0 "warf" "cyp" Clinician)))) = Some r
     ∧ QueryResult.answer r
       = "Lower the starting dose."
         +:+ Text.lf +:+ Text.lf +:+ "Action: Adjust"
         +:+ Text.lf +:+ Text.lf +:+ "Evidence: CPIC"
         +:+ Text.lf +:+ Text.lf +:+ "Phenotype: Poor Metabolizer"
         +:+ Text.lf +:+ Text.lf +:+ "Evidence Level: High")
  ∧ exists r,
      result (ui (snd (handleSubmit (Sample.env Sample.alice)
                         (mkWorld Sample.db_no_action
                            (Sample.chat0 "Warfarin" "CYP2C9" Clinician) []))))
      = Some r
      ∧ QueryResult.answer r
        = "Lower the starting dose."
          +:+ Text.lf +:+ Text.lf +:+ "Action: null"
          +:+ Text.lf +:+ Text.lf +:+ "Evidence: CPIC"
          +:+ Text.lf +:+ Text.lf +:+ "Phenotype: Poor Metabolizer"
          +:+ Text.lf +:+ Text.lf +:+ "Evidence Level: High"
      ∧ QueryResult.answer r
        ≠ clinician_answer_all_na Sample.guideline1
            (join_interaction Sample.db_no_action Sample.interaction_no_action).
Proof.
  split.
  - destruct (clinician_answer_sections (Sample.env Sample.alice)
                (Sample.world0 "warf" "cyp" Clinician)
                (join_interaction Sample.db0 Sample.interaction1)
                "gl-1" Sample.guideline1)
      as (r & Hr & Ha).
    + split; reflexivity.
    + reflexivity.
    + vm_compute. reflexivity.
    + vm_compute. reflexivity.
    + exists r. split; [exact Hr|]. rewrite Ha. vm_compute. reflexivity.
  - destruct (clinician_answer_sections (Sample.env Sample.alice)
                (mkWorld Sample.db_no_action
                   (Sample.chat0 "Warfarin" "CYP2C9" Clinician) [])
                (join_interaction Sample.db_no_action Sample.interaction_no_action)
                "gl-1" Sample.guideline1)
      as (r & Hr & Ha).
    + split; reflexivity.
    + reflexivity.
    + vm_compute. reflexivity.
    + vm_compute. reflexivity.
    + exists r. split; [exact Hr|]. rewrite Ha.
      split; [vm_compute; reflexivity|]. vm_compute. discriminate.
Defined.





Lemma drug_lookup_fault e w m :
  faults e Select t_drugs = Some m -> drug_lookup e w = None.
Proof.
  intros Hf. unfold_lookups. unfold_queries. unfold_monad. step.
  unfold respond. now rewrite Hf.
Qed.









(** C6. A failed [drugs] read is not surfaced: the flow ends exactly as
    it does for an unknown drug, with the not-found message. *)
Theorem failed_drug_read_shows_not_found e w m :
  gate_passed e w ->
  faults e Select t_drugs = Some m ->
  handleSubmit e w =
  (inr tt, mkWorld (db w) (finished (ui w) None not_in_database false)
             (log w ++ [fetch_usage; find_drug; find_gene])).
Proof.
  intros Hg Hf. apply handleSubmit_not_found_pair; [exact Hg|].
  left. exact (drug_lookup_fault e w m Hf).
Qed.

Lemma failed_drug_read_shows_not_found_witness :
  error (ui (snd (handleSubmit (Sample.env_failing Sample.alice Sample.drug_fetch_down)
                    (Sample.world0 "Warfarin" "CYP2C9" Patient))))
  = "Not in database yet.".
Proof.
  rewrite (failed_drug_read_shows_not_found
             (Sample.env_failing Sample.alice Sample.drug_fetch_down)
             (Sample.world0 "Warfarin" "CYP2C9" Patient) "connection refused").
  - reflexivity.
  - split; reflexivity.
  - reflexivity.
Defined.

End ChatFacts.

(** ** Saved answers *)

Module SavedFacts.
Import Resolution.

Lemma with_saved_answers_same f d :
  f (saved_answers d) = saved_answers d -> with_saved_answers f d = d.
Proof. intros H. destruct d. unfold with_saved_answers. cbn in *. now rewrite H. Qed.

Lemma filter_all {A} (P : A -> Prop) `{!forall x, Decision (P x)} (l : list A) :
  (forall x, x ∈ l -> P x) -> filter P l = l.
Proof.
  induction l as [|x l IH]; intros Hall; [reflexivity|].
  rewrite filter_cons_True by (apply Hall, list_elem_of_here).
  f_equal. apply IH. intros y Hy. now apply Hall, list_elem_of_further.
Qed.

(** Edits of the reference data never reach [saved_answers]. *)
Lemma edit_keeps_saved_answers ed d :
  saved_answers (Reference.apply ed d) = saved_answers d.
Proof. destruct ed; reflexivity. Qed.

Lemma edits_keep_saved_answers eds d :
  saved_answers (Reference.apply_all eds d) = saved_answers d.
Proof.
  revert d. induction eds as [|ed eds IH]; intros d; [reflexivity|].
  cbn [Reference.apply_all fold_left]. fold (Reference.apply_all eds (Reference.apply ed d)).
  now rewrite IH, edit_keeps_saved_answers.
Qed.

Lemma handleSave_db e w r :
  Chat.result (ui w) = Some r ->
  db (snd (Chat.handleSave e w))
  = snd (@respond unit e Insert t_saved_answers
           (fun d =>
              if decide (auth_uid e = auth_uid e) then
                if bool_decide (gen_random_uuid e ∈ SavedAnswer.id <$> saved_answers d)
                then (Resp.mk None (Some (unique_violation "saved_answers_pkey")), d)
                else
                  (Resp.mk None None,
                   with_saved_answers (fun l =>
                     l ++ [SavedAnswer.mk (gen_random_uuid e) (auth_uid e)
                             (QueryResult.drug r) (QueryResult.gene r)
                             (user_type_text (Chat.userType (ui w)))
                             (QueryResult.answer r)])%list d)
              else (Resp.mk None (Some (rls_violation "saved_answers")), d))
           (db w)).
Proof.
  intros Hr. unfold Chat.handleSave, insert_saved_answer.
  cbv [mbind M_bind bind mret M_ret ret try_catch throw get_ui modify_ui storage
       Chat.setSaveSuccess Chat.setError].
  cbn [fst snd ui db log]. rewrite Hr. reflexivity.
Qed.

(** C7. Saving stores a row that copies the drug name, the gene symbol,
    the view mode and the answer text shown on the page; whatever
    sequence of edits is then applied to guidelines and interactions
    (updates, deletions with their cascades), the stored rows, and with
    them the saved text, name, symbol and mode, stay as they were. *)
Theorem saved_answer_is_a_snapshot e w r :
  Chat.result (ui w) = Some r ->
  faults e Insert t_saved_answers = None ->
  gen_random_uuid e ∉ SavedAnswer.id <$> saved_answers (db w) ->
  saved_answers (db (snd (Chat.handleSave e w)))
  = (saved_answers (db w)
     ++ [SavedAnswer.mk (gen_random_uuid e) (auth_uid e)
           (QueryResult.drug r) (QueryResult.gene r)
           (user_type_text (Chat.userType (ui w))) (QueryResult.answer r)])%list
  ∧ forall eds,
      saved_answers (Reference.apply_all eds (db (snd (Chat.handleSave e w))))
      = (saved_answers (db w)
         ++ [SavedAnswer.mk (gen_random_uuid e) (auth_uid e)
               (QueryResult.drug r) (QueryResult.gene r)
               (user_type_text (Chat.userType (ui w))) (QueryResult.answer r)])%list.
Proof.
  intros Hr Hf Hfresh.
  assert (Hsaved :
    saved_answers (db (snd (Chat.handleSave e w)))
    = (saved_answers (db w)
       ++ [SavedAnswer.mk (gen_random_uuid e) (auth_uid e)
             (QueryResult.drug r) (QueryResult.gene r)
             (user_type_text (Chat.userType (ui w))) (QueryResult.answer r)])%list).
  { rewrite (handleSave_db e w r Hr). unfold respond. rewrite Hf.
    destruct (decide (auth_uid e = auth_uid e)); [|congruence].
    rewrite bool_decide_eq_false_2 by exact Hfresh. reflexivity. }
  split; [exact Hsaved|]. intros eds. now rewrite edits_keep_saved_answers.
Qed.

(** Alice asks, saves, and then the guideline is rewritten and later
    deleted: her saved row still reads "Reduce dose". *)
Lemma saved_answer_is_a_snapshot_witness :
  saved_answers
    (Reference.apply_all
       [Reference.UpdateGuideline "gl-1" Sample.guideline1_edited;
        Reference.DeleteGuideline "gl-1"]
       (db (snd (Chat.handleSave (Sample.env Sample.alice)
                   (snd (Chat.handleSubmit (Sample.env Sample.alice)
                           (Sample.world0 "Warfarin" "CYP2C9" Patient)))))))
  = [SavedAnswer.mk "sa-1" Sample.alice "Warfarin" "CYP2C9" "Patient" "Reduce dose"].
Proof.
  refine (proj2 (saved_answer_is_a_snapshot (Sample.env Sample.alice)
            (snd (Chat.handleSubmit (Sample.env Sample.alice)
                    (Sample.world0 "Warfarin" "CYP2C9" Patient)))
            (QueryResult.mk "Warfarin" "CYP2C9" "Reduce dose"
               ["Dosing - Johnson (CPT, 2017)"]) _ _ _) _).
  - vm_compute. reflexivity.
  - reflexivity.
  - vm_compute. apply not_elem_of_nil.
Defined.

(** After the guideline was rewritten, the same question gets the new
    text, while the saved row keeps the old one. *)
Example requery_after_edit :
  let w1 := snd (Chat.handleSave (Sample.env Sample.alice)
                   (snd (Chat.handleSubmit (Sample.env Sample.alice)
                           (Sample.world0 "Warfarin" "CYP2C9" Patient)))) in
  let d2 := Reference.apply (Reference.UpdateGuideline "gl-1" Sample.guideline1_edited)
              (db w1) in
  let w2 := snd (Chat.handleSubmit (Sample.env Sample.alice)
                   (mkWorld d2 (ui w1) (log w1))) in
  (QueryResult.answer <$> Chat.result (ui w2)) = Some "Avoid the drug"
  ∧ (SavedAnswer.answer <$> saved_answers (db w2)) = ["Reduce dose"].
Proof. vm_compute. split; reflexivity. Qed.

Lemma handleDelete_db e id w :
  db (snd (Cases.handleDelete e id w))
  = snd (@respond unit e Delete t_saved_answers
           (fun d =>
              (Resp.mk None None,
               with_saved_answers
                 (filter (fun r => ¬ (SavedAnswer.id r = id
                                      ∧ SavedAnswer.user_id r = auth_uid e))) d))
           (db w)).
Proof.
  unfold Cases.handleDelete, delete_saved_answer.
  cbv [mbind M_bind bind mret M_ret ret try_catch throw get_ui modify_ui storage
       Cases.setSavedAnswers].
  cbn [fst snd ui db log].
  destruct (Resp.error _); reflexivity.
Qed.

Lemma handleDelete_returns e id w : fst (Cases.handleDelete e id w) = inr tt.
Proof.
  unfold Cases.handleDelete, delete_saved_answer.
  cbv [mbind M_bind bind mret M_ret ret try_catch throw get_ui modify_ui storage
       Cases.setSavedAnswers].
  cbn [fst snd ui db log].
  destruct (Resp.error _); reflexivity.
Qed.

Lemma delete_keeps_foreign_rows e id d :
  foreign_rows (auth_uid e)
    (snd (@respond unit e Delete t_saved_answers
            (fun d =>
               (Resp.mk None None,
                with_saved_answers
                  (filter (fun r => ¬ (SavedAnswer.id r = id
                                       ∧ SavedAnswer.user_id r = auth_uid e))) d))
            d))
  = foreign_rows (auth_uid e) d.
Proof.
  unfold respond. destruct (faults e Delete t_saved_answers); [reflexivity|].
  unfold foreign_rows. cbn. apply list_filter_filter_l. intros r Hne [_ Heq]. contradiction.
Qed.

Lemma delete_absent e id d :
  (forall r, r ∈ visible_saved_answers (auth_uid e) d -> SavedAnswer.id r ≠ id) ->
  snd (@respond unit e Delete t_saved_answers
         (fun d =>
            (Resp.mk None None,
             with_saved_answers
               (filter (fun r => ¬ (SavedAnswer.id r = id
                                    ∧ SavedAnswer.user_id r = auth_uid e))) d))
         d)
  = d.
Proof.
  intros H. unfold respond. destruct (faults e Delete t_saved_answers); [reflexivity|].
  cbn. apply with_saved_answers_same, filter_all. intros r Hr [Hid Hown].
  apply (H r); [|exact Hid]. unfold visible_saved_answers.
  apply list_elem_of_filter. split; assumption.
Qed.

Lemma delete_twice e id d :
  snd (@respond unit e Delete t_saved_answers
         (fun d =>
            (Resp.mk None None,
             with_saved_answers
               (filter (fun r => ¬ (SavedAnswer.id r = id
                                    ∧ SavedAnswer.user_id r = auth_uid e))) d))
         (snd (@respond unit e Delete t_saved_answers
                 (fun d =>
                    (Resp.mk None None,
                     with_saved_answers
                       (filter (fun r => ¬ (SavedAnswer.id r = id
                                            ∧ SavedAnswer.user_id r = auth_uid e))) d))
                 d)))
  = snd (@respond unit e Delete t_saved_answers
           (fun d =>
              (Resp.mk None None,
               with_saved_answers
                 (filter (fun r => ¬ (SavedAnswer.id r = id
                                      ∧ SavedAnswer.user_id r = auth_uid e))) d))
           d).
Proof.
  unfold respond. destruct (faults e Delete t_saved_answers); [reflexivity|].
  cbn. unfold with_saved_answers. cbn. f_equal.
  apply list_filter_filter_l. tauto.
Qed.

(** C8. [handleDelete] never removes a row that belongs to another
    user, whatever identifier it is given; when the identifier names
    none of the caller's own rows the database is left as it was; the
    handler always returns normally, and deleting the same identifier a
    second time changes nothing more. *)
Theorem delete_spares_other_users e id w :
  fst (Cases.handleDelete e id w) = inr tt
  ∧ foreign_rows (auth_uid e) (db (snd (Cases.handleDelete e id w)))
    = foreign_rows (auth_uid e) (db w)
  ∧ ((forall r, r ∈ visible_saved_answers (auth_uid e) (db w) ->
                SavedAnswer.id r ≠ id) ->
     db (snd (Cases.handleDelete e id w)) = db w)
  ∧ db (snd (Cases.handleDelete e id (snd (Cases.handleDelete e id w))))
    = db (snd (Cases.handleDelete e id w)).
Proof.
  split; [apply handleDelete_returns|]. split; [|split].
  - rewrite handleDelete_db. apply delete_keeps_foreign_rows.
  - intros H. rewrite handleDelete_db. now apply delete_absent.
  - rewrite (handleDelete_db e id (snd (Cases.handleDelete e id w))).
    rewrite (handleDelete_db e id w). apply delete_twice.
Qed.

(** Alice asks to delete Bob's row: nothing is deleted. Deleting her
    own row leaves Bob's. *)
Lemma delete_spares_other_users_witness :
  db (snd (Cases.handleDelete (Sample.env Sample.alice) "sa-b" Sample.cases0))
  = Sample.db_saved
  ∧ saved_answers
      (db (snd (Cases.handleDelete (Sample.env Sample.alice) "sa-a" Sample.cases0)))
    = [Sample.saved_bob].
Proof.
  split; [|vm_compute; reflexivity].
  apply (proj1 (proj2 (proj2 (delete_spares_other_users (Sample.env Sample.alice)
                                "sa-b" Sample.cases0)))).
  intros r Hr. vm_compute in Hr. apply list_elem_of_singleton in Hr. subst r.
  discriminate.
Defined.

End SavedFacts.

(** ** Ingestion triggers *)

Module AdminFacts.
Import Admin.

Ltac run_trigger :=
  unfold triggerWebhook, insert_ingestion_job;
  cbv [mbind M_bind bind mret M_ret ret try_catch throw get_ui modify_ui storage
       setWebhookLoading showToast];
  cbn [fst snd ui db log].

(** The policies that read [app_admins] cannot be expanded. *)
Lemma app_admins_policy_recurses :
  policy_failure Select r_app_admins = Some (infinite_recursion r_app_admins).
Proof. reflexivity. Qed.

Lemma job_insert_policy :
  policy_failure Insert r_ingestion_jobs = Some (infinite_recursion r_app_admins).
Proof. reflexivity. Qed.

Lemma trigger_acknowledged e w jobType url :
  acknowledged e jobType url = true ->
  triggerWebhook e jobType url w =
  (inr tt,
   mkWorld (db w)
     (mkState None (Some (mkToast (jobType +:+ " triggered successfully") success)))
     (log w ++ [(Insert, t_ingestion_jobs)])).
Proof.
  intros Hack. unfold acknowledged in Hack. run_trigger.
  destruct (fetch e url _) as [m|status]; [discriminate|].
  rewrite Hack. cbn [negb fst snd ui db log]. unfold respond.
  destruct (faults e Insert t_ingestion_jobs); [reflexivity|].
  rewrite job_insert_policy. reflexivity.
Qed.

Lemma trigger_refused e w jobType url :
  acknowledged e jobType url = false ->
  triggerWebhook e jobType url w =
  (inr tt,
   mkWorld (db w)
     (mkState None
        (Some (mkToast
                 match fetch e url (mkBody jobType (now e)) with
                 | NetworkError m => Text.js_or_lit (Some m) "Failed to trigger webhook"
                 | Response _ => "Webhook failed"
                 end error)))
     (log w)).
Proof.
  intros Hack. unfold acknowledged in Hack. run_trigger.
  destruct (fetch e url _) as [m|status].
  - reflexivity.
  - rewrite Hack. reflexivity.
Qed.

(** C9. When the endpoint acknowledges the [POST], [triggerWebhook]
    sends the insert of the ["pending"] row, and the database rejects
    it for every caller, an administrator included: the [WITH CHECK]
    of [ingestion_jobs] reads [app_admins], whose own policy reads
    [app_admins] again. The answer of the insert is not looked at, so
    no row is stored and the success toast is shown all the same; a
    second acknowledged trigger stores nothing either. When the
    endpoint does not acknowledge (error status, or no response at
    all), no storage call is issued, the database is left as it was
    and an error toast is shown. *)
Theorem acknowledged_trigger_stores_no_job e w jobType url :
  (acknowledged e jobType url = true ->
   triggerWebhook e jobType url w =
   (inr tt,
    mkWorld (db w)
      (mkState None (Some (mkToast (jobType +:+ " triggered successfully") success)))
      (log w ++ [(Insert, t_ingestion_jobs)]))
   ∧ ingestion_jobs
       (db (snd (triggerWebhook e jobType url
                   (snd (triggerWebhook e jobType url w)))))
     = ingestion_jobs (db w)
   ∧ (faults e Insert t_ingestion_jobs = None ->
      insert_ingestion_job e jobType "pending" (now e) w
      = (inr (Resp.mk None (Some (infinite_recursion r_app_admins))),
         mkWorld (db w) (ui w) (log w ++ [(Insert, t_ingestion_jobs)]))))
  ∧ (acknowledged e jobType url = false ->
     triggerWebhook e jobType url w =
     (inr tt,
      mkWorld (db w)
        (mkState None
           (Some (mkToast
                    match fetch e url (mkBody jobType (now e)) with
                    | NetworkError m =>
                        Text.js_or_lit (Some m) "Failed to trigger webhook"
                    | Response _ => "Webhook failed"
                    end error)))
        (log w))).
Proof.
  split.
  - intros Hack. pose proof (trigger_acknowledged e w jobType url Hack) as H1.
    split; [exact H1|]. split.
    + rewrite H1. cbn [snd]. rewrite trigger_acknowledged by exact Hack. reflexivity.
    + intros Hf. unfold insert_ingestion_job, storage, respond.
      rewrite Hf, job_insert_policy. reflexivity.
  - apply trigger_refused.
Qed.

(** Bob is listed in [app_admins] and the endpoint answers 200: the
    success toast, and no job row. With an endpoint that answers 500,
    the error toast and no storage call. *)
Lemma acknowledged_trigger_stores_no_job_witness :
  is_admin (Sample.env Sample.bob) Sample.db0 = true
  ∧ triggerWebhook (Sample.env Sample.bob) "FDA Ingestion" "https://hook" Sample.admin0
    = (inr tt,
       mkWorld Sample.db0
         (mkState None (Some (mkToast "FDA Ingestion triggered successfully" success)))
         [(Insert, t_ingestion_jobs)])
  ∧ triggerWebhook (Sample.env_webhook Sample.bob Sample.all_fail)
      "FDA Ingestion" "https://hook" Sample.admin0
    = (inr tt,
       mkWorld Sample.db0 (mkState None (Some (mkToast "Webhook failed" error))) []).
Proof.
  split; [reflexivity|]. split.
  - exact (proj1 (proj1 (acknowledged_trigger_stores_no_job (Sample.env Sample.bob)
                           Sample.admin0 "FDA Ingestion" "https://hook") eq_refl)).
  - exact (proj2 (acknowledged_trigger_stores_no_job
                    (Sample.env_webhook Sample.bob Sample.all_fail)
                    Sample.admin0 "FDA Ingestion" "https://hook") eq_refl).
Defined.

End AdminFacts.

(** ** The query page: every run, sequences of runs *)

Module FlowFacts.
Import Chat Resolution Flow ChatFacts.

(** Everything resolved: the whole run, whatever becomes of the citations
    read and of the usage write. *)
Lemma handleSubmit_answered e w d g i gid gl :
  gate_passed e w ->
  drug_lookup e w = Some d -> gene_lookup e w = Some g ->
  interaction_lookup e w = Some i ->
  InteractionJoined.guideline i = Some (gid, gl) ->
  handleSubmit e w =
  (inr tt,
   mkWorld (usage_write e (usage_lookup e w) (db w))
     (finished (ui w) (Some (rendered e w d g gid gl i)) "" false)
     (log w ++ [fetch_usage; find_drug; find_gene; fetch_interactions; fetch_citations;
                usage_write_call (usage_lookup e w)])).
Proof.
  intros Hg Hd Hgn Hi Hgl. run_resolve.
  destruct (usage_lookup e w) as [u|] eqn:Hu.
  - use_lookups Hd Hgn Hi.
    destruct (Resp.data (fst (respond e Select t_interactions _ _))) as [[|i' l]|];
      cbn; try discriminate. intros [= ->]. rewrite Hgl. cbn. reads.
    unfold rendered, citation_lookup, answer_of_query. unfold_queries. unfold_monad. step.
    unfold usage_write. unfold_queries. unfold_monad. step.
    rewrite <- !app_assoc. reflexivity.
  - use_lookups Hd Hgn Hi.
    destruct (Resp.data (fst (respond e Select t_interactions _ _))) as [[|i' l]|];
      cbn; try discriminate. intros [= ->]. rewrite Hgl. cbn. reads.
    unfold rendered, citation_lookup, answer_of_query. unfold_queries. unfold_monad. step.
    unfold usage_write. unfold_queries. unfold_monad. step.
    rewrite <- !app_assoc. reflexivity.
Qed.

(** What the usage write can do to the database: nothing, or set the
    caller's row for the month. *)
Lemma usage_write_effect e u d :
  usage_write e u d = d
  ∨ usage_write e u d
    = with_usage_monthly
        (fun m => <[usage_key e :=
                     UsageMonthly.mk
                       (Some match u with
                             | Some r => js_num (UsageMonthly.query_count r) + 1
                             | None => 1
                             end)]> m) d.
Proof.
  unfold usage_write. unfold_queries. unfold_monad. step. unfold respond.
  destruct u as [r|].
  - destruct (faults e Update t_usage_monthly); [now left|]. cbn.
    destruct (decide (auth_uid e = auth_uid e)); [|now left].
    unfold with_usage_monthly. cbn beta.
    destruct (usage_monthly d !! (auth_uid e, currentMonth e)); [now right|].
    left. now destruct d.
  - destruct (faults e Insert t_usage_monthly); [now left|]. cbn.
    destruct (decide (auth_uid e = auth_uid e)); [|now left].
    destruct (usage_monthly d !! (auth_uid e, currentMonth e)); [now left | now right].
Qed.

Lemma shown_error_nonempty x : shown_error x ≠ "".
Proof.
  unfold shown_error, Text.js_or_lit.
  destruct (String.eqb (message x) "") eqn:H; [discriminate|].
  now apply String.eqb_neq.
Qed.

Lemma every_run_ends e w : Ending e w.
Proof.
  destruct (faults e Select t_usage_monthly) as [m|] eqn:Hf.
  { exact (FetchFailed e w m Hf (handleSubmit_fetch_failed e w m Hf)). }
  destruct (quota_reached (usage_lookup e w)) eqn:Hq.
  { exact (Denied e w Hf Hq (handleSubmit_quota e w Hf Hq)). }
  assert (Hg : gate_passed e w) by (split; assumption).
  destruct (drug_lookup e w) as [d|] eqn:Hd.
  2:{ apply (NotFound e w [] Hg); [constructor|].
      apply handleSubmit_not_found_pair; [exact Hg | now left]. }
  destruct (gene_lookup e w) as [g|] eqn:Hgn.
  2:{ apply (NotFound e w [] Hg); [constructor|].
      apply handleSubmit_not_found_pair; [exact Hg | now right]. }
  destruct (interaction_lookup e w) as [i|] eqn:Hi.
  2:{ apply (NotFound e w [fetch_interactions] Hg); [repeat constructor|].
      exact (handleSubmit_not_found_interaction e w d g Hg Hd Hgn Hi). }
  destruct (InteractionJoined.guideline i) as [[gid gl]|] eqn:Hgl.
  2:{ exact (Crashed e w i Hg Hi Hgl (handleSubmit_null_guideline e w i Hg Hi Hgl)). }
  exact (Answered e w d g i gid gl Hg Hd Hgn Hi Hgl
           (handleSubmit_answered e w d g i gid gl Hg Hd Hgn Hi Hgl)).
Qed.

(** X1. Whatever the storage does, [handleSubmit] returns normally and
    leaves the page with the form as it was, the spinner off, the save
    banner down, and exactly one of three things on display: the limit
    banner, an error text, or a result card. *)
Theorem run_shows_exactly_one_panel e w :
  fst (handleSubmit e w) = inr tt
  ∧ exists r err lim,
      ui (snd (handleSubmit e w)) = finished (ui w) r err lim
      ∧ ((lim = true ∧ r = None ∧ err = "")
         ∨ (lim = false ∧ r = None ∧ err ≠ "")
         ∨ (lim = false ∧ is_Some r ∧ err = "")).
Proof.
  destruct (every_run_ends e w) as [m Hf ->| _ _ ->|rest _ _ ->|i _ _ _ ->|d g i gid gl _ _ _ _ _ ->];
    (split; [reflexivity|]); cbn [snd ui].
  - eexists _, _, _. split; [reflexivity|]. right; left.
    repeat split. apply shown_error_nonempty.
  - eexists _, _, _. split; [reflexivity|]. left. repeat split.
  - eexists _, _, _. split; [reflexivity|]. right; left. repeat split. discriminate.
  - eexists _, _, _. split; [reflexivity|]. right; left.
    repeat split. apply shown_error_nonempty.
  - eexists _, _, _. split; [reflexivity|]. right; right. repeat split. eauto.
Qed.

Lemma with_usage_monthly_self d : d = with_usage_monthly (fun _ => usage_monthly d) d.
Proof. now destruct d. Qed.

Lemma usage_write_frame e u d :
  usage_write e u d = with_usage_monthly (fun _ => usage_monthly (usage_write e u d)) d
  ∧ forall k, k ≠ usage_key e ->
      usage_monthly (usage_write e u d) !! k = usage_monthly d !! k.
Proof.
  destruct (usage_write_effect e u d) as [->| ->].
  - split; [apply with_usage_monthly_self | reflexivity].
  - split; [reflexivity|]. intros k Hk. cbn. now rewrite lookup_insert_ne.
Qed.

(** X2. A run changes nothing in the database except, at most, the
    caller's own usage row for the current month: every other table is
    as before, and so is every usage row of another user or month. *)
Theorem run_touches_only_own_usage_row e w :
  db (snd (handleSubmit e w))
  = with_usage_monthly (fun _ => usage_monthly (db (snd (handleSubmit e w)))) (db w)
  ∧ forall k, k ≠ usage_key e ->
      usage_monthly (db (snd (handleSubmit e w))) !! k = usage_monthly (db w) !! k.
Proof.
  destruct (every_run_ends e w) as [m Hf ->| _ _ ->|rest _ _ ->|i _ _ _ ->|d g i gid gl _ _ _ _ _ ->];
    cbn [snd db]; try (split; [apply with_usage_monthly_self | reflexivity]).
  apply usage_write_frame.
Qed.

Lemma run_touches_only_own_usage_row_witness :
  usage_monthly
    (db (snd (handleSubmit (Sample.env Sample.alice)
                (mkWorld (Sample.db_used Sample.bob (Some 7))
                   (Sample.chat0 "Warfarin" "CYP2C9" Patient) []))))
    !! (Sample.bob, "2026-11")
  = Some (UsageMonthly.mk (Some 7)).
Proof.
  rewrite (proj2 (run_touches_only_own_usage_row (Sample.env Sample.alice)
                    (mkWorld (Sample.db_used Sample.bob (Some 7))
                       (Sample.chat0 "Warfarin" "CYP2C9" Patient) []))
             (Sample.bob, "2026-11")).
  - vm_compute. reflexivity.
  - intros H. vm_compute in H. discriminate H.
Defined.


(** X3. A run that ends without a result card has only read: its calls
    are all selects and the database is as before. A run that ends with
    a result card issued the five reads and then exactly one write, the
    usage upsert, after the answer was rendered. *)
Theorem only_an_answered_run_writes e w :
  exists calls,
    log (snd (handleSubmit e w)) = (log w ++ calls)%list
    ∧ (result (ui (snd (handleSubmit e w))) = None ->
       reads_only calls ∧ db (snd (handleSubmit e w)) = db w)
    ∧ (is_Some (result (ui (snd (handleSubmit e w)))) ->
       calls = [fetch_usage; find_drug; find_gene; fetch_interactions; fetch_citations;
                usage_write_call (usage_lookup e w)]
       ∧ fst (usage_write_call (usage_lookup e w)) ≠ Select).
Proof.
  destruct (every_run_ends e w) as [m Hf ->| _ _ ->|rest _ Hrest ->|i _ _ _ ->|d g i gid gl _ _ _ _ _ ->];
    cbn [snd db ui log result finished];
    eexists; (split; [reflexivity|]); split;
    try (intros [? [=]]); try (intros [=]); try (intros _).
  - split; [repeat constructor | reflexivity].
  - split; [repeat constructor | reflexivity].
  - split; [repeat constructor; exact Hrest | reflexivity].
  - split; [repeat constructor | reflexivity].
  - split; [reflexivity|]. destruct (usage_lookup e w); discriminate.
Qed.

Lemma only_an_answered_run_writes_witness :
  db (snd (handleSubmit (Sample.env Sample.alice)
             (Sample.world0 "zzzznotadrug" "CYP2C9" Patient)))
  = Sample.db0
  ∧ fst (usage_write_call
           (usage_lookup (Sample.env Sample.alice)
              (Sample.world0 "Warfarin" "CYP2C9" Patient))) ≠ Select.
Proof.
  split.
  - destruct (only_an_answered_run_writes (Sample.env Sample.alice)
                (Sample.world0 "zzzznotadrug" "CYP2C9" Patient))
      as (calls & _ & Hnone & _).
    apply Hnone. vm_compute. reflexivity.
  - destruct (only_an_answered_run_writes (Sample.env Sample.alice)
                (Sample.world0 "Warfarin" "CYP2C9" Patient))
      as (calls & _ & _ & Hsome).
    apply Hsome. vm_compute. eauto.
Defined.


Lemma quota_open_below u :
  quota_reached (Some u) = false -> js_num (UsageMonthly.query_count u) + 1 <= 50.
Proof. unfold quota_reached. intros H%Z.leb_gt. lia. Qed.

Lemma within_quota_set d k n :
  within_quota d -> n <= 50 ->
  within_quota (with_usage_monthly (fun m => <[k := UsageMonthly.mk (Some n)]> m) d).
Proof.
  intros Hd Hn k' u n' Hu Hc. cbn in Hu.
  destruct (decide (k = k')) as [->|Hne].
  - rewrite lookup_insert_eq in Hu. injection Hu as <-. cbn in Hc. injection Hc as <-.
    exact Hn.
  - rewrite lookup_insert_ne in Hu by exact Hne. exact (Hd k' u n' Hu Hc).
Qed.

Lemma run_keeps_quota e w :
  within_quota (db w) -> within_quota (db (snd (handleSubmit e w))).
Proof.
  intros Hq.
  destruct (every_run_ends e w) as [m Hf ->| _ _ ->|rest _ _ ->|i _ _ _ ->|d g i gid gl Hg _ _ _ _ ->];
    cbn [snd db]; try exact Hq.
  destruct (usage_write_effect e (usage_lookup e w) (db w)) as [->| ->]; [exact Hq|].
  apply within_quota_set; [exact Hq|].
  destruct Hg as [_ Hopen]. destruct (usage_lookup e w) as [u|]; [|lia].
  now apply quota_open_below.
Qed.

Lemma visit_run v w :
  visit v w
  = handleSubmit (visit_env v)
      (mkWorld (db w)
         (mkState (visit_drug v) (visit_gene v) (visit_mode v) (loading (ui w))
            (result (ui w)) (error (ui w)) (limitReached (ui w)) (saveSuccess (ui w)))
         (log w)).
Proof.
  unfold visit, setDrugInput, setGeneInput, setUserType.
  cbv [mbind M_bind bind modify_ui].
  cbn [db ui log drugInput geneInput userType loading result error limitReached
       saveSuccess].
  reflexivity.
Qed.

Lemma visit_keeps_quota v w :
  within_quota (db w) -> within_quota (db (snd (visit v w))).
Proof. intros Hq. rewrite visit_run. apply run_keeps_quota. exact Hq. Qed.

(** X4. Taken one after the other, no sequence of submits pushes a
    usage counter above 50: if every counter is at most 50 to begin
    with, it still is after any list of visits by any users, at any
    times, with any inputs and any storage failures. *)
Theorem sequential_submits_respect_the_quota vs w :
  within_quota (db w) -> within_quota (db (visits w vs)).
Proof.
  revert w. induction vs as [|v vs IH]; intros w Hq; [exact Hq|].
  cbn [visits]. apply IH, visit_keeps_quota, Hq.
Qed.

Lemma sequential_submits_respect_the_quota_witness :
  within_quota
    (db (visits (Sample.world0 "" "" Patient)
           [Fixture.alice_asks; Fixture.bob_asks; Fixture.alice_asks])).
Proof.
  apply (sequential_submits_respect_the_quota
           [Fixture.alice_asks; Fixture.bob_asks; Fixture.alice_asks]
           (Sample.world0 "" "" Patient)).
  intros k u n H. vm_compute in H. discriminate H.
Defined.


(** Lookups look at the reference tables and the form only. *)
Lemma lookups_after_usage_change e w w' f :
  db w' = with_usage_monthly f (db w) ->
  drugInput (ui w') = drugInput (ui w) ->
  geneInput (ui w') = geneInput (ui w) ->
  drug_lookup e w' = drug_lookup e w
  ∧ gene_lookup e w' = gene_lookup e w
  ∧ interaction_lookup e w' = interaction_lookup e w
  ∧ forall gid, citation_lookup e gid w' = citation_lookup e gid w.
Proof.
  intros Hdb Hd Hg.
  assert (H1 : drug_lookup e w' = drug_lookup e w).
  { unfold_lookups. unfold_queries. unfold_monad. step. rewrite Hdb, Hd.
    unfold respond. destruct (faults e Select t_drugs); reflexivity. }
  assert (H2 : gene_lookup e w' = gene_lookup e w).
  { unfold_lookups. unfold_queries. unfold_monad. step. rewrite Hdb, Hg.
    unfold respond. destruct (faults e Select t_genes); reflexivity. }
  repeat split; try assumption.
  - unfold interaction_lookup. rewrite H1, H2.
    destruct (drug_lookup e w) as [d|]; [|reflexivity].
    destruct (gene_lookup e w) as [g|]; [|reflexivity]. cbn [mbind option_bind].
    unfold_lookups. unfold_queries. unfold_monad. step. rewrite Hdb.
    unfold respond. destruct (faults e Select t_interactions); reflexivity.
  - intros gid. unfold_lookups. unfold_queries. unfold_monad. step.
    rewrite Hdb. unfold respond. destruct (faults e Select t_citations); reflexivity.
Qed.

Lemma usage_write_counts e u d :
  faults e Update t_usage_monthly = None ->
  faults e Insert t_usage_monthly = None ->
  usage_monthly d !! usage_key e = u ->
  usage_write e u d
  = with_usage_monthly
      (fun m => <[usage_key e :=
                   UsageMonthly.mk
                     (Some match u with
                           | Some r => js_num (UsageMonthly.query_count r) + 1
                           | None => 1
                           end)]> m) d.
Proof.
  intros Hfu Hfi Hu. unfold usage_write. unfold_queries. unfold_monad. step.
  unfold respond. unfold usage_key in Hu. destruct u as [r|].
  - rewrite Hfu. cbn. destruct (decide (auth_uid e = auth_uid e)); [|congruence].
    unfold with_usage_monthly. cbn beta. now rewrite Hu.
  - rewrite Hfi. cbn. destruct (decide (auth_uid e = auth_uid e)); [|congruence].
    now rewrite Hu.
Qed.

(** One more answered run on top of a world that asks the same
    question and holds [n] queries. *)
Lemma next_answered_run e w d g i gid gl w' n :
  faults e Select t_usage_monthly = None ->
  faults e Update t_usage_monthly = None ->
  faults e Insert t_usage_monthly = None ->
  drug_lookup e w = Some d -> gene_lookup e w = Some g ->
  interaction_lookup e w = Some i ->
  InteractionJoined.guideline i = Some (gid, gl) ->
  (exists f, db w' = with_usage_monthly f (db w)) ->
  drugInput (ui w') = drugInput (ui w) ->
  geneInput (ui w') = geneInput (ui w) ->
  userType (ui w') = userType (ui w) ->
  usage_monthly (db w') !! usage_key e = Some (UsageMonthly.mk (Some n)) ->
  n < 50 ->
  result (ui (snd (handleSubmit e w'))) = Some (rendered e w d g gid gl i)
  ∧ usage_monthly (db (snd (handleSubmit e w'))) !! usage_key e
    = Some (UsageMonthly.mk (Some (n + 1)))
  ∧ (exists f, db (snd (handleSubmit e w')) = with_usage_monthly f (db w))
  ∧ drugInput (ui (snd (handleSubmit e w'))) = drugInput (ui w)
  ∧ geneInput (ui (snd (handleSubmit e w'))) = geneInput (ui w)
  ∧ userType (ui (snd (handleSubmit e w'))) = userType (ui w).
Proof.
  intros Hfs Hfu Hfi Hd Hgn Hi Hgl [f Hdb] Hdi Hgi Hut Hrow Hn.
  destruct (lookups_after_usage_change e w w' f Hdb Hdi Hgi) as (Hd' & Hg' & Hi' & Hc').
  assert (Hlook : usage_lookup e w' = Some (UsageMonthly.mk (Some n)))
    by (rewrite usage_lookup_ok by exact Hfs; exact Hrow).
  assert (Hgate : gate_passed e w').
  { split; [exact Hfs|]. rewrite Hlook. cbn. apply Z.leb_gt. lia. }
  rewrite (handleSubmit_answered e w' d g i gid gl Hgate) by congruence.
  cbn [snd ui db result finished drugInput geneInput userType].
  rewrite Hlook, (usage_write_counts e _ (db w') Hfu Hfi Hrow). cbn.
  rewrite lookup_insert_eq. repeat split; try assumption.
  - unfold rendered. now rewrite Hut, Hc'.
  - rewrite Hdb.
    exists (fun m => <[usage_key e := UsageMonthly.mk (Some (n + 1))]> (f m)).
    reflexivity.
Qed.

Lemma denied_run e w :
  faults e Select t_usage_monthly = None ->
  usage_monthly (db w) !! usage_key e = Some (UsageMonthly.mk (Some 50)) ->
  handleSubmit e w =
  (inr tt, mkWorld (db w) (finished (ui w) None "" true) (log w ++ [fetch_usage])).
Proof.
  intros Hf Hrow. apply handleSubmit_quota; [exact Hf|].
  rewrite usage_lookup_ok, Hrow by exact Hf. reflexivity.
Qed.

Lemma first_answered_run e w d g i gid gl :
  gate_passed e w ->
  faults e Update t_usage_monthly = None ->
  faults e Insert t_usage_monthly = None ->
  drug_lookup e w = Some d -> gene_lookup e w = Some g ->
  interaction_lookup e w = Some i ->
  InteractionJoined.guideline i = Some (gid, gl) ->
  usage_monthly (db w) !! usage_key e = None ->
  result (ui (snd (handleSubmit e w))) = Some (rendered e w d g gid gl i)
  ∧ usage_monthly (db (snd (handleSubmit e w))) !! usage_key e
    = Some (UsageMonthly.mk (Some 1))
  ∧ (exists f, db (snd (handleSubmit e w)) = with_usage_monthly f (db w))
  ∧ drugInput (ui (snd (handleSubmit e w))) = drugInput (ui w)
  ∧ geneInput (ui (snd (handleSubmit e w))) = geneInput (ui w)
  ∧ userType (ui (snd (handleSubmit e w))) = userType (ui w).
Proof.
  intros Hg Hfu Hfi Hd Hgn Hi Hgl Hrow.
  rewrite (handleSubmit_answered e w d g i gid gl Hg Hd Hgn Hi Hgl).
  cbn [snd ui db result finished drugInput geneInput userType].
  rewrite (usage_lookup_ok e w (proj1 Hg)), Hrow.
  rewrite (usage_write_counts e None (db w) Hfu Hfi Hrow).
  cbn [usage_monthly with_usage_monthly].
  rewrite lookup_insert_eq. repeat split. eexists. reflexivity.
Qed.

(** X5. The fifty-first query of a month is denied. Starting with no
    usage row, when the question is one the flow answers and the storage
    accepts the writes, each of the first fifty submits shows the answer
    and leaves the counter at the number of submits so far; every later
    submit raises the limit banner, shows no answer, and leaves the
    counter at 50. *)
Theorem the_51st_query_is_denied e w r :
  faults e Update t_usage_monthly = None ->
  faults e Insert t_usage_monthly = None ->
  usage_monthly (db w) !! usage_key e = None ->
  result (ui (snd (handleSubmit e w))) = Some r ->
  forall n,
    ((1 <= n <= 50)%nat ->
     result (ui (submit_n e w n)) = Some r
     ∧ usage_monthly (db (submit_n e w n)) !! usage_key e
       = Some (UsageMonthly.mk (Some (Z.of_nat n))))
    ∧ ((50 < n)%nat ->
       limitReached (ui (submit_n e w n)) = true
       ∧ result (ui (submit_n e w n)) = None
       ∧ usage_monthly (db (submit_n e w n)) !! usage_key e
         = Some (UsageMonthly.mk (Some 50))).
Proof.
  intros Hfu Hfi Hrow Hres.
  destruct (answered_inv e w r Hres)
    as (Hg & d & g & i & gid & gl & Hd & Hgn & Hi & Hgl & ->).
  pose proof (proj1 Hg) as Hfs.
  assert (Hinv : forall n,
    ((1 <= n <= 50)%nat ->
     result (ui (submit_n e w n)) = Some (rendered e w d g gid gl i)
     ∧ usage_monthly (db (submit_n e w n)) !! usage_key e
       = Some (UsageMonthly.mk (Some (Z.of_nat n)))
     ∧ (exists f, db (submit_n e w n) = with_usage_monthly f (db w))
     ∧ drugInput (ui (submit_n e w n)) = drugInput (ui w)
     ∧ geneInput (ui (submit_n e w n)) = geneInput (ui w)
     ∧ userType (ui (submit_n e w n)) = userType (ui w))
    ∧ ((50 < n)%nat ->
       limitReached (ui (submit_n e w n)) = true
       ∧ result (ui (submit_n e w n)) = None
       ∧ usage_monthly (db (submit_n e w n)) !! usage_key e
         = Some (UsageMonthly.mk (Some 50)))).
  { induction n as [|n [IHin IHout]]; [split; lia|].
    cbn [submit_n]. destruct (decide (n = 0%nat)) as [Hz|Hnz].
    - subst n. cbn [submit_n]. split; [intros _|lia].
      exact (first_answered_run e w d g i gid gl Hg Hfu Hfi Hd Hgn Hi Hgl Hrow).
    - revert IHin IHout. generalize (submit_n e w n). intros w' IHin IHout. split.
      + intros Hn. destruct IHin as (_ & H2 & H3 & H4 & H5 & H6); [lia|].
        destruct (next_answered_run e w d g i gid gl w' (Z.of_nat n)
                    Hfs Hfu Hfi Hd Hgn Hi Hgl H3 H4 H5 H6 H2)
          as (K1 & K2 & K3 & K4 & K5 & K6); [lia|].
        split; [exact K1|]. split; [|split; [exact K3|split; [exact K4|split; [exact K5|exact K6]]]].
        rewrite K2. do 3 f_equal. lia.
      + intros Hn.
        assert (H2 : usage_monthly (db w') !! usage_key e
                     = Some (UsageMonthly.mk (Some 50))).
        { destruct (decide (n = 50%nat)) as [H50|Hne].
          - destruct IHin as (_ & H2 & _); [lia|]. rewrite H2. do 3 f_equal. lia.
          - destruct IHout as (_ & _ & H2); [lia|]. exact H2. }
        rewrite (denied_run e w' Hfs H2). cbn [snd ui db limitReached result finished].
        split; [reflexivity|]. split; [reflexivity|exact H2]. }
  intros n. destruct (Hinv n) as [Hin Hout]. split; [|exact Hout].
  intros Hn. destruct (Hin Hn) as (H1 & H2 & _). split; assumption.
Qed.

Lemma the_51st_query_is_denied_witness :
  (result (ui (submit_n (Sample.env Sample.alice)
                 (Sample.world0 "Warfarin" "CYP2C9" Patient) 50))
   = Some (QueryResult.mk "Warfarin" "CYP2C9" "Reduce dose"
             ["Dosing - Johnson (CPT, 2017)"])
   ∧ usage_monthly (db (submit_n (Sample.env Sample.alice)
                          (Sample.world0 "Warfarin" "CYP2C9" Patient) 50))
       !! usage_key (Sample.env Sample.alice)
     = Some (UsageMonthly.mk (Some 50)))
  ∧ limitReached (ui (submit_n (Sample.env Sample.alice)
                        (Sample.world0 "Warfarin" "CYP2C9" Patient) 51))
    = true.
Proof.
  assert (Hres :
    result (ui (snd (handleSubmit (Sample.env Sample.alice)
                       (Sample.world0 "Warfarin" "CYP2C9" Patient))))
    = Some (QueryResult.mk "Warfarin" "CYP2C9" "Reduce dose"
              ["Dosing - Johnson (CPT, 2017)"]))
    by (vm_compute; reflexivity).
  pose proof (the_51st_query_is_denied (Sample.env Sample.alice)
                (Sample.world0 "Warfarin" "CYP2C9" Patient) _
                eq_refl eq_refl eq_refl Hres) as H.
  split.
  - apply (proj1 (H 50%nat)). lia.
  - apply (proj2 (H 51%nat)). lia.
Defined.


(** X6. A failed citations read does not fail the query: the answer is
    shown as usual with an empty citation list, no error is shown, and
    the query is counted like any other. *)
Theorem failed_citations_read_still_answers e w i gid gl m :
  gate_passed e w ->
  interaction_lookup e w = Some i ->
  InteractionJoined.guideline i = Some (gid, gl) ->
  faults e Select t_citations = Some m ->
  exists r,
    result (ui (snd (handleSubmit e w))) = Some r
    ∧ QueryResult.citations r = []
    ∧ QueryResult.answer r = answer_text (userType (ui w)) gl i
    ∧ error (ui (snd (handleSubmit e w))) = ""
    ∧ db (snd (handleSubmit e w)) = usage_write e (usage_lookup e w) (db w).
Proof.
  intros Hg Hi Hgl Hf.
  destruct (interaction_lookup_parts e w i Hi) as (d & g & Hd & Hgn).
  rewrite (handleSubmit_answered e w d g i gid gl Hg Hd Hgn Hi Hgl).
  eexists. split; [reflexivity|]. cbn [QueryResult.citations QueryResult.answer rendered
    snd ui db error finished].
  split; [|repeat split].
  unfold_lookups. unfold_queries. unfold_monad. step. unfold respond. now rewrite Hf.
Qed.

Lemma failed_citations_read_still_answers_witness :
  exists r,
    result (ui (snd (handleSubmit
                       (Sample.env_failing Sample.alice Fixture.citations_down)
                       (Sample.world0 "Warfarin" "CYP2C9" Patient))))
    = Some r
    ∧ QueryResult.citations r = []
    ∧ QueryResult.answer r = "Reduce dose".
Proof.
  destruct (failed_citations_read_still_answers
              (Sample.env_failing Sample.alice Fixture.citations_down)
              (Sample.world0 "Warfarin" "CYP2C9" Patient)
              (join_interaction Sample.db0 Sample.interaction1)
              "gl-1" Sample.guideline1 "timeout")
    as (r & Hr & Hc & Ha & _).
  - split; reflexivity.
  - vm_compute. reflexivity.
  - vm_compute. reflexivity.
  - reflexivity.
  - exists r. split; [exact Hr|]. split; [exact Hc|]. rewrite Ha. reflexivity.
Defined.


(** X7. A failed usage write is silent: when the run ends with an
    answer and the storage refuses the upsert, the answer stays on the
    page, no error is shown, and the database is as before, so the query
    is not counted. *)
Theorem failed_usage_write_is_silent e w r m :
  result (ui (snd (handleSubmit e w))) = Some r ->
  faults e (fst (usage_write_call (usage_lookup e w))) t_usage_monthly = Some m ->
  db (snd (handleSubmit e w)) = db w
  ∧ error (ui (snd (handleSubmit e w))) = ""
  ∧ limitReached (ui (snd (handleSubmit e w))) = false.
Proof.
  intros Hres Hf.
  destruct (answered_inv e w r Hres)
    as (Hg & d & g & i & gid & gl & Hd & Hgn & Hi & Hgl & _).
  rewrite (handleSubmit_answered e w d g i gid gl Hg Hd Hgn Hi Hgl).
  cbn [snd ui db error limitReached finished].
  split; [|split; reflexivity].
  unfold usage_write. unfold_queries. unfold_monad. step. unfold respond.
  destruct (usage_lookup e w); cbn [usage_write_call fst bump_usage create_usage] in Hf;
    rewrite Hf; reflexivity.
Qed.

Lemma failed_usage_write_is_silent_witness :
  db (snd (handleSubmit (Sample.env_failing Sample.alice Fixture.usage_writes_down)
             (Sample.world0 "Warfarin" "CYP2C9" Patient)))
  = Sample.db0.
Proof.
  refine (proj1 (failed_usage_write_is_silent
                   (Sample.env_failing Sample.alice Fixture.usage_writes_down)
                   (Sample.world0 "Warfarin" "CYP2C9" Patient)
                   (QueryResult.mk "Warfarin" "CYP2C9" "Reduce dose"
                      ["Dosing - Johnson (CPT, 2017)"])
                   "timeout" _ _)).
  - vm_compute. reflexivity.
  - vm_compute. reflexivity.
Defined.









End FlowFacts.

(** ** Saving, listing and deleting answers *)

Module SavedPageFacts.
Import Resolution Flow.

(** The row [handleSave] sends for the card [r]. *)
Lemma handleSave_run e w r :
  Chat.result (ui w) = Some r ->
  Chat.handleSave e w
  = (inr tt,
     mkWorld
       (snd (@respond unit e Insert t_saved_answers
               (fun d =>
                  if decide (auth_uid e = auth_uid e) then
                    if bool_decide (gen_random_uuid e ∈ SavedAnswer.id <$> saved_answers d)
                    then (Resp.mk None (Some (unique_violation "saved_answers_pkey")), d)
                    else
                      (Resp.mk None None,
                       with_saved_answers (fun l =>
                         l ++ [SavedAnswer.mk (gen_random_uuid e) (auth_uid e)
                                 (QueryResult.drug r) (QueryResult.gene r)
                                 (user_type_text (Chat.userType (ui w)))
                                 (QueryResult.answer r)])%list d)
                  else (Resp.mk None (Some (rls_violation "saved_answers")), d))
               (db w)))
       (Chat.mkState (Chat.drugInput (ui w)) (Chat.geneInput (ui w))
          (Chat.userType (ui w)) (Chat.loading (ui w)) (Chat.result (ui w))
          (Chat.error (ui w)) (Chat.limitReached (ui w)) true)
       (log w ++ [(Insert, t_saved_answers)])).
Proof.
  intros Hr. unfold Chat.handleSave, insert_saved_answer.
  cbv [mbind M_bind bind mret M_ret ret try_catch throw get_ui modify_ui storage
       Chat.setSaveSuccess Chat.setError].
  cbn [fst snd ui db log]. rewrite Hr. cbn [fst snd ui db log].
  do 3 f_equal. exact Hr.
Qed.

Lemma handleSave_idle e w :
  Chat.result (ui w) = None -> Chat.handleSave e w = (inr tt, w).
Proof.
  intros Hr. unfold Chat.handleSave.
  cbv [mbind M_bind bind mret M_ret ret get_ui]. rewrite Hr. reflexivity.
Qed.

Lemma with_saved_answers_frame f d :
  app_admins (with_saved_answers f d) = app_admins d
  ∧ drugs (with_saved_answers f d) = drugs d
  ∧ genes (with_saved_answers f d) = genes d
  ∧ phenotypes (with_saved_answers f d) = phenotypes d
  ∧ guidelines (with_saved_answers f d) = guidelines d
  ∧ interactions (with_saved_answers f d) = interactions d
  ∧ citations (with_saved_answers f d) = citations d
  ∧ usage_monthly (with_saved_answers f d) = usage_monthly d
  ∧ ingestion_jobs (with_saved_answers f d) = ingestion_jobs d.
Proof. destruct d. repeat split. Qed.

(** X9. [handleSave] never reports a failure: whatever the storage
    answers, it returns normally and leaves the error text and the
    card as they were; with a card on the page it makes one
    insert into [saved_answers] and raises the success banner, and
    the table afterwards is the old one or the old one followed by a
    single row owned by the caller; with no card it does nothing. *)
Theorem save_never_reports_a_failure e w :
  fst (Chat.handleSave e w) = inr tt
  ∧ Chat.error (ui (snd (Chat.handleSave e w))) = Chat.error (ui w)
  ∧ Chat.result (ui (snd (Chat.handleSave e w))) = Chat.result (ui w)
  ∧ match Chat.result (ui w) with
    | None => snd (Chat.handleSave e w) = w
    | Some r =>
        Chat.saveSuccess (ui (snd (Chat.handleSave e w))) = true
        ∧ log (snd (Chat.handleSave e w)) = (log w ++ [(Insert, t_saved_answers)])%list
        ∧ (db (snd (Chat.handleSave e w)) = db w
           ∨ exists row,
               SavedAnswer.user_id row = auth_uid e
               ∧ SavedAnswer.answer row = QueryResult.answer r
               ∧ db (snd (Chat.handleSave e w))
                 = with_saved_answers (fun l => l ++ [row])%list (db w))
    end.
Proof.
  destruct (Chat.result (ui w)) as [r|] eqn:Hr.
  - rewrite (handleSave_run e w r Hr). cbn [fst snd ui db log Chat.error Chat.result
      Chat.saveSuccess].
    repeat (split; [try reflexivity; now rewrite Hr|]).
    unfold respond. destruct (faults e Insert t_saved_answers); [now left|].
    destruct (decide (auth_uid e = auth_uid e)); [|now left].
    destruct (bool_decide _); [now left|].
    right. eexists. cbn [snd]. split; [|split; [|reflexivity]]; reflexivity.
  - rewrite (handleSave_idle e w Hr). cbn [fst snd]. now rewrite Hr.
Qed.

(** X10. When the storage refuses the insert (it fails, or the new
    identifier is already taken), [handleSave] stores nothing and
    shows no error, and still raises "Answer saved successfully!". *)
Theorem refused_save_still_shows_success e w r :
  Chat.result (ui w) = Some r ->
  faults e Insert t_saved_answers ≠ None
  ∨ gen_random_uuid e ∈ SavedAnswer.id <$> saved_answers (db w) ->
  db (snd (Chat.handleSave e w)) = db w
  ∧ Chat.saveSuccess (ui (snd (Chat.handleSave e w))) = true
  ∧ Chat.error (ui (snd (Chat.handleSave e w))) = Chat.error (ui w).
Proof.
  intros Hr Hrefused. rewrite (handleSave_run e w r Hr).
  cbn [fst snd ui db log Chat.error Chat.saveSuccess].
  split; [|split; reflexivity].
  unfold respond. destruct (faults e Insert t_saved_answers) as [m|]; [reflexivity|].
  destruct Hrefused as [Hf|Hdup]; [congruence|].
  destruct (decide (auth_uid e = auth_uid e)); [|reflexivity].
  now rewrite bool_decide_eq_true_2 by exact Hdup.
Qed.

Lemma refused_save_still_shows_success_witness :
  let e := Sample.env_failing Sample.alice Fixture.saves_down in
  let w := mkWorld Sample.db0 Fixture.chat_answered [] in
  db (snd (Chat.handleSave e w)) = Sample.db0
  ∧ Chat.saveSuccess (ui (snd (Chat.handleSave e w))) = true
  ∧ Chat.error (ui (snd (Chat.handleSave e w))) = "".
Proof.
  apply (refused_save_still_shows_success
           (Sample.env_failing Sample.alice Fixture.saves_down)
           (mkWorld Sample.db0 Fixture.chat_answered [])
           (QueryResult.mk "Warfarin" "CYP2C9" "Reduce dose" [])).
  - reflexivity.
  - left. discriminate.
Defined.

Lemma usage_write_saved_answers e u d :
  saved_answers (usage_write e u d) = saved_answers d.
Proof.
  destruct (FlowFacts.usage_write_effect e u d) as [-> | ->]; [reflexivity|].
  destruct d; reflexivity.
Qed.

(** X11. Asking and then saving stores the names as the database has
    them, not as they were typed: after an answered run, [handleSave]
    appends one row made of the matched drug's [name], the matched
    gene's [symbol], the view mode and the answer text of the card. *)
Theorem saved_row_has_the_stored_names e w d g i gid gl :
  gate_passed e w ->
  drug_lookup e w = Some d -> gene_lookup e w = Some g ->
  interaction_lookup e w = Some i ->
  InteractionJoined.guideline i = Some (gid, gl) ->
  faults e Insert t_saved_answers = None ->
  gen_random_uuid e ∉ SavedAnswer.id <$> saved_answers (db w) ->
  saved_answers (db (snd (Chat.handleSave e (snd (Chat.handleSubmit e w)))))
  = (saved_answers (db w)
     ++ [SavedAnswer.mk (gen_random_uuid e) (auth_uid e)
           (Drug.name d) (Gene.symbol g)
           (user_type_text (Chat.userType (ui w)))
           (Chat.answer_text (Chat.userType (ui w)) gl i)])%list.
Proof.
  intros Hg Hd Hgn Hi Hgl Hf Hfresh.
  rewrite (FlowFacts.handleSubmit_answered e w d g i gid gl Hg Hd Hgn Hi Hgl).
  cbn [snd].
  rewrite (handleSave_run e _ (rendered e w d g gid gl i)) by reflexivity.
  cbn [snd db ui]. unfold respond. rewrite Hf.
  destruct (decide (auth_uid e = auth_uid e)); [|congruence].
  rewrite bool_decide_eq_false_2
    by (rewrite usage_write_saved_answers; exact Hfresh).
  cbn [snd]. unfold with_saved_answers. cbn [saved_answers].
  rewrite usage_write_saved_answers. reflexivity.
Qed.

Lemma saved_row_has_the_stored_names_witness :
  saved_answers
    (db (snd (Chat.handleSave (Sample.env Sample.alice)
                (snd (Chat.handleSubmit (Sample.env Sample.alice)
                        (Sample.world0 "warf" "cyp2" Patient))))))
  = [SavedAnswer.mk "sa-1" Sample.alice "Warfarin" "CYP2C9" "Patient" "Reduce dose"].
Proof.
  apply (saved_row_has_the_stored_names (Sample.env Sample.alice)
           (Sample.world0 "warf" "cyp2" Patient)
           Sample.warfarin Sample.cyp2c9
           (join_interaction Sample.db0 Sample.interaction1)
           "gl-1" Sample.guideline1).
  - split; reflexivity.
  - vm_compute. reflexivity.
  - vm_compute. reflexivity.
  - vm_compute. reflexivity.
  - vm_compute. reflexivity.
  - reflexivity.
  - vm_compute. apply not_elem_of_nil.
Defined.

End SavedPageFacts.

(** ** The list on the saved-answers page *)

Module CasesFacts.
Import Cases CasesList.

Lemma visible_own_again uid d :
  filter (fun r => SavedAnswer.user_id r = uid) (visible_saved_answers uid d)
  = visible_saved_answers uid d.
Proof. unfold visible_saved_answers. apply list_filter_filter_l. tauto. Qed.

Lemma fetchSavedAnswers_run e w :
  fetchSavedAnswers e w
  = (inr tt,
     mkWorld (db w)
       (mkState
          match faults e Select t_saved_answers with
          | Some _ => savedAnswers (ui w)
          | None => listed (auth_uid e) (db w)
          end false)
       (log w ++ [(Select, t_saved_answers)])).
Proof.
  unfold fetchSavedAnswers, select_saved_answers, listed.
  cbv [mbind M_bind bind mret M_ret ret try_catch throw get_ui modify_ui storage
       setSavedAnswers setLoading respond].
  cbn [fst snd ui db log].
  destruct (faults e Select t_saved_answers);
    cbn [fst snd ui db log Resp.error Resp.data default savedAnswers loading];
    [reflexivity|].
  now rewrite visible_own_again.
Qed.

Lemma handleDelete_run e id w :
  handleDelete e id w
  = (inr tt,
     match faults e Delete t_saved_answers with
     | Some _ => mkWorld (db w) (ui w) (log w ++ [(Delete, t_saved_answers)])
     | None =>
         mkWorld
           (with_saved_answers
              (filter (fun r => ¬ (SavedAnswer.id r = id
                                   ∧ SavedAnswer.user_id r = auth_uid e))) (db w))
           (mkState (filter (fun sa => SavedAnswer.id sa ≠ id) (savedAnswers (ui w)))
              (loading (ui w)))
           (log w ++ [(Delete, t_saved_answers)])
     end).
Proof.
  unfold handleDelete, delete_saved_answer.
  cbv [mbind M_bind bind mret M_ret ret try_catch throw get_ui modify_ui storage
       setSavedAnswers respond].
  cbn [fst snd ui db log].
  destruct (faults e Delete t_saved_answers); reflexivity.
Qed.

Lemma saved_answers_with f d :
  saved_answers (with_saved_answers f d) = f (saved_answers d).
Proof. destruct d; reflexivity. Qed.

(** Deleting in the table and dropping the entry from a loaded list
    give the same list. *)
Lemma listed_after_delete uid id d :
  listed uid
    (with_saved_answers
       (filter (fun r => ¬ (SavedAnswer.id r = id ∧ SavedAnswer.user_id r = uid))) d)
  = filter (fun sa => SavedAnswer.id sa ≠ id) (listed uid d).
Proof.
  unfold listed, visible_saved_answers. rewrite saved_answers_with.
  rewrite filter_reverse. f_equal.
  rewrite !list_filter_filter. apply list_filter_iff. intros r. tauto.
Qed.

(** X12. [fetchSavedAnswers] always returns normally, reads only, and
    ends with the loading flag off. When the read succeeds the page
    lists exactly the caller's rows, newest first, so a row is listed
    if and only if it is stored and owned by the caller; when the read
    fails the list is left as it was. *)
Theorem fetch_lists_the_callers_rows e w :
  fst (fetchSavedAnswers e w) = inr tt
  ∧ db (snd (fetchSavedAnswers e w)) = db w
  ∧ loading (ui (snd (fetchSavedAnswers e w))) = false
  ∧ match faults e Select t_saved_answers with
    | Some _ =>
        savedAnswers (ui (snd (fetchSavedAnswers e w))) = savedAnswers (ui w)
    | None =>
        savedAnswers (ui (snd (fetchSavedAnswers e w)))
        = reverse (filter (fun r => SavedAnswer.user_id r = auth_uid e)
                     (saved_answers (db w)))
        ∧ forall r,
            r ∈ savedAnswers (ui (snd (fetchSavedAnswers e w)))
            <-> r ∈ saved_answers (db w) ∧ SavedAnswer.user_id r = auth_uid e
    end.
Proof.
  rewrite fetchSavedAnswers_run. cbn [fst snd db ui loading savedAnswers].
  repeat (split; [reflexivity|]).
  destruct (faults e Select t_saved_answers); [reflexivity|].
  split; [reflexivity|]. intros r. unfold listed, visible_saved_answers.
  rewrite elem_of_reverse, list_elem_of_filter. tauto.
Qed.

(** X13. The list [handleDelete] leaves on the page is the list a
    reload would show: after a fetch and a delete of any identifier,
    whether the delete succeeds or fails, fetching again changes
    nothing on the page. *)
Theorem delete_keeps_the_page_current e id w :
  faults e Select t_saved_answers = None ->
  ui (snd (fetchSavedAnswers e
             (snd (handleDelete e id (snd (fetchSavedAnswers e w))))))
  = ui (snd (handleDelete e id (snd (fetchSavedAnswers e w)))).
Proof.
  intros Hs. rewrite (fetchSavedAnswers_run e w). cbn [snd].
  rewrite handleDelete_run. cbn [snd ui db log savedAnswers loading].
  rewrite fetchSavedAnswers_run. rewrite Hs.
  destruct (faults e Delete t_saved_answers);
    cbn [snd ui db log savedAnswers loading]; [reflexivity|].
  now rewrite listed_after_delete.
Qed.

Lemma delete_keeps_the_page_current_witness :
  let e := Sample.env Sample.alice in
  ui (snd (fetchSavedAnswers e
             (snd (handleDelete e "sa-a" (snd (fetchSavedAnswers e Sample.cases0))))))
  = ui (snd (handleDelete e "sa-a" (snd (fetchSavedAnswers e Sample.cases0)))).
Proof.
  apply (delete_keeps_the_page_current (Sample.env Sample.alice) "sa-a" Sample.cases0).
  reflexivity.
Defined.

(** X14. An answer saved on the query page is the first entry of the
    saved-answers page: after a save that the storage accepts, a fetch
    lists the new row followed by what a fetch listed before. *)
Theorem saved_answer_is_listed_first e w r c l :
  Chat.result (ui w) = Some r ->
  faults e Insert t_saved_answers = None ->
  gen_random_uuid e ∉ SavedAnswer.id <$> saved_answers (db w) ->
  faults e Select t_saved_answers = None ->
  savedAnswers
    (ui (snd (fetchSavedAnswers e (mkWorld (db (snd (Chat.handleSave e w))) c l))))
  = SavedAnswer.mk (gen_random_uuid e) (auth_uid e)
      (QueryResult.drug r) (QueryResult.gene r)
      (user_type_text (Chat.userType (ui w))) (QueryResult.answer r)
    :: savedAnswers (ui (snd (fetchSavedAnswers e (mkWorld (db w) c l)))).
Proof.
  intros Hr Hf Hfresh Hs.
  rewrite (SavedPageFacts.handleSave_run e w r Hr). cbn [snd db].
  rewrite !fetchSavedAnswers_run. cbn [snd ui db savedAnswers]. rewrite Hs.
  unfold respond. rewrite Hf.
  destruct (decide (auth_uid e = auth_uid e)); [|congruence].
  rewrite bool_decide_eq_false_2 by exact Hfresh. cbn [snd].
  unfold listed, visible_saved_answers. rewrite saved_answers_with.
  rewrite filter_app, reverse_app.
  rewrite filter_cons_True by reflexivity. reflexivity.
Qed.

Lemma saved_answer_is_listed_first_witness :
  let e := Sample.env Sample.alice in
  savedAnswers
    (ui (snd (fetchSavedAnswers e
                (mkWorld
                   (db (snd (Chat.handleSave e
                               (mkWorld Sample.db_saved Fixture.chat_answered []))))
                   (Cases.mkState [] true) []))))
  = [SavedAnswer.mk "sa-1" Sample.alice "Warfarin" "CYP2C9" "Clinician" "Reduce dose";
     Sample.saved_alice].
Proof.
  apply (saved_answer_is_listed_first (Sample.env Sample.alice)
           (mkWorld Sample.db_saved Fixture.chat_answered [])
           (QueryResult.mk "Warfarin" "CYP2C9" "Reduce dose" [])
           (Cases.mkState [] true) []).
  - reflexivity.
  - reflexivity.
  - vm_compute. intros H. inversion H as [|? ? ? H']; subst.
    apply list_elem_of_singleton in H'. discriminate.
  - reflexivity.
Defined.

End CasesFacts.

(** ** The admin page *)

Module DashboardFacts.
Import Dashboard Desk.

Ltac run_c :=
  cbv [mbind mret C_bind C_ret bind_C unit_C attempt raise detached get_page set_page
       ask count_rows setSources setJobs setAuditLog setStats setLoading
       setShowAddModal setEditingSource setFormData showToast under_policy];
  cbn [fst snd store page calls Resp.data Resp.error default].

(** Which statements of the page come through the expansion of their
    policies. *)
Lemma policies_of_the_page :
  policy_failure Select r_sources = None
  ∧ policy_failure Select r_ingestion_jobs = Some (infinite_recursion r_app_admins)
  ∧ policy_failure Select r_audit_log = Some (infinite_recursion r_app_admins)
  ∧ policy_failure Insert r_sources = Some (infinite_recursion r_app_admins)
  ∧ policy_failure Update r_sources = Some (infinite_recursion r_app_admins)
  ∧ policy_failure Delete r_sources = Some (infinite_recursion r_app_admins).
Proof. repeat split. Qed.

Lemma fetchSources_run s w :
  fetchSources s w
  = match tab_error s tab_sources with
    | Some m =>
        (inl (PostgrestError m),
         mkScene (store w) (page w) (calls w ++ [(Select, inr Backend.t_sources)]))
    | None =>
        (inr tt,
         mkScene (store w) (with_sources (page w) (reverse (Backend.sources (store w))))
           (calls w ++ [(Select, inr Backend.t_sources)]))
    end.
Proof.
  unfold fetchSources, select_sources, tab_error, call_error. run_c.
  cbn [tab_table tab_relation].
  destruct (fault s Select (inr Backend.t_sources)); [reflexivity|].
  destruct (policy_failure Select r_sources); reflexivity.
Qed.

Lemma detached_fetchSources s w :
  detached (fetchSources s) w
  = (inr tt,
     mkScene (store w) (refreshed s (store w) (page w))
       (calls w ++ [(Select, inr Backend.t_sources)])).
Proof.
  unfold detached, attempt. rewrite fetchSources_run. unfold refreshed.
  destruct (tab_error s tab_sources); reflexivity.
Qed.

Lemma submit_update_run s w src :
  editingSource (page w) = Some src ->
  handleSubmitSource s w
  = match call_error s Update (inr Backend.t_sources) r_sources with
    | Some m =>
        (inr tt,
         mkScene (store w)
           (with_toast (page w) (Text.js_or_lit (Some m) "Failed to save source")
              Admin.error)
           (calls w ++ [(Update, inr Backend.t_sources)]))
    | None =>
        (inr tt,
         mkScene
           (if admin s (store w)
            then rewritten (Source.id src) (formData (page w)) (store w)
            else store w)
           (refreshed s
              (if admin s (store w)
               then rewritten (Source.id src) (formData (page w)) (store w)
               else store w)
              (closed (page w) "Source updated successfully"))
           (calls w ++ [(Update, inr Backend.t_sources);
                        (Select, inr Backend.t_sources)]))
    end.
Proof.
  intros He. unfold handleSubmitSource, call_error.
  cbv [mbind mret C_bind C_ret bind_C unit_C get_page]. rewrite He.
  unfold attempt at 1.
  cbv [mbind mret C_bind C_ret bind_C unit_C update_source ask raise showToast
       setShowAddModal setEditingSource setFormData set_page under_policy].
  cbn [fst snd store page calls Resp.data Resp.error].
  destruct (fault s Update (inr Backend.t_sources)) as [m|];
    cbn [fst snd store page calls Resp.data Resp.error]; [reflexivity|].
  destruct (policy_failure Update r_sources) as [m|];
    cbn [fst snd store page calls Resp.data Resp.error]; [reflexivity|].
  rewrite detached_fetchSources. cbn [fst snd store page calls].
  rewrite <- app_assoc. reflexivity.
Qed.

Lemma submit_insert_run s w :
  editingSource (page w) = None ->
  handleSubmitSource s w
  = match insert_refusal s (store w) with
    | Some m =>
        (inr tt,
         mkScene (store w)
           (with_toast (page w) (Text.js_or_lit (Some m) "Failed to save source")
              Admin.error)
           (calls w ++ [(Insert, inr Backend.t_sources)]))
    | None =>
        (inr tt,
         mkScene (appended (gen_random_uuid (env s)) (formData (page w)) (store w))
           (refreshed s
              (appended (gen_random_uuid (env s)) (formData (page w)) (store w))
              (closed (page w) "Source added successfully"))
           (calls w ++ [(Insert, inr Backend.t_sources);
                        (Select, inr Backend.t_sources)]))
    end.
Proof.
  intros He. unfold handleSubmitSource, insert_refusal, call_error.
  cbv [mbind mret C_bind C_ret bind_C unit_C get_page]. rewrite He.
  unfold attempt at 1.
  cbv [mbind mret C_bind C_ret bind_C unit_C insert_source ask raise showToast
       setShowAddModal setEditingSource setFormData set_page under_policy].
  cbn [fst snd store page calls Resp.data Resp.error].
  destruct (fault s Insert (inr Backend.t_sources)) as [m|];
    cbn [fst snd store page calls Resp.data Resp.error]; [reflexivity|].
  destruct (policy_failure Insert r_sources) as [m|];
    cbn [fst snd store page calls Resp.data Resp.error]; [reflexivity|].
  destruct (admin s (store w));
    cbn [fst snd store page calls Resp.data Resp.error]; [|reflexivity].
  destruct (bool_decide _);
    cbn [fst snd store page calls Resp.data Resp.error]; [reflexivity|].
  rewrite detached_fetchSources. cbn [fst snd store page calls].
  rewrite <- app_assoc. reflexivity.
Qed.

Lemma delete_run s id w :
  handleDeleteSource s id w
  = if confirm s "Are you sure you want to delete this source?" then
      match call_error s Delete (inr Backend.t_sources) r_sources with
      | Some m =>
          (inr tt,
           mkScene (store w)
             (with_toast (page w) (Text.js_or_lit (Some m) "Failed to delete source")
                Admin.error)
             (calls w ++ [(Delete, inr Backend.t_sources)]))
      | None =>
          (inr tt,
           mkScene
             (if admin s (store w) then
                if bool_decide (id ∈ Source.id <$> Backend.sources (store w))
                then removed id (store w) else store w
              else store w)
             (refreshed s
                (if admin s (store w) then
                   if bool_decide (id ∈ Source.id <$> Backend.sources (store w))
                   then removed id (store w) else store w
                 else store w)
                (with_toast (page w) "Source deleted successfully" Admin.success))
             (calls w ++ [(Delete, inr Backend.t_sources);
                          (Select, inr Backend.t_sources)]))
      end
    else (inr tt, w).
Proof.
  unfold handleDeleteSource, call_error.
  destruct (confirm s _); cbn [negb]; [|reflexivity].
  unfold attempt at 1.
  cbv [mbind mret C_bind C_ret bind_C unit_C delete_source ask raise showToast set_page
       under_policy].
  cbn [fst snd store page calls Resp.data Resp.error].
  destruct (fault s Delete (inr Backend.t_sources)) as [m|];
    cbn [fst snd store page calls Resp.data Resp.error]; [reflexivity|].
  destruct (policy_failure Delete r_sources) as [m|];
    cbn [fst snd store page calls Resp.data Resp.error]; [reflexivity|].
  rewrite detached_fetchSources. cbn [fst snd store page calls].
  rewrite <- app_assoc. reflexivity.
Qed.

Lemma fetchJobs_run s w :
  fetchJobs s w
  = match tab_error s tab_jobs with
    | Some m =>
        (inl (PostgrestError m),
         mkScene (store w) (page w) (calls w ++ [(Select, inl t_ingestion_jobs)]))
    | None =>
        (inr tt,
         mkScene (store w)
           (with_jobs (page w)
              (take 50 (reverse (if admin s (store w)
                                 then ingestion_jobs (Backend.base (store w))
                                 else []))))
           (calls w ++ [(Select, inl t_ingestion_jobs)]))
    end.
Proof.
  unfold fetchJobs, select_jobs, tab_error, call_error. run_c.
  cbn [tab_table tab_relation].
  destruct (fault s Select (inl t_ingestion_jobs)); [reflexivity|].
  destruct (policy_failure Select r_ingestion_jobs); reflexivity.
Qed.

Lemma fetchAuditLog_run s w :
  fetchAuditLog s w
  = match tab_error s tab_audit with
    | Some m =>
        (inl (PostgrestError m),
         mkScene (store w) (page w) (calls w ++ [(Select, inr Backend.t_audit_log)]))
    | None =>
        (inr tt,
         mkScene (store w)
           (with_auditLog (page w)
              (take 100 (reverse (if admin s (store w)
                                  then Backend.audit_log (store w) else []))))
           (calls w ++ [(Select, inr Backend.t_audit_log)]))
    end.
Proof.
  unfold fetchAuditLog, select_audit_log, tab_error, call_error. run_c.
  cbn [tab_table tab_relation].
  destruct (fault s Select (inr Backend.t_audit_log)); [reflexivity|].
  destruct (policy_failure Select r_audit_log); reflexivity.
Qed.

Lemma fetchStats_run s w :
  fetchStats s w
  = (inr tt,
     mkScene (store w) (with_stats (page w) (counted s (store w)))
       (calls w ++ count_calls)).
Proof.
  unfold fetchStats, counted, count_calls, or_zero. run_c.
  rewrite <- !app_assoc. cbn [app].
  destruct (fault s Select (inl t_drugs)), (fault s Select (inl t_genes)),
    (fault s Select (inr Backend.t_guidelines)); reflexivity.
Qed.

Lemma fetchData_run s w :
  fetchData s w
  = (inr tt,
     match tab_error s (activeTab (page w)) with
     | Some _ =>
         mkScene (store w) (with_loading (page w) false)
           (calls w ++ [(Select, tab_table (activeTab (page w)))])
     | None =>
         mkScene (store w)
           (with_loading
              (with_stats (tab_loaded s (store w) (page w)) (counted s (store w)))
              false)
           (calls w ++ (Select, tab_table (activeTab (page w))) :: count_calls)
     end).
Proof.
  destruct w as [b [tab l1 l2 l3 st ld sh ed fd ts] c].
  unfold fetchData.
  cbv [mbind mret C_bind C_ret bind_C unit_C get_page setLoading set_page].
  cbn [fst snd store page calls activeTab].
  unfold attempt. cbv [mbind mret C_bind C_ret bind_C unit_C].
  unfold tab_loaded. cbn [activeTab].
  destruct tab; cbn [tab_table].
  - rewrite fetchSources_run. cbn [store page calls].
    destruct (tab_error s tab_sources); [reflexivity|].
    rewrite fetchStats_run. cbn [fst snd store page calls].
    rewrite <- app_assoc. reflexivity.
  - rewrite fetchJobs_run. cbn [store page calls].
    destruct (tab_error s tab_jobs); [reflexivity|].
    rewrite fetchStats_run. cbn [fst snd store page calls].
    rewrite <- app_assoc. reflexivity.
  - rewrite fetchAuditLog_run. cbn [store page calls].
    destruct (tab_error s tab_audit); [reflexivity|].
    rewrite fetchStats_run. cbn [fst snd store page calls].
    rewrite <- app_assoc. reflexivity.
Qed.

(** Every statement whose policy reads [app_admins] is answered with
    an error, by the call or by the policy. *)
Lemma guarded_call_fails s v t r :
  policy_failure v r = Some (infinite_recursion r_app_admins) ->
  exists m,
    call_error s v t r = Some m
    ∧ (fault s v t = None -> m = infinite_recursion r_app_admins).
Proof.
  intros Hp. unfold call_error. destruct (fault s v t) as [m|].
  - exists m. split; [reflexivity|discriminate].
  - rewrite Hp. eexists. split; reflexivity.
Qed.

(** X15. When the endpoint acknowledges the [POST] but the job row
    cannot be stored, because the caller is no administrator or the
    storage fails, [triggerWebhook] leaves the database as it was and
    still shows "... triggered successfully". *)
Theorem trigger_reports_success_without_a_job e w jobType url :
  Admin.acknowledged e jobType url = true ->
  is_admin e (db w) = false ∨ faults e Insert t_ingestion_jobs ≠ None ->
  Admin.triggerWebhook e jobType url w
  = (inr tt,
     mkWorld (db w)
       (Admin.mkState None
          (Some (Admin.mkToast (jobType +:+ " triggered successfully") Admin.success)))
       (log w ++ [(Insert, t_ingestion_jobs)])).
Proof.
  intros Hack _. unfold Admin.acknowledged in Hack.
  unfold Admin.triggerWebhook, insert_ingestion_job.
  cbv [mbind M_bind bind mret M_ret ret try_catch throw get_ui modify_ui storage
       Admin.setWebhookLoading Admin.showToast].
  cbn [fst snd ui db log].
  destruct (fetch e url _) as [m|status]; [discriminate|].
  rewrite Hack. cbn [negb fst snd ui db log]. unfold respond.
  destruct (faults e Insert t_ingestion_jobs) as [m|]; [reflexivity|].
  rewrite AdminFacts.job_insert_policy. reflexivity.
Qed.

Lemma trigger_reports_success_without_a_job_witness :
  Admin.triggerWebhook (Sample.env Sample.alice) "FDA Ingestion" "https://hook"
    Sample.admin0
  = (inr tt,
     mkWorld Sample.db0
       (Admin.mkState None
          (Some (Admin.mkToast "FDA Ingestion triggered successfully" Admin.success)))
       [(Insert, t_ingestion_jobs)]).
Proof.
  apply (trigger_reports_success_without_a_job (Sample.env Sample.alice)
           Sample.admin0 "FDA Ingestion" "https://hook").
  - reflexivity.
  - left. reflexivity.
Defined.

(** X16. [fetchData] always returns normally, never writes to the
    storage and ends with the loading flag off. When the list of the
    active tab cannot be read, nothing on the page is refreshed and
    the counters are not even requested; when it can, the counters
    are set to the sizes of [drugs], [genes] and [guidelines], a
    count that fails being shown as 0. *)
Theorem fetchData_settles s w :
  fst (fetchData s w) = inr tt
  ∧ store (snd (fetchData s w)) = store w
  ∧ loading (page (snd (fetchData s w))) = false
  ∧ match tab_error s (activeTab (page w)) with
    | Some _ =>
        page (snd (fetchData s w)) = with_loading (page w) false
        ∧ calls (snd (fetchData s w))
          = (calls w ++ [(Select, tab_table (activeTab (page w)))])%list
    | None =>
        stats (page (snd (fetchData s w))) = counted s (store w)
        ∧ calls (snd (fetchData s w))
          = (calls w ++ (Select, tab_table (activeTab (page w))) :: count_calls)%list
    end.
Proof.
  rewrite fetchData_run. cbn [fst snd].
  destruct (tab_error s (activeTab (page w)));
    cbn [store page calls]; repeat split.
Qed.

(** X17. The job list and the audit list are never loaded: for every
    caller and whatever the tables hold, [fetchJobs] and
    [fetchAuditLog] throw the error their read is answered with, which
    is the failure of the policy when the call itself goes through,
    and leave the lists as they were; [fetchData] on these two tabs
    ends with the page as it was, the loading flag off and the
    counters not requested. *)
Theorem job_and_audit_lists_never_load s w :
  (exists m,
     fetchJobs s w
     = (inl (PostgrestError m),
        mkScene (store w) (page w) (calls w ++ [(Select, inl t_ingestion_jobs)]))
     ∧ (fault s Select (inl t_ingestion_jobs) = None ->
        m = infinite_recursion r_app_admins))
  ∧ (exists m,
       fetchAuditLog s w
       = (inl (PostgrestError m),
          mkScene (store w) (page w) (calls w ++ [(Select, inr Backend.t_audit_log)]))
       ∧ (fault s Select (inr Backend.t_audit_log) = None ->
          m = infinite_recursion r_app_admins))
  ∧ (activeTab (page w) ≠ tab_sources ->
     fetchData s w
     = (inr tt,
        mkScene (store w) (with_loading (page w) false)
          (calls w ++ [(Select, tab_table (activeTab (page w)))]))).
Proof.
  destruct (guarded_call_fails s Select (inl t_ingestion_jobs) r_ingestion_jobs eq_refl)
    as (mj & Hj & Hjm).
  destruct (guarded_call_fails s Select (inr Backend.t_audit_log) r_audit_log eq_refl)
    as (ma & Ha & Ham).
  split; [|split].
  - exists mj. rewrite fetchJobs_run. unfold tab_error. cbn [tab_table tab_relation].
    rewrite Hj. split; [reflexivity|exact Hjm].
  - exists ma. rewrite fetchAuditLog_run. unfold tab_error. cbn [tab_table tab_relation].
    rewrite Ha. split; [reflexivity|exact Ham].
  - intros Htab. rewrite fetchData_run. unfold tab_error.
    destruct (activeTab (page w)); [congruence| |]; cbn [tab_table tab_relation].
    + now rewrite Hj.
    + now rewrite Ha.
Qed.

(** Bob is listed in [app_admins]; his jobs tab stays empty. *)
Lemma job_and_audit_lists_never_load_witness :
  fetchData (Office.setting Sample.bob true)
    (mkScene Office.backend0 Office.page_jobs [])
  = (inr tt,
     mkScene Office.backend0 (with_loading Office.page_jobs false)
       [(Select, inl t_ingestion_jobs)]).
Proof.
  apply (proj2 (proj2 (job_and_audit_lists_never_load (Office.setting Sample.bob true)
                         (mkScene Office.backend0 Office.page_jobs [])))).
  discriminate.
Defined.

(** X19. A caller who is not an administrator changes nothing in the
    storage through [handleSubmitSource] or [handleDeleteSource],
    whatever the dialog holds and whichever identifier is given. *)
Theorem only_administrators_change_sources s w id :
  admin s (store w) = false ->
  store (snd (handleSubmitSource s w)) = store w
  ∧ store (snd (handleDeleteSource s id w)) = store w.
Proof.
  intros Ha. split.
  - destruct (editingSource (page w)) as [src|] eqn:He.
    + rewrite (submit_update_run s w src He).
      destruct (call_error s Update (inr Backend.t_sources) r_sources); cbn [snd store];
        [reflexivity|]. now rewrite Ha.
    + rewrite (submit_insert_run s w He). unfold insert_refusal.
      destruct (call_error s Insert (inr Backend.t_sources) r_sources); [reflexivity|].
      rewrite Ha. reflexivity.
  - rewrite delete_run.
    destruct (confirm s _); [|reflexivity].
    destruct (call_error s Delete (inr Backend.t_sources) r_sources); cbn [snd store];
      [reflexivity|]. now rewrite Ha.
Qed.

Lemma only_administrators_change_sources_witness :
  store (snd (handleSubmitSource (Office.setting Sample.alice true) Office.scene_adding))
  = Office.backend0
  ∧ store (snd (handleDeleteSource (Office.setting Sample.alice true) "s-1"
                  Office.scene_adding))
    = Office.backend0.
Proof.
  apply (only_administrators_change_sources (Office.setting Sample.alice true)
           Office.scene_adding "s-1").
  reflexivity.
Defined.

(** X20. No write to [sources] goes through, for an administrator no
    more than for anybody else: [handleSubmitSource], for an insert as
    for an update, and a confirmed [handleDeleteSource] leave the
    storage as it was, show the error they were answered with in an
    error toast and do not refresh the list; the dialog stays as it
    was. When the call itself goes through, the error is the failure
    of the policy, which reads [app_admins]. *)
Theorem every_source_write_is_refused s w id :
  (exists m,
     handleSubmitSource s w
     = (inr tt,
        mkScene (store w)
          (with_toast (page w) (Text.js_or_lit (Some m) "Failed to save source")
             Admin.error)
          (calls w ++ [submit_call (page w)]))
     ∧ (fault s (fst (submit_call (page w))) (inr Backend.t_sources) = None ->
        m = infinite_recursion r_app_admins))
  ∧ (confirm s "Are you sure you want to delete this source?" = true ->
     exists m,
       handleDeleteSource s id w
       = (inr tt,
          mkScene (store w)
            (with_toast (page w) (Text.js_or_lit (Some m) "Failed to delete source")
               Admin.error)
            (calls w ++ [(Delete, inr Backend.t_sources)]))
       ∧ (fault s Delete (inr Backend.t_sources) = None ->
          m = infinite_recursion r_app_admins)).
Proof.
  split.
  - unfold submit_call. destruct (editingSource (page w)) as [src|] eqn:He.
    + destruct (guarded_call_fails s Update (inr Backend.t_sources) r_sources eq_refl)
        as (m & Hm & Hmm).
      exists m. rewrite (submit_update_run s w src He), Hm. split; [reflexivity|exact Hmm].
    + destruct (guarded_call_fails s Insert (inr Backend.t_sources) r_sources eq_refl)
        as (m & Hm & Hmm).
      exists m. rewrite (submit_insert_run s w He). unfold insert_refusal. rewrite Hm.
      split; [reflexivity|exact Hmm].
  - intros Hc.
    destruct (guarded_call_fails s Delete (inr Backend.t_sources) r_sources eq_refl)
      as (m & Hm & Hmm).
    exists m. rewrite delete_run, Hc, Hm. split; [reflexivity|exact Hmm].
Qed.

(** Bob is listed in [app_admins]: his delete of a source is refused
    like anybody's. *)
Lemma every_source_write_is_refused_witness :
  is_admin (env (Office.setting Sample.bob true)) Office.base0 = true
  ∧ exists m,
      handleDeleteSource (Office.setting Sample.bob true) "s-1" Office.scene0
      = (inr tt,
         mkScene Office.backend0
           (with_toast Office.page0 (Text.js_or_lit (Some m) "Failed to delete source")
              Admin.error)
           [(Delete, inr Backend.t_sources)])
      ∧ m = infinite_recursion r_app_admins.
Proof.
  split; [reflexivity|].
  destruct (proj2 (every_source_write_is_refused (Office.setting Sample.bob true)
                     Office.scene0 "s-1") eq_refl) as (m & Hrun & Hm).
  exists m. split; [exact Hrun|]. apply Hm. reflexivity.
Defined.

(** X24. When the storage turns the write of [handleSubmitSource]
    down (the call fails, the caller may not insert, or the new
    identifier is taken), the handler returns normally, shows the
    error text in an error toast ("Failed to save source" if the text
    is empty), keeps the dialog open with what was typed, stores
    nothing and does not refresh the list. *)
Theorem failed_submit_keeps_the_dialog s w m :
  refusal s w = Some m ->
  handleSubmitSource s w
  = (inr tt,
     mkScene (store w)
       (with_toast (page w) (Text.js_or_lit (Some m) "Failed to save source")
          Admin.error)
       (calls w ++ [submit_call (page w)])).
Proof.
  unfold refusal, submit_call. intros Hm.
  destruct (editingSource (page w)) as [src|] eqn:He.
  - rewrite (submit_update_run s w src He), Hm. reflexivity.
  - rewrite (submit_insert_run s w He), Hm. reflexivity.
Qed.

Lemma failed_submit_keeps_the_dialog_witness :
  handleSubmitSource (Office.setting Sample.alice true) Office.scene_adding
  = (inr tt,
     mkScene Office.backend0
       (with_toast Office.page_adding
          (Text.js_or_lit (Some (infinite_recursion r_app_admins)) "Failed to save source")
          Admin.error)
       [(Insert, inr Backend.t_sources)]).
Proof.
  apply (failed_submit_keeps_the_dialog (Office.setting Sample.alice true)
           Office.scene_adding (infinite_recursion r_app_admins)).
  reflexivity.
Defined.

End DashboardFacts.

(** ** The source dialog *)

Module DialogFacts.
Import Dashboard Desk.

(** X28. The "Add Source" button forgets the source that was being
    edited: after opening a source in the dialog, pressing "Add
    Source", typing and submitting, the one statement sent is an
    insert, not an update of the source that had been opened. The
    insert is refused like every write to [sources]: the rows are as
    before, an error toast is shown, and the dialog stays open for a
    new source with what was typed. *)
Theorem add_after_edit_sends_an_insert s w src f :
  exists m,
    handleSubmitSource s
      (snd (setFormData f (snd (openAddModal (snd (handleEditSource src w))))))
    = (inr tt,
       mkScene (store w)
         (mkState (activeTab (page w)) (sources (page w)) (jobs (page w))
            (auditLog (page w)) (stats (page w)) (loading (page w)) true None f
            (Some (Admin.mkToast (Text.js_or_lit (Some m) "Failed to save source")
                     Admin.error)))
         (calls w ++ [(Insert, inr Backend.t_sources)])).
Proof.
  destruct (DashboardFacts.guarded_call_fails s Insert (inr Backend.t_sources) r_sources
              eq_refl) as (m & Hm & _).
  exists m. rewrite DashboardFacts.submit_insert_run by reflexivity.
  unfold insert_refusal.
  change (store (snd (setFormData f (snd (openAddModal (snd (handleEditSource src w)))))))
    with (store w).
  rewrite Hm. reflexivity.
Qed.

End DialogFacts.

(** ** The evidence page *)

Module EvidenceFacts.
Import Evidence.

Lemma filter_js_complete p q (l : list GuidelineWithDetails.t) :
  (forall g, g ∈ l -> p g = inr (q g)) ->
  filter_js p l = inr (filter (fun g => q g = true) l).
Proof.
  induction l as [|g l IH]; intros H; [reflexivity|].
  cbn [filter_js]. rewrite (H g) by apply list_elem_of_here.
  rewrite IH by (intros g' Hg'; apply H; now apply list_elem_of_further).
  destruct (q g) eqn:E.
  - now rewrite filter_cons_True.
  - rewrite filter_cons_False; [reflexivity|]. now rewrite E.
Qed.

Lemma narrow_complete cell p q (l : list GuidelineWithDetails.t) :
  (forall g, g ∈ l -> p g = inr (q g)) ->
  narrow cell p (inr l) = inr (filter (fun g => (String.eqb cell "" || q g) = true) l).
Proof.
  intros H. unfold narrow. destruct (String.eqb cell "") eqn:E.
  - f_equal. symmetry. apply SavedFacts.filter_all. intros; reflexivity.
  - cbn [orb]. now apply filter_js_complete.
Qed.

Lemma eqb_is_decide (a b : string) :
  String.eqb a b = bool_decide (Some a = Some b).
Proof.
  destruct (String.eqb_spec a b) as [->|Hne].
  - now rewrite bool_decide_eq_true_2.
  - rewrite bool_decide_eq_false_2; [reflexivity|]. congruence.
Qed.

Lemma search_hit_complete lc term g :
  complete g -> search_hit lc term g = inr (found lc term g).
Proof.
  intros [[n Hn] [sy Hs]]. unfold search_hit, found, drug_name, gene_symbol.
  rewrite Hn, Hs.
  destruct (includes (lc n) term); [reflexivity|].
  destruct (includes (lc sy) term); reflexivity.
Qed.

Lemma drug_is_complete name g :
  complete g ->
  drug_is name g = inr (bool_decide (GuidelineWithDetails.drug g = Some name)).
Proof.
  intros [[n Hn] _]. unfold drug_is, drug_name. rewrite Hn. now rewrite eqb_is_decide.
Qed.

Lemma gene_is_complete symbol g :
  complete g ->
  gene_is symbol g = inr (bool_decide (GuidelineWithDetails.gene g = Some symbol)).
Proof.
  intros [_ [n Hn]]. unfold gene_is, gene_symbol. rewrite Hn. now rewrite eqb_is_decide.
Qed.

Lemma level_is_decide level g :
  level_is level g
  = inr (bool_decide (GuidelineWithDetails.evidence_level g = Some level)).
Proof.
  unfold level_is. destruct (GuidelineWithDetails.evidence_level g) as [l|].
  - now rewrite eqb_is_decide.
  - rewrite bool_decide_eq_false_2; [reflexivity|]. discriminate.
Qed.

(** X25. When every loaded guideline has its drug and its gene,
    [filterGuidelines] returns normally and the list it shows is
    exactly the loaded guidelines that meet every filter that is
    set, in their loaded order: the search term, read without regard
    to letter case, occurs in the drug name, the gene symbol or the
    recommendation; the drug, the gene and the evidence level are
    the selected ones, letter for letter. The other cells are left
    as they were. This holds however the engine folds letters. *)
Theorem filters_show_exactly_the_matching_rows toLowerCase st :
  (forall g, g ∈ guidelines st -> complete g) ->
  filterGuidelines toLowerCase st
  = inr (mkState (guidelines st)
           (filter (fun g => meets toLowerCase st g = true) (guidelines st))
           (loading st) (searchTerm st) (drugFilter st) (geneFilter st)
           (evidenceFilter st) (expandedId st)).
Proof.
  intros Hc. unfold filterGuidelines.
  rewrite (narrow_complete _ _ (found toLowerCase (toLowerCase (searchTerm st))))
    by (intros g Hg; apply search_hit_complete, Hc, Hg).
  rewrite (narrow_complete _ _
             (fun g => bool_decide (GuidelineWithDetails.drug g = Some (drugFilter st))))
    by (intros g Hg; apply drug_is_complete, Hc;
        apply list_elem_of_filter in Hg; tauto).
  rewrite (narrow_complete _ _
             (fun g => bool_decide (GuidelineWithDetails.gene g = Some (geneFilter st))))
    by (intros g Hg; apply gene_is_complete, Hc;
        apply list_elem_of_filter in Hg as [_ Hg];
        apply list_elem_of_filter in Hg; tauto).
  rewrite (narrow_complete _ _
             (fun g => bool_decide
                         (GuidelineWithDetails.evidence_level g = Some (evidenceFilter st))))
    by (intros g Hg; apply level_is_decide).
  do 2 f_equal. rewrite !list_filter_filter. apply list_filter_iff.
  intros g. unfold meets.
  rewrite !andb_true_iff. tauto.
Qed.

Lemma filters_show_exactly_the_matching_rows_witness :
  filterGuidelines Text.lower (Shelf.page [Shelf.row1; Shelf.row2] "CYP2c" "Warfarin")
  = inr (mkState [Shelf.row1; Shelf.row2] [Shelf.row1] false "CYP2c" "Warfarin"
           "" "" None).
Proof.
  rewrite (filters_show_exactly_the_matching_rows Text.lower
             (Shelf.page [Shelf.row1; Shelf.row2] "CYP2c" "Warfarin")).
  - vm_compute. reflexivity.
  - intros g Hg. vm_compute in Hg.
    inversion Hg as [|? ? ? Hg']; subst; [split; eexists; reflexivity|].
    apply list_elem_of_singleton in Hg'. subst. split; eexists; reflexivity.
Defined.




Lemma narrow_thrown cell p err : narrow cell p (inl err) = inl err.
Proof. reflexivity. Qed.

(** The cards of a list with a head that throws are not drawn. *)
Lemma cards_throw l g :
  g ∈ l -> (exists x, card_header g = inl x) -> exists x, cards l = inl x.
Proof.
  induction l as [|h l IH]; intros Hg Hthrow; [inversion Hg|].
  cbn [cards]. destruct (card_header h) as [x|hd] eqn:Hh; [now exists x|].
  assert (Hin : g ∈ l).
  { inversion Hg as [|? ? ? Hg']; subst; [|exact Hg'].
    destruct Hthrow as [x Hx]. congruence. }
  destruct (IH Hin Hthrow) as [x Hx]. rewrite Hx. now exists x.
Qed.



End EvidenceFacts.

Module MissingSourceFacts.

(** X27. A guideline whose [source_id] is [NULL] is loaded by
    [fetchGuidelines] like any other, with no source, and the page
    cannot draw it: the head of its card reads the name of the
    missing source and throws, and with it the whole list of cards. *)
Theorem guideline_without_source_cannot_be_drawn e b st gid g0 :
  GuidelineWithDetails.select_fault e = None ->
  gid ∈ GuidelineWithDetails.by_created_at e ->
  guidelines (Backend.base b) !! gid = Some g0 ->
  Guideline.source_id g0 = None ->
  (exists g,
     g ∈ Evidence.guidelines (Evidence.fetchGuidelines e b st)
     ∧ GuidelineWithDetails.id g = gid
     ∧ GuidelineWithDetails.source g = None
     ∧ exists x, Evidence.card_header g = inl x)
  ∧ Evidence.filteredGuidelines (Evidence.fetchGuidelines e b st)
    = Evidence.guidelines (Evidence.fetchGuidelines e b st)
  ∧ exists x,
      Evidence.cards (Evidence.filteredGuidelines (Evidence.fetchGuidelines e b st))
      = inl x.
Proof.
  intros He Hord Hg Hsrc.
  assert (Hin : GuidelineWithDetails.of_row b gid g0
                ∈ Evidence.guidelines (Evidence.fetchGuidelines e b st)).
  { unfold Evidence.fetchGuidelines, GuidelineWithDetails.select. rewrite He.
    cbn [Resp.error Resp.data default Evidence.guidelines].
    apply list_elem_of_omap. exists gid. split; [now apply elem_of_reverse|].
    now rewrite Hg. }
  assert (Hnone : GuidelineWithDetails.source (GuidelineWithDetails.of_row b gid g0)
                  = None).
  { unfold GuidelineWithDetails.of_row. cbn [GuidelineWithDetails.source].
    now rewrite Hsrc. }
  assert (Hthrow : exists x,
            Evidence.card_header (GuidelineWithDetails.of_row b gid g0) = inl x).
  { unfold Evidence.card_header.
    destruct (Evidence.drug_name _); [now eexists|].
    destruct (Evidence.gene_symbol _); [now eexists|].
    rewrite Hnone. now eexists. }
  assert (Hsame : Evidence.filteredGuidelines (Evidence.fetchGuidelines e b st)
                  = Evidence.guidelines (Evidence.fetchGuidelines e b st)).
  { unfold Evidence.fetchGuidelines, GuidelineWithDetails.select. rewrite He.
    reflexivity. }
  split; [|split; [exact Hsame|]].
  - exists (GuidelineWithDetails.of_row b gid g0).
    split; [exact Hin|]. split; [reflexivity|]. split; [exact Hnone|exact Hthrow].
  - rewrite Hsame. exact (EvidenceFacts.cards_throw _ _ Hin Hthrow).
Qed.

(** The guideline of [Sample.db0] has a drug and a gene and no
    source. *)
Lemma guideline_without_source_cannot_be_drawn_witness :
  Evidence.guidelines
    (Evidence.fetchGuidelines Shelf.reading Shelf.backend (Shelf.page [] "" ""))
  = [GuidelineWithDetails.mk "gl-1" None (Some "High") (Some "Reduce dose")
       (Some "Lower the starting dose.") (Some "Warfarin") (Some "CYP2C9") None]
  ∧ exists x,
      Evidence.cards
        (Evidence.filteredGuidelines
           (Evidence.fetchGuidelines Shelf.reading Shelf.backend (Shelf.page [] "" "")))
      = inl x.
Proof.
  split; [vm_compute; reflexivity|].
  apply (guideline_without_source_cannot_be_drawn Shelf.reading Shelf.backend
           (Shelf.page [] "" "") "gl-1" Sample.guideline1).
  - reflexivity.
  - apply list_elem_of_here.
  - vm_compute. reflexivity.
  - reflexivity.
Defined.

End MissingSourceFacts.
